(** * Food Waste Tracking & Donation Database: model and verified properties

    A shallow embedding of the Flask application under [app/]: the
    SQLAlchemy models ([app/models]), the WTForms validation layer
    ([app/forms]) and the donor, NGO, authentication and public
    controllers ([app/routes]).

    Conventions.
    - A table is the list of its rows; a row is a record with the columns
      of the model class.  Loaded objects are identified by primary key,
      as in the ORM session's identity map, so a method that mutates
      [self] or [self.donation] is a function on the database.
    - Dates ([date.today()], [expiry_date]) are day numbers and
      timestamps ([datetime.utcnow()]) are integers, both in [Z].
    - A string is a sequence of characters with code points below 256
      (the Latin-1 range of Python's [str]); [len] is its length.
      Python's [str.strip] and [str.lower] act on this range as Python
      defines them; SQL's [lower] folds the letters A to Z only.
    - A commit succeeds when the pending rows satisfy the [unique=True]
      columns, and is rolled back otherwise; new rows get the key one
      past the largest key of their table.
    - [updated_at], a bookkeeping column rewritten by the ORM on UPDATE
      and read by no code path, is not part of the rows. *)

From Stdlib Require Import ZArith List String Ascii Bool Lia.
From Stdlib Require Import Permutation Sorted.
Import ListNotations.

Local Open Scope string_scope.
Local Open Scope Z_scope.

(** ** Python values *)

Module Py.

(** [str.isspace] on a character: the code points 9 to 13, 28 to 32,
    133 (next line) and 160 (no-break space).  These are the characters
    [str.strip] removes. *)
Definition isspace (c : ascii) : bool :=
  let n := nat_of_ascii c in
  (Nat.eqb n 32 || (Nat.leb 9 n && Nat.leb n 13)
   || (Nat.leb 28 n && Nat.leb n 31)
   || Nat.eqb n 133 || Nat.eqb n 160)%bool.

Fixpoint lstrip (s : string) : string :=
  match s with
  | EmptyString => EmptyString
  | String c s' => if isspace c then lstrip s' else s
  end.

Fixpoint rstrip (s : string) : string :=
  match s with
  | EmptyString => EmptyString
  | String c s' =>
      match rstrip s' with
      | EmptyString => if isspace c then EmptyString else String c EmptyString
      | r => String c r
      end
  end.

(** [s.strip()] *)
Definition strip (s : string) : string := rstrip (lstrip s).

(** [str.lower] on a character: the letters A to Z, and the capital
    letters 192 to 222 of Latin-1 (214 and 216 included, the
    multiplication sign 215 not). *)
Definition lower_char (c : ascii) : ascii :=
  let n := nat_of_ascii c in
  if ((Nat.leb 65 n && Nat.leb n 90)
      || (Nat.leb 192 n && Nat.leb n 222 && negb (Nat.eqb n 215)))%bool
  then ascii_of_nat (n + 32) else c.

(** [s.lower()] *)
Fixpoint lower (s : string) : string :=
  match s with
  | EmptyString => EmptyString
  | String c s' => String (lower_char c) (lower s')
  end.

(** Truth value of a string: [bool(s)]. *)
Definition truthy (s : string) : bool :=
  match s with EmptyString => false | _ => true end.

(** Truth value of an optional string ([None] or [str]). *)
Definition truthy_opt (o : option string) : bool :=
  match o with Some s => truthy s | None => false end.

(** [len(s)] *)
Definition len (s : string) : nat := String.length s.

(** [x in xs] for a list of strings. *)
Definition str_in (x : string) (xs : list string) : bool :=
  existsb (String.eqb x) xs.

End Py.

(** ** Data model ([app/models]) *)

(** Enumerated column [donation_status]. *)
Module DonationStatus.
Inductive t : Set := available | claimed | completed | expired.

Definition eqb (a b : t) : bool :=
  match a, b with
  | available, available | claimed, claimed
  | completed, completed | expired, expired => true
  | _, _ => false
  end.
End DonationStatus.

(** Enumerated column [claim_status]. *)
Module ClaimStatus.
Inductive t : Set := claimed | scheduled | picked_up | completed | cancelled.

Definition eqb (a b : t) : bool :=
  match a, b with
  | claimed, claimed | scheduled, scheduled | picked_up, picked_up
  | completed, completed | cancelled, cancelled => true
  | _, _ => false
  end.

(** The column value from the string the forms exchange. *)
Definition of_string (s : string) : option t :=
  if String.eqb s "claimed" then Some claimed
  else if String.eqb s "scheduled" then Some scheduled
  else if String.eqb s "picked_up" then Some picked_up
  else if String.eqb s "completed" then Some completed
  else if String.eqb s "cancelled" then Some cancelled
  else None.

(** The string of a column value. *)
Definition to_string (s : t) : string :=
  match s with
  | claimed => "claimed"
  | scheduled => "scheduled"
  | picked_up => "picked_up"
  | completed => "completed"
  | cancelled => "cancelled"
  end.
End ClaimStatus.

(** Enumerated column [user_types]. *)
Module UserType.
Inductive t : Set := donor | ngo.

Definition eqb (a b : t) : bool :=
  match a, b with
  | donor, donor | ngo, ngo => true
  | _, _ => false
  end.

End UserType.

(** [class User] ([app/models/user.py]). *)
Module User.
Record t : Set := mk {
  id : Z;
  username : string;
  email : string;
  password_hash : string;
  user_type : UserType.t;
  full_name : string;
  phone : option string;
  address : option string;
  city : option string;
  organization_name : option string;
  registration_number : option string;
  is_active : bool;
  created_at : Z
}.

Definition is_donor (u : t) : bool := UserType.eqb (user_type u) UserType.donor.
Definition is_ngo (u : t) : bool := UserType.eqb (user_type u) UserType.ngo.

(** [UserMixin.is_authenticated] returns [self.is_active]. *)
Definition is_authenticated (u : t) : bool := is_active u.

Definition get_display_name (u : t) : string :=
  match organization_name u with
  | Some o => if (is_ngo u && Py.truthy o)%bool then o else full_name u
  | None => full_name u
  end.

(** [User.validate_ngo_fields], the model's own statement of which NGO
    fields count as present. *)
Definition validate_ngo_fields (organization_name registration_number : option string)
  : bool * string :=
  if negb (match organization_name with
           | Some o => (Py.truthy o && Py.truthy (Py.strip o))%bool
           | None => false end)
  then (false, "Organization name is required for NGOs")
  else if negb (match registration_number with
                | Some r => (Py.truthy r && Py.truthy (Py.strip r))%bool
                | None => false end)
  then (false, "Registration number is required for NGOs")
  else (true, "Valid").
End User.

(** [class Category] ([app/models/food_donation.py]). *)
Module Category.
Record t : Set := mk {
  id : Z;
  name : string;
  description : option string;
  created_at : Z
}.
End Category.

(** [class FoodDonation] ([app/models/food_donation.py]). *)
Module FoodDonation.
Record t : Set := mk {
  id : Z;
  donor_id : Z;
  category_id : Z;
  title : string;
  description : option string;
  quantity : Z;
  unit : string;
  expiry_date : Z;
  pickup_address : string;
  pickup_city : string;
  pickup_instructions : option string;
  status : DonationStatus.t;
  is_perishable : bool;
  dietary_info : option string;
  created_at : Z
}.

Definition set_status (s : DonationStatus.t) (d : t) : t :=
  mk (id d) (donor_id d) (category_id d) (title d) (description d)
     (quantity d) (unit d) (expiry_date d) (pickup_address d)
     (pickup_city d) (pickup_instructions d) s (is_perishable d)
     (dietary_info d) (created_at d).

(** [is_expired]: [self.expiry_date < date.today()] *)
Definition is_expired (today : Z) (d : t) : bool := expiry_date d <? today.

Definition is_available (today : Z) (d : t) : bool :=
  (DonationStatus.eqb (status d) DonationStatus.available
   && negb (is_expired today d))%bool.

Definition days_until_expiry (today : Z) (d : t) : Z := expiry_date d - today.

Definition is_urgent (today : Z) (d : t) : bool := days_until_expiry today d <=? 2.

Definition can_be_edited (d : t) : bool :=
  DonationStatus.eqb (status d) DonationStatus.available.

Definition can_be_claimed (today : Z) (d : t) : bool :=
  (DonationStatus.eqb (status d) DonationStatus.available
   && negb (is_expired today d))%bool.

(** [update_status_if_expired]: the updated object and the returned flag. *)
Definition update_status_if_expired (today : Z) (d : t) : t * bool :=
  if (is_expired today d
      && DonationStatus.eqb (status d) DonationStatus.available)%bool
  then (set_status DonationStatus.expired d, true)
  else (d, false).
End FoodDonation.

(** [class Claim] ([app/models/claim.py]): the columns.  The methods that
    reach through [self.donation] follow the database below. *)
Module Claim.
Record t : Set := mk {
  id : Z;
  donation_id : Z;
  ngo_id : Z;
  status : ClaimStatus.t;
  claimed_at : option Z;
  pickup_scheduled_at : option Z;
  completed_at : option Z;
  notes : option string
}.

Definition set_status (s : ClaimStatus.t) (c : t) : t :=
  mk (id c) (donation_id c) (ngo_id c) s (claimed_at c)
     (pickup_scheduled_at c) (completed_at c) (notes c).

Definition set_completed_at (ts : option Z) (c : t) : t :=
  mk (id c) (donation_id c) (ngo_id c) (status c) (claimed_at c)
     (pickup_scheduled_at c) ts (notes c).

Definition set_notes (n : option string) (c : t) : t :=
  mk (id c) (donation_id c) (ngo_id c) (status c) (claimed_at c)
     (pickup_scheduled_at c) (completed_at c) n.

Definition is_active (c : t) : bool :=
  negb (ClaimStatus.eqb (status c) ClaimStatus.completed
        || ClaimStatus.eqb (status c) ClaimStatus.cancelled).

Definition can_be_cancelled (c : t) : bool :=
  (ClaimStatus.eqb (status c) ClaimStatus.claimed
   || ClaimStatus.eqb (status c) ClaimStatus.scheduled)%bool.
End Claim.

(** ** The database and the ORM session *)

Module Db.
(** The four tables, each the list of its rows. *)
Record t : Set := mk {
  users : list User.t;
  categories : list Category.t;
  food_donations : list FoodDonation.t;
  claims : list Claim.t
}.

Definition with_users (us : list User.t) (db : t) : t :=
  mk us (categories db) (food_donations db) (claims db).
Definition with_food_donations (ds : list FoodDonation.t) (db : t) : t :=
  mk (users db) (categories db) ds (claims db).
Definition with_claims (cs : list Claim.t) (db : t) : t :=
  mk (users db) (categories db) (food_donations db) cs.

(** The key the database gives to an inserted row: one past the largest
    key of the table. *)
Definition next_id (ids : list Z) : Z := 1 + fold_right Z.max 0 ids.

(** [User.query.get(id)] *)
Definition get_user (db : t) (i : Z) : option User.t :=
  find (fun u => User.id u =? i) (users db).

(** [FoodDonation.query.get(id)] *)
Definition get_donation (db : t) (i : Z) : option FoodDonation.t :=
  find (fun d => FoodDonation.id d =? i) (food_donations db).

(** [FoodDonation.query.filter_by(id=id, donor_id=donor).first()] *)
Definition donation_of_donor (db : t) (i donor : Z) : option FoodDonation.t :=
  find (fun d => (FoodDonation.id d =? i) && (FoodDonation.donor_id d =? donor))%bool
       (food_donations db).

(** [Claim.query.filter_by(id=id, ngo_id=ngo).first()] *)
Definition claim_of_ngo (db : t) (i ngo : Z) : option Claim.t :=
  find (fun c => (Claim.id c =? i) && (Claim.ngo_id c =? ngo))%bool (claims db).

(** The relationship [FoodDonation.claim] ([uselist=False]): the claim
    row whose [donation_id] is this donation. *)
Definition claim_of_donation (db : t) (donation : Z) : option Claim.t :=
  find (fun c => Claim.donation_id c =? donation) (claims db).

(** The back reference [Claim.donation]. *)
Definition donation_of_claim (db : t) (c : Claim.t) : option FoodDonation.t :=
  get_donation db (Claim.donation_id c).

(** Attribute assignment on the loaded object with primary key [i]. *)
Definition update_donation (i : Z) (f : FoodDonation.t -> FoodDonation.t) (db : t) : t :=
  with_food_donations
    (map (fun d => if FoodDonation.id d =? i then f d else d) (food_donations db)) db.

Definition update_claim (i : Z) (f : Claim.t -> Claim.t) (db : t) : t :=
  with_claims (map (fun c => if Claim.id c =? i then f c else c) (claims db)) db.

(** [db.session.add(row)] for each table. *)
Definition add_user (u : User.t) (db : t) : t := with_users (users db ++ [u]) db.
Definition add_donation (d : FoodDonation.t) (db : t) : t :=
  with_food_donations (food_donations db ++ [d]) db.
Definition add_claim (c : Claim.t) (db : t) : t := with_claims (claims db ++ [c]) db.

(** [db.session.delete(donation)]; the relationship's
    [cascade='all, delete-orphan'] deletes its claim with it. *)
Definition delete_donation (i : Z) (db : t) : t :=
  mk (users db) (categories db)
     (filter (fun d => negb (FoodDonation.id d =? i)) (food_donations db))
     (filter (fun c => negb (Claim.donation_id c =? i)) (claims db)).

Fixpoint distinctZ (l : list Z) : bool :=
  match l with
  | [] => true
  | x :: r => (negb (existsb (Z.eqb x) r) && distinctZ r)%bool
  end.

Fixpoint distinct_str (l : list string) : bool :=
  match l with
  | [] => true
  | x :: r => (negb (existsb (String.eqb x) r) && distinct_str r)%bool
  end.

(** The [unique=True] columns: [users.username], [users.email],
    [categories.name] and [claims.donation_id]. *)
Definition unique_ok (db : t) : bool :=
  (distinct_str (map User.username (users db))
   && distinct_str (map User.email (users db))
   && distinct_str (map Category.name (categories db))
   && distinctZ (map Claim.donation_id (claims db)))%bool.

(** [try: db.session.commit() ... except: db.session.rollback()]:
    the pending state is written when it satisfies the constraints,
    and the state before the request is kept otherwise. *)
Definition try_commit (before pending : t) : t * bool :=
  if unique_ok pending then (pending, true) else (before, false).
End Db.

(** [Claim.mark_as_completed] *)
Definition mark_as_completed (utcnow : Z) (c : Claim.t) (db : Db.t) : Db.t :=
  let db1 :=
    Db.update_claim (Claim.id c)
      (fun x => Claim.set_completed_at (Some utcnow)
                  (Claim.set_status ClaimStatus.completed x)) db in
  match Db.donation_of_claim db1 c with
  | Some d =>
      Db.update_donation (FoodDonation.id d)
        (FoodDonation.set_status DonationStatus.completed) db1
  | None => db1
  end.

(** [Claim.cancel_claim] *)
Definition cancel_claim_method (reason : option string) (c : Claim.t) (db : Db.t) : Db.t :=
  let db1 := Db.update_claim (Claim.id c) (Claim.set_status ClaimStatus.cancelled) db in
  let db2 :=
    match reason with
    | Some r =>
        if Py.truthy r
        then Db.update_claim (Claim.id c)
               (Claim.set_notes (Some ("Cancelled: " ++ r)%string)) db1
        else db1
    | None => db1
    end in
  match Db.donation_of_claim db2 c with
  | Some d =>
      Db.update_donation (FoodDonation.id d)
        (FoodDonation.set_status DonationStatus.available) db2
  | None => db2
  end.

(** ** Requests and responses *)

Inductive Method : Set := GET | POST.

(** What a form needs of the request: its method and whether the CSRF
    token it carries is the session's. *)
Record Request : Set := mkRequest { method : Method; csrf_ok : bool }.

(** [FlaskForm.is_submitted] *)
Definition is_submitted (r : Request) : bool :=
  match method r with POST => true | GET => false end.

Inductive Location : Set :=
| url_for (endpoint : string) (id : option Z)
| external (target : string).

Inductive Response : Set :=
| redirect (to : Location)
| render_template (name : string)
| abort (code : Z).

(** A flashed message and its category. *)
Definition Flash : Set := (string * string)%type.

Record Reply : Set := mkReply { flashes : list Flash; response : Response }.

Definition reply (r : Response) : Reply := mkReply [] r.
Definition flash (message category : string) (r : Response) : Reply :=
  mkReply [(message, category)] r.

Definition dquote : string := String (ascii_of_nat 34) EmptyString.

(** The clock and the vendored predicates a request handler reads. *)
Record Env : Type := mkEnv {
  today : Z;
  utcnow : Z;
  email_syntax_ok : string -> bool;
  generate_password_hash : string -> string;
  check_password_hash : string -> string -> bool
}.

(** [current_user]: the row the user loader finds for the id kept in
    the session, if any. *)
Definition current_user (db : Db.t) (session : option Z) : option User.t :=
  match session with
  | Some i => Db.get_user db i
  | None => None
  end.

Definition is_authenticated (cu : option User.t) : bool :=
  match cu with Some u => User.is_authenticated u | None => false end.

(** [@login_required] *)
Definition login_required (cu : option User.t) (db : Db.t)
    (f : User.t -> Db.t * Reply) : Db.t * Reply :=
  match cu with
  | Some u =>
      if User.is_authenticated u then f u
      else (db, flash "Please log in to access this page." "info"
                  (redirect (url_for "auth.login" None)))
  | None => (db, flash "Please log in to access this page." "info"
                   (redirect (url_for "auth.login" None)))
  end.

(** [@ngo_required] *)
Definition ngo_required (u : User.t) (db : Db.t)
    (f : Db.t * Reply) : Db.t * Reply :=
  if (negb (User.is_authenticated u) || negb (User.is_ngo u))%bool
  then (db, flash "Access denied. NGO account required." "error"
              (redirect (url_for "main.index" None)))
  else f.

(** [@donor_required] *)
Definition donor_required (u : User.t) (db : Db.t)
    (f : Db.t * Reply) : Db.t * Reply :=
  if (negb (User.is_authenticated u) || negb (User.is_donor u))%bool
  then (db, flash "Access denied. Donor account required." "error"
              (redirect (url_for "main.index" None)))
  else f.

(** ** Validation layer ([app/forms]) *)

(** The WTForms validators the forms use, on field [.data] values. *)
Module Validators.
(** What a validator does to the chain of its field: pass, record an
    error and go on ([ValidationError]), or record an error and stop
    ([StopValidation]). *)
Inductive Verdict : Set :=
| pass
| invalid (message : string)
| stop (message : string).

Fixpoint run_chain (vs : list Verdict) : list string :=
  match vs with
  | [] => []
  | pass :: r => run_chain r
  | invalid m :: r => m :: run_chain r
  | stop m :: _ => [m]
  end.

(** [DataRequired] on a string field: the data is truthy and does not
    strip to the empty string. *)
Definition DataRequired (message : string) (data : option string) : Verdict :=
  match data with
  | Some s => if (Py.truthy s && Py.truthy (Py.strip s))%bool then pass else stop message
  | None => stop message
  end.

(** [DataRequired] on an integer field: the data is truthy. *)
Definition DataRequiredZ (message : string) (data : option Z) : Verdict :=
  match data with
  | Some n => if n =? 0 then stop message else pass
  | None => stop message
  end.

(** [DataRequired] on a date field: a date is always truthy. *)
Definition DataRequiredDate (message : string) (data : option Z) : Verdict :=
  match data with
  | Some _ => pass
  | None => stop message
  end.

(** [Length(min, max)]; [None] for a bound that is not given. *)
Definition Length (min : nat) (max : option nat) (message : string)
    (data : option string) : Verdict :=
  let l := match data with Some s => Py.len s | None => 0%nat end in
  if (Nat.leb min l && match max with Some m => Nat.leb l m | None => true end)%bool
  then pass else invalid message.

(** [NumberRange(min, max)] *)
Definition NumberRange (min max : Z) (message : string) (data : option Z) : Verdict :=
  match data with
  | Some n => if ((min <=? n) && (n <=? max))%bool then pass else invalid message
  | None => invalid message
  end.

(** [EqualTo(other)] *)
Definition EqualTo (message : string) (data other : option string) : Verdict :=
  match data, other with
  | Some a, Some b => if String.eqb a b then pass else invalid message
  | None, None => pass
  | _, _ => invalid message
  end.

(** The choice check of a [SelectField] with string values. *)
Definition valid_choice (choices : list string) (data : option string) : Verdict :=
  match data with
  | Some s => if Py.str_in s choices then pass else invalid "Not a valid choice."
  | None => invalid "Not a valid choice."
  end.

(** The choice check of a [SelectField] with [coerce=int]. *)
Definition valid_choiceZ (choices : list Z) (data : option Z) : Verdict :=
  match data with
  | Some n => if existsb (Z.eqb n) choices then pass else invalid "Not a valid choice."
  | None => invalid "Not a valid choice."
  end.

(** The errors of a form: field name and messages, for the fields that
    have any. *)
Definition field_errors (name : string) (vs : list Verdict)
  : list (string * list string) :=
  match run_chain vs with
  | [] => []
  | ms => [(name, ms)]
  end.
End Validators.

(** [class ClaimForm] *)
Module ClaimForm.
Record t : Set := mk { notes : option string }.

Definition errors (f : t) : list (string * list string) :=
  Validators.field_errors "notes"
    [Validators.Length 0 (Some 300%nat) "Notes cannot exceed 300 characters." (notes f)].

Definition validate_on_submit (r : Request) (f : t) : bool :=
  (is_submitted r && csrf_ok r
   && match errors f with [] => true | _ => false end)%bool.
End ClaimForm.

(** [class UpdateClaimForm] *)
Module UpdateClaimForm.
Record t : Set := mk { status : option string; notes : option string }.

(** [UpdateClaimForm(obj=claim)] on a request: the data of a field is
    the value the request carries for it, and the claim's attribute
    when the request does not carry the field.  [posted] has [None] for
    a field that the request does not carry. *)
Definition process (claim : Claim.t) (posted : t) : t :=
  mk (match status posted with
      | Some value => Some value
      | None => Some (ClaimStatus.to_string (Claim.status claim))
      end)
     (match notes posted with
      | Some value => Some value
      | None => Claim.notes claim
      end).

Definition status_choices : list string :=
  ["claimed"; "scheduled"; "picked_up"; "completed"; "cancelled"].

Definition errors (f : t) : list (string * list string) :=
  Validators.field_errors "status"
    [Validators.valid_choice status_choices (status f);
     Validators.DataRequired "This field is required." (status f)]
  ++ Validators.field_errors "notes"
    [Validators.Length 0 (Some 300%nat) "Notes cannot exceed 300 characters." (notes f)].

Definition validate_on_submit (r : Request) (f : t) : bool :=
  (is_submitted r && csrf_ok r
   && match errors f with [] => true | _ => false end)%bool.
End UpdateClaimForm.

(** [class FoodDonationForm] *)
Module FoodDonationForm.
Record t : Set := mk {
  title : option string;
  description : option string;
  category_id : option Z;
  quantity : option Z;
  unit : option string;
  expiry_date : option Z;
  pickup_address : option string;
  pickup_city : option string;
  pickup_instructions : option string;
  is_perishable : bool;
  dietary_info : option string
}.

Definition unit_choices : list string :=
  ["kg"; "lbs"; "pieces"; "portions"; "liters"; "bottles"; "packages";
   "boxes"; "bags"; "other"].

Definition dietary_choices : list string :=
  [""; "vegetarian"; "vegan"; "gluten-free"; "dairy-free"; "nut-free";
   "halal"; "kosher"; "organic"; "other"].

(** [__init__]: the category choices are the categories of the
    database, or the placeholder 0 when there is none. *)
Definition category_choices (db : Db.t) : list Z :=
  match Db.categories db with
  | [] => [0]
  | cs => map Category.id cs
  end.

(** [validate_expiry_date] *)
Definition validate_expiry_date (today : Z) (data : option Z) : Validators.Verdict :=
  match data with
  | Some d =>
      if d <? today then Validators.invalid "Expiry date cannot be in the past."
      else if d >? today + 365
      then Validators.invalid
             "Expiry date seems too far in the future. Please check the date."
      else Validators.pass
  | None => Validators.pass
  end.

Definition errors (today : Z) (db : Db.t) (f : t) : list (string * list string) :=
  Validators.field_errors "title"
    [Validators.DataRequired "Title is required." (title f);
     Validators.Length 3 (Some 100%nat)
       "Title must be between 3 and 100 characters." (title f)]
  ++ Validators.field_errors "description"
    [Validators.Length 0 (Some 500%nat)
       "Description cannot exceed 500 characters." (description f)]
  ++ Validators.field_errors "category_id"
    [Validators.valid_choiceZ (category_choices db) (category_id f);
     Validators.DataRequiredZ "Please select a category." (category_id f)]
  ++ Validators.field_errors "quantity"
    [Validators.DataRequiredZ "Quantity is required." (quantity f);
     Validators.NumberRange 1 10000
       "Quantity must be between 1 and 10,000." (quantity f)]
  ++ Validators.field_errors "unit"
    [Validators.valid_choice unit_choices (unit f);
     Validators.DataRequired "Please select a unit." (unit f)]
  ++ Validators.field_errors "expiry_date"
    [Validators.DataRequiredDate "Expiry date is required." (expiry_date f);
     validate_expiry_date today (expiry_date f)]
  ++ Validators.field_errors "pickup_address"
    [Validators.DataRequired "Pickup address is required." (pickup_address f);
     Validators.Length 10 (Some 500%nat)
       "Address must be between 10 and 500 characters." (pickup_address f)]
  ++ Validators.field_errors "pickup_city"
    [Validators.DataRequired "City is required." (pickup_city f);
     Validators.Length 2 (Some 50%nat)
       "City must be between 2 and 50 characters." (pickup_city f)]
  ++ Validators.field_errors "pickup_instructions"
    [Validators.Length 0 (Some 300%nat)
       "Instructions cannot exceed 300 characters." (pickup_instructions f)]
  ++ Validators.field_errors "dietary_info"
    [Validators.valid_choice dietary_choices (dietary_info f)].

Definition validate_on_submit (today : Z) (db : Db.t) (r : Request) (f : t) : bool :=
  (is_submitted r && csrf_ok r
   && match errors today db f with [] => true | _ => false end)%bool.
End FoodDonationForm.

(** [x.strip() if x else None] *)
Definition strip_or_none (data : option string) : option string :=
  match data with
  | Some s => if Py.truthy s then Some (Py.strip s) else None
  | None => None
  end.

(** [x if x else None] *)
Definition value_or_none (data : option string) : option string :=
  match data with
  | Some s => if Py.truthy s then Some s else None
  | None => None
  end.

(** [x.strip()] of a required field. *)
Definition stripped (data : option string) : string :=
  match data with Some s => Py.strip s | None => EmptyString end.

(** ** NGO controller ([app/routes/ngo.py]) *)

Module Ngo.
(** [claim_donation(id)] *)
Definition claim_donation (env : Env) (session : option Z) (id : Z)
    (req : Request) (form : ClaimForm.t) (db : Db.t) : Db.t * Reply :=
  login_required (current_user db session) db (fun u =>
  ngo_required u db
    match Db.get_donation db id with
    | None => (db, reply (abort 404))
    | Some donation =>
        if negb (FoodDonation.can_be_claimed (today env) donation)
        then (db, flash "This donation is no longer available for claiming." "error"
                    (redirect (url_for "ngo.view_donation" (Some id))))
        else
          match Db.claim_of_donation db (FoodDonation.id donation) with
          | Some _ =>
              (db, flash "This donation has already been claimed by another NGO."
                     "error" (redirect (url_for "ngo.view_donation" (Some id))))
          | None =>
              if ClaimForm.validate_on_submit req form then
                let claim :=
                  Claim.mk (Db.next_id (map Claim.id (Db.claims db)))
                    (FoodDonation.id donation) (User.id u) ClaimStatus.claimed
                    (Some (utcnow env)) None None
                    (strip_or_none (ClaimForm.notes form)) in
                let pending :=
                  Db.add_claim claim
                    (Db.update_donation (FoodDonation.id donation)
                       (FoodDonation.set_status DonationStatus.claimed) db) in
                match Db.try_commit db pending with
                | (db', true) =>
                    (db', flash ("Successfully claimed " ++ dquote
                                 ++ FoodDonation.title donation ++ dquote
                                 ++ "! Please coordinate pickup with the donor.")%string
                            "success"
                            (redirect (url_for "ngo.view_claim" (Some (Claim.id claim)))))
                | (db', false) =>
                    (db', flash "An error occurred while claiming the donation." "error"
                            (render_template "ngo/claim_donation.html"))
                end
              else (db, reply (render_template "ngo/claim_donation.html"))
          end
    end).

(** [update_claim(id)]; [posted] are the fields that the request
    carries, and [form] is [UpdateClaimForm(obj=claim)] once it has read
    them. *)
Definition update_claim (env : Env) (session : option Z) (id : Z)
    (req : Request) (posted : UpdateClaimForm.t) (db : Db.t) : Db.t * Reply :=
  login_required (current_user db session) db (fun u =>
  ngo_required u db
    match Db.claim_of_ngo db id (User.id u) with
    | None => (db, reply (abort 404))
    | Some claim =>
        let form := UpdateClaimForm.process claim posted in
        if UpdateClaimForm.validate_on_submit req form then
          match UpdateClaimForm.status form with
          | None => (db, reply (render_template "ngo/update_claim.html"))
          | Some target =>
              match ClaimStatus.of_string target with
              | None => (db, reply (render_template "ngo/update_claim.html"))
              | Some new_status =>
                  let old_status := Claim.status claim in
                  let db1 := Db.update_claim (Claim.id claim)
                               (Claim.set_status new_status) db in
                  let db2 :=
                    Db.update_claim (Claim.id claim)
                      (Claim.set_notes
                         (if Py.truthy_opt (UpdateClaimForm.notes form)
                          then Some (stripped (UpdateClaimForm.notes form))
                          else Claim.notes claim)) db1 in
                  let pending :=
                    if (String.eqb target "completed"
                        && negb (ClaimStatus.eqb old_status ClaimStatus.completed))%bool
                    then mark_as_completed (utcnow env) claim db2
                    else if String.eqb target "cancelled"
                    then cancel_claim_method (UpdateClaimForm.notes form) claim db2
                    else db2 in
                  match Db.try_commit db pending with
                  | (db', true) =>
                      (db', flash "Claim status updated successfully!" "success"
                              (redirect (url_for "ngo.view_claim" (Some id))))
                  | (db', false) =>
                      (db', flash "An error occurred while updating the claim." "error"
                              (render_template "ngo/update_claim.html"))
                  end
              end
          end
        else (db, reply (render_template "ngo/update_claim.html"))
    end).

(** [cancel_claim(id)]; [reason] is the form field of that name, when
    the request carries it. *)
Definition cancel_claim (session : option Z) (id : Z)
    (reason : option string) (db : Db.t) : Db.t * Reply :=
  login_required (current_user db session) db (fun u =>
  ngo_required u db
    match Db.claim_of_ngo db id (User.id u) with
    | None => (db, reply (abort 404))
    | Some claim =>
        if negb (Claim.can_be_cancelled claim)
        then (db, flash "This claim cannot be cancelled at its current status." "error"
                    (redirect (url_for "ngo.view_claim" (Some id))))
        else
          let reason :=
            match reason with Some r => r | None => "Cancelled by NGO"%string end in
          let pending := cancel_claim_method (Some reason) claim db in
          match Db.try_commit db pending with
          | (db', true) =>
              (db', flash "Claim has been cancelled successfully." "info"
                      (redirect (url_for "ngo.my_claims" None)))
          | (db', false) =>
              (db', flash "An error occurred while cancelling the claim." "error"
                      (redirect (url_for "ngo.my_claims" None)))
          end
    end).

(** [complete_pickup(id)].  The confirmation reads
    [claim.donation.title] inside the [try] block: without a donation
    the [except] branch answers, after the commit. *)
Definition complete_pickup (env : Env) (session : option Z) (id : Z)
    (db : Db.t) : Db.t * Reply :=
  login_required (current_user db session) db (fun u =>
  ngo_required u db
    match Db.claim_of_ngo db id (User.id u) with
    | None => (db, reply (abort 404))
    | Some claim =>
        if ClaimStatus.eqb (Claim.status claim) ClaimStatus.completed
        then (db, flash "This claim is already marked as completed." "info"
                    (redirect (url_for "ngo.my_claims" None)))
        else
          let pending := mark_as_completed (utcnow env) claim db in
          match Db.try_commit db pending with
          | (db', true) =>
              match Db.donation_of_claim db' claim with
              | Some donation =>
                  (db', flash ("Successfully marked pickup of " ++ dquote
                               ++ FoodDonation.title donation ++ dquote
                               ++ " as completed!")%string "success"
                          (redirect (url_for "ngo.my_claims" None)))
              | None =>
                  (db', flash "An error occurred while updating the claim status."
                          "error" (redirect (url_for "ngo.my_claims" None)))
              end
          | (db', false) =>
              (db', flash "An error occurred while updating the claim status." "error"
                      (redirect (url_for "ngo.my_claims" None)))
          end
    end).
End Ngo.

(** ** Donor controller ([app/routes/donor.py]) *)

Module Donor.
(** The expiry sweep of [dashboard]: the donor's donations with status
    [available] each get [update_status_if_expired]. *)
Definition swept (donor : Z) (d : FoodDonation.t) : bool :=
  ((FoodDonation.donor_id d =? donor)
   && DonationStatus.eqb (FoodDonation.status d) DonationStatus.available)%bool.

Definition sweep (today donor : Z) (ds : list FoodDonation.t) : list FoodDonation.t :=
  map (fun d => if swept donor d
                then fst (FoodDonation.update_status_if_expired today d) else d) ds.

Definition expired_count (today donor : Z) (ds : list FoodDonation.t) : Z :=
  Z.of_nat (List.length
    (filter (fun d => (swept donor d
                       && snd (FoodDonation.update_status_if_expired today d))%bool) ds)).

(** [dashboard()] *)
Definition dashboard (env : Env) (session : option Z) (db : Db.t) : Db.t * Reply :=
  login_required (current_user db session) db (fun u =>
  donor_required u db
    (let pending :=
       Db.with_food_donations
         (sweep (today env) (User.id u) (Db.food_donations db)) db in
     let db' :=
       if expired_count (today env) (User.id u) (Db.food_donations db) >? 0
       then pending else db in
     (db', reply (render_template "donor/dashboard.html")))).

(** The row [add_donation] builds from the validated form. *)
Definition new_donation (env : Env) (u : User.t) (form : FoodDonationForm.t)
    (db : Db.t) : FoodDonation.t :=
  FoodDonation.mk
    (Db.next_id (map FoodDonation.id (Db.food_donations db)))
    (User.id u)
    (match FoodDonationForm.category_id form with Some c => c | None => 0 end)
    (stripped (FoodDonationForm.title form))
    (strip_or_none (FoodDonationForm.description form))
    (match FoodDonationForm.quantity form with Some q => q | None => 0 end)
    (match FoodDonationForm.unit form with Some x => x | None => EmptyString end)
    (match FoodDonationForm.expiry_date form with Some e => e | None => 0 end)
    (stripped (FoodDonationForm.pickup_address form))
    (stripped (FoodDonationForm.pickup_city form))
    (strip_or_none (FoodDonationForm.pickup_instructions form))
    DonationStatus.available
    (FoodDonationForm.is_perishable form)
    (value_or_none (FoodDonationForm.dietary_info form))
    (utcnow env).

(** [add_donation()] *)
Definition add_donation (env : Env) (session : option Z)
    (req : Request) (form : FoodDonationForm.t) (db : Db.t) : Db.t * Reply :=
  login_required (current_user db session) db (fun u =>
  donor_required u db
    (if FoodDonationForm.validate_on_submit (today env) db req form then
       let donation := new_donation env u form db in
       match Db.try_commit db (Db.add_donation donation db) with
       | (db', true) =>
           (db', flash ("Food donation " ++ dquote ++ FoodDonation.title donation
                        ++ dquote ++ " has been added successfully!")%string "success"
                   (redirect (url_for "donor.dashboard" None)))
       | (db', false) =>
           (db', flash "An error occurred while adding the donation." "error"
                   (render_template "donor/add_donation.html"))
       end
     else (db, reply (render_template "donor/add_donation.html")))).

(** The assignments of [edit_donation] to the loaded donation. *)
Definition edited (form : FoodDonationForm.t) (d : FoodDonation.t) : FoodDonation.t :=
  FoodDonation.mk
    (FoodDonation.id d)
    (FoodDonation.donor_id d)
    (match FoodDonationForm.category_id form with Some c => c | None => 0 end)
    (stripped (FoodDonationForm.title form))
    (strip_or_none (FoodDonationForm.description form))
    (match FoodDonationForm.quantity form with Some q => q | None => 0 end)
    (match FoodDonationForm.unit form with Some x => x | None => EmptyString end)
    (match FoodDonationForm.expiry_date form with Some e => e | None => 0 end)
    (stripped (FoodDonationForm.pickup_address form))
    (stripped (FoodDonationForm.pickup_city form))
    (strip_or_none (FoodDonationForm.pickup_instructions form))
    (FoodDonation.status d)
    (FoodDonationForm.is_perishable form)
    (value_or_none (FoodDonationForm.dietary_info form))
    (FoodDonation.created_at d).

(** [edit_donation(id)]; [form] is the data of
    [FoodDonationForm(obj=donation)] once it has read the request: a
    field that the request does not carry holds the attribute of the
    donation. *)
Definition edit_donation (env : Env) (session : option Z) (id : Z)
    (req : Request) (form : FoodDonationForm.t) (db : Db.t) : Db.t * Reply :=
  login_required (current_user db session) db (fun u =>
  donor_required u db
    match Db.donation_of_donor db id (User.id u) with
    | None => (db, reply (abort 404))
    | Some donation =>
        if negb (FoodDonation.can_be_edited donation)
        then (db, flash "This donation cannot be edited as it has already been claimed."
                    "error" (redirect (url_for "donor.view_donation" (Some id))))
        else if FoodDonationForm.validate_on_submit (today env) db req form then
          let pending := Db.update_donation (FoodDonation.id donation) (edited form) db in
          match Db.try_commit db pending with
          | (db', true) =>
              (db', flash ("Donation " ++ dquote ++ stripped (FoodDonationForm.title form)
                           ++ dquote ++ " has been updated successfully!")%string
                      "success" (redirect (url_for "donor.view_donation" (Some id))))
          | (db', false) =>
              (db', flash "An error occurred while updating the donation." "error"
                      (render_template "donor/edit_donation.html"))
          end
        else (db, reply (render_template "donor/edit_donation.html"))
    end).

(** [view_donation(id)] *)
Definition view_donation (env : Env) (session : option Z) (id : Z)
    (db : Db.t) : Db.t * Reply :=
  login_required (current_user db session) db (fun u =>
  donor_required u db
    match Db.donation_of_donor db id (User.id u) with
    | None => (db, reply (abort 404))
    | Some donation =>
        let (donation', changed) :=
          FoodDonation.update_status_if_expired (today env) donation in
        let db' :=
          if changed
          then Db.update_donation (FoodDonation.id donation) (fun _ => donation') db
          else db in
        (db', reply (render_template "donor/view_donation.html"))
    end).

(** [delete_donation(id)] *)
Definition delete_donation (session : option Z) (id : Z) (db : Db.t) : Db.t * Reply :=
  login_required (current_user db session) db (fun u =>
  donor_required u db
    match Db.donation_of_donor db id (User.id u) with
    | None => (db, reply (abort 404))
    | Some donation =>
        if negb (FoodDonation.can_be_edited donation)
        then (db, flash "This donation cannot be deleted as it has already been claimed."
                    "error" (redirect (url_for "donor.view_donation" (Some id))))
        else
          let title := FoodDonation.title donation in
          match Db.try_commit db (Db.delete_donation (FoodDonation.id donation) db) with
          | (db', true) =>
              (db', flash ("Donation " ++ dquote ++ title ++ dquote
                           ++ " has been deleted successfully.")%string "success"
                      (redirect (url_for "donor.my_donations" None)))
          | (db', false) =>
              (db', flash "An error occurred while deleting the donation." "error"
                      (redirect (url_for "donor.my_donations" None)))
          end
    end).
End Donor.

(** ** Authentication controller ([app/forms/auth.py], [app/routes/auth.py]) *)

(** [class LoginForm] *)
Module LoginForm.
Record t : Set := mk {
  email : option string;
  password : option string;
  remember_me : bool
}.

Definition validate_email_syntax (env : Env) (message : string)
    (data : option string) : Validators.Verdict :=
  match data with
  | Some s => if email_syntax_ok env s then Validators.pass
              else Validators.invalid message
  | None => Validators.invalid message
  end.

Definition errors (env : Env) (f : t) : list (string * list string) :=
  Validators.field_errors "email"
    [Validators.DataRequired "Email is required." (email f);
     validate_email_syntax env "Please enter a valid email address." (email f)]
  ++ Validators.field_errors "password"
    [Validators.DataRequired "Password is required." (password f)].

Definition validate_on_submit (env : Env) (r : Request) (f : t) : bool :=
  (is_submitted r && csrf_ok r
   && match errors env f with [] => true | _ => false end)%bool.
End LoginForm.

(** [class RegistrationForm] *)
Module RegistrationForm.
Record t : Set := mk {
  username : option string;
  email : option string;
  password : option string;
  confirm_password : option string;
  user_type : option string;
  full_name : option string;
  phone : option string;
  address : option string;
  city : option string;
  organization_name : option string;
  registration_number : option string
}.

Definition data (o : option string) : string :=
  match o with Some s => s | None => EmptyString end.

(** [validate_username] *)
Definition validate_username (db : Db.t) (f : t) : Validators.Verdict :=
  match find (fun u => String.eqb (User.username u) (Py.lower (data (username f))))
             (Db.users db) with
  | Some _ => Validators.invalid
                "Username is already taken. Please choose a different one."
  | None => Validators.pass
  end.

(** [validate_email] *)
Definition validate_email (db : Db.t) (f : t) : Validators.Verdict :=
  match find (fun u => String.eqb (User.email u) (Py.lower (data (email f))))
             (Db.users db) with
  | Some _ => Validators.invalid
                "Email is already registered. Please use a different email or login."
  | None => Validators.pass
  end.

Definition is_ngo (f : t) : bool :=
  match user_type f with Some s => String.eqb s "ngo" | None => false end.

(** [validate_organization_name]:
    [self.user_type.data == 'ngo' and not field.data] *)
Definition validate_organization_name (f : t) : Validators.Verdict :=
  if (is_ngo f && negb (Py.truthy_opt (organization_name f)))%bool
  then Validators.invalid "Organization name is required for NGOs."
  else Validators.pass.

(** [validate_registration_number] *)
Definition validate_registration_number (f : t) : Validators.Verdict :=
  if (is_ngo f && negb (Py.truthy_opt (registration_number f)))%bool
  then Validators.invalid "Registration number is required for NGOs."
  else Validators.pass.

Definition errors (env : Env) (db : Db.t) (f : t) : list (string * list string) :=
  Validators.field_errors "username"
    [Validators.DataRequired "Username is required." (username f);
     Validators.Length 3 (Some 20%nat)
       "Username must be between 3 and 20 characters." (username f);
     validate_username db f]
  ++ Validators.field_errors "email"
    [Validators.DataRequired "Email is required." (email f);
     LoginForm.validate_email_syntax env "Please enter a valid email address." (email f);
     validate_email db f]
  ++ Validators.field_errors "password"
    [Validators.DataRequired "Password is required." (password f);
     Validators.Length 6 None
       "Password must be at least 6 characters long." (password f)]
  ++ Validators.field_errors "confirm_password"
    [Validators.DataRequired "Please confirm your password." (confirm_password f);
     Validators.EqualTo "Passwords must match." (confirm_password f) (password f)]
  ++ Validators.field_errors "user_type"
    [Validators.valid_choice ["donor"; "ngo"] (user_type f);
     Validators.DataRequired "Please select your user type." (user_type f)]
  ++ Validators.field_errors "full_name"
    [Validators.DataRequired "Full name is required." (full_name f);
     Validators.Length 2 (Some 100%nat)
       "Name must be between 2 and 100 characters." (full_name f)]
  ++ Validators.field_errors "phone"
    [Validators.Length 0 (Some 20%nat)
       "Phone number cannot exceed 20 characters." (phone f)]
  ++ Validators.field_errors "address"
    [Validators.Length 0 (Some 500%nat)
       "Address cannot exceed 500 characters." (address f)]
  ++ Validators.field_errors "city"
    [Validators.Length 0 (Some 50%nat)
       "City name cannot exceed 50 characters." (city f)]
  ++ Validators.field_errors "organization_name"
    [Validators.Length 0 (Some 100%nat)
       "Organization name cannot exceed 100 characters." (organization_name f);
     validate_organization_name f]
  ++ Validators.field_errors "registration_number"
    [Validators.Length 0 (Some 50%nat)
       "Registration number cannot exceed 50 characters." (registration_number f);
     validate_registration_number f].

Definition validate_on_submit (env : Env) (db : Db.t) (r : Request) (f : t) : bool :=
  (is_submitted r && csrf_ok r
   && match errors env db f with [] => true | _ => false end)%bool.
End RegistrationForm.

Module Auth.
(** What an authentication request returns: the database, the user id
    the session holds afterwards, and the reply. *)
Record Result : Set := mkResult {
  db_after : Db.t;
  session_after : option Z;
  answer : Reply
}.

(** [login()]; [next] is the query parameter of that name, when the
    request carries it. *)
Definition login (env : Env) (session : option Z) (next : option string)
    (req : Request) (form : LoginForm.t) (db : Db.t) : Result :=
  if is_authenticated (current_user db session)
  then mkResult db session (reply (redirect (url_for "main.dashboard" None)))
  else if LoginForm.validate_on_submit env req form then
    match find (fun u => String.eqb (User.email u)
                           (Py.lower (RegistrationForm.data (LoginForm.email form))))
               (Db.users db) with
    | Some user =>
        if check_password_hash env (User.password_hash user)
             (RegistrationForm.data (LoginForm.password form))
        then
          if negb (User.is_active user)
          then mkResult db session
                 (flash "Your account has been deactivated. Please contact support."
                    "error" (redirect (url_for "auth.login" None)))
          else
            let welcome :=
              ("Welcome back, " ++ User.get_display_name user ++ "!")%string in
            match next with
            | Some next_page =>
                if Py.truthy next_page
                then mkResult db (Some (User.id user))
                       (flash welcome "success" (redirect (external next_page)))
                else mkResult db (Some (User.id user))
                       (flash welcome "success"
                          (redirect (url_for "main.dashboard" None)))
            | None =>
                mkResult db (Some (User.id user))
                  (flash welcome "success" (redirect (url_for "main.dashboard" None)))
            end
        else mkResult db session
               (flash "Invalid email or password. Please try again." "error"
                  (render_template "auth/login.html"))
    | None =>
        mkResult db session
          (flash "Invalid email or password. Please try again." "error"
             (render_template "auth/login.html"))
    end
  else mkResult db session (reply (render_template "auth/login.html")).

(** The row [register] builds from the validated form. *)
Definition new_user (env : Env) (form : RegistrationForm.t) (db : Db.t) : User.t :=
  let ngo := RegistrationForm.is_ngo form in
  User.mk
    (Db.next_id (map User.id (Db.users db)))
    (Py.strip (Py.lower (RegistrationForm.data (RegistrationForm.username form))))
    (Py.strip (Py.lower (RegistrationForm.data (RegistrationForm.email form))))
    (generate_password_hash env (RegistrationForm.data (RegistrationForm.password form)))
    (if ngo then UserType.ngo else UserType.donor)
    (stripped (RegistrationForm.full_name form))
    (strip_or_none (RegistrationForm.phone form))
    (strip_or_none (RegistrationForm.address form))
    (strip_or_none (RegistrationForm.city form))
    (if ngo then Some (stripped (RegistrationForm.organization_name form)) else None)
    (if ngo then Some (stripped (RegistrationForm.registration_number form)) else None)
    true
    (utcnow env).

(** [register()] *)
Definition register (env : Env) (session : option Z)
    (req : Request) (form : RegistrationForm.t) (db : Db.t) : Result :=
  if is_authenticated (current_user db session)
  then mkResult db session (reply (redirect (url_for "main.dashboard" None)))
  else if RegistrationForm.validate_on_submit env db req form then
    let user := new_user env form db in
    match Db.try_commit db (Db.add_user user db) with
    | (db', true) =>
        mkResult db' (Some (User.id user))
          (flash ("Registration successful! Welcome to Food Waste Tracker, "
                  ++ User.get_display_name user ++ ".")%string "success"
             (redirect (url_for "main.dashboard" None)))
    | (db', false) =>
        mkResult db' session
          (flash "An error occurred during registration. Please try again." "error"
             (render_template "auth/register.html"))
    end
  else mkResult db session (reply (render_template "auth/register.html")).
End Auth.

(** ** Queries over donations *)

Module Sql.
Definition percent : ascii := ascii_of_nat 37.
Definition underscore : ascii := ascii_of_nat 95.

(** [text LIKE pattern], with no escape character: [%] stands for any
    run of characters and [_] for any single one. *)
Fixpoint like (pattern : string) : string -> bool :=
  match pattern with
  | EmptyString =>
      fun text => match text with EmptyString => true | _ => false end
  | String p rest =>
      if Ascii.eqb p percent then
        fix any (text : string) : bool :=
          (like rest text
           || match text with
              | EmptyString => false
              | String _ text' => any text'
              end)%bool
      else if Ascii.eqb p underscore then
        fun text =>
          match text with
          | EmptyString => false
          | String _ text' => like rest text'
          end
      else
        fun text =>
          match text with
          | EmptyString => false
          | String c text' => (Ascii.eqb c p && like rest text')%bool
          end
  end.

Definition lower_char (c : ascii) : ascii :=
  let n := nat_of_ascii c in
  if (Nat.leb 65 n && Nat.leb n 90)%bool then ascii_of_nat (n + 32) else c.

(** SQL [lower(s)]: the letters A to Z. *)
Fixpoint lower (s : string) : string :=
  match s with
  | EmptyString => EmptyString
  | String c s' => String (lower_char c) (lower s')
  end.

(** [column.ilike(pattern)]: [lower(column) LIKE lower(pattern)]. *)
Definition ilike (column pattern : string) : bool :=
  like (lower pattern) (lower column).

(** [ilike] on a nullable column: NULL matches nothing. *)
Definition ilike_opt (column : option string) (pattern : string) : bool :=
  match column with
  | Some c => ilike c pattern
  | None => false
  end.

(** [f'%{term}%'] *)
Definition contains_pattern (term : string) : string :=
  (String percent term ++ String percent EmptyString)%string.
End Sql.

(** A query on [food_donations]: the accumulated WHERE criteria and the
    ORDER BY relation, evaluated over the rows of the table. *)
Module Query.
Record t : Type := mk {
  criteria : FoodDonation.t -> bool;
  ordering : option (FoodDonation.t -> FoodDonation.t -> bool)
}.

(** [FoodDonation.query] *)
Definition query : t := mk (fun _ => true) None.

(** [query.filter(...)], [query.filter_by(...)] *)
Definition filter (p : FoodDonation.t -> bool) (q : t) : t :=
  mk (fun d => (criteria q d && p d)%bool) (ordering q).

(** [query.order_by(...)] *)
Definition order_by (le : FoodDonation.t -> FoodDonation.t -> bool) (q : t) : t :=
  mk (criteria q) (Some le).

Fixpoint insert (le : FoodDonation.t -> FoodDonation.t -> bool)
    (x : FoodDonation.t) (l : list FoodDonation.t) : list FoodDonation.t :=
  match l with
  | [] => [x]
  | y :: r => if le x y then x :: l else y :: insert le x r
  end.

(** Rows in the order of [le]; rows that [le] does not tell apart keep
    their table order. *)
Definition sort (le : FoodDonation.t -> FoodDonation.t -> bool)
    (l : list FoodDonation.t) : list FoodDonation.t :=
  fold_right (insert le) [] l.

(** [query.all()] *)
Definition all (q : t) (rows : list FoodDonation.t) : list FoodDonation.t :=
  let selected := List.filter (criteria q) rows in
  match ordering q with
  | Some le => sort le selected
  | None => selected
  end.

(** [query.paginate(page=page, per_page=per_page, error_out=False).items]:
    a page number below 1 is read as 1. *)
Definition paginate (page : Z) (per_page : nat) (q : t)
    (rows : list FoodDonation.t) : list FoodDonation.t :=
  let page := if page <? 1 then 1 else page in
  firstn per_page (skipn (Z.to_nat (page - 1) * per_page) (all q rows)).
End Query.

(** [expiry_date.asc(), created_at.desc()] *)
Definition by_urgency (a b : FoodDonation.t) : bool :=
  ((FoodDonation.expiry_date a <? FoodDonation.expiry_date b)
   || ((FoodDonation.expiry_date a =? FoodDonation.expiry_date b)
       && (FoodDonation.created_at b <=? FoodDonation.created_at a)))%bool.

(** [FoodDonation.get_available_donations(city, category_id, search)] *)
Definition get_available_donations (today : Z) (city : option string)
    (category_id : option Z) (search : option string) : Query.t :=
  let q0 :=
    Query.filter
      (fun d => DonationStatus.eqb (FoodDonation.status d) DonationStatus.available)
      Query.query in
  let q1 :=
    match city with
    | Some c =>
        if Py.truthy c
        then Query.filter
               (fun d => Sql.ilike (FoodDonation.pickup_city d) (Sql.contains_pattern c)) q0
        else q0
    | None => q0
    end in
  let q2 :=
    match category_id with
    | Some c =>
        if c =? 0 then q1
        else Query.filter (fun d => FoodDonation.category_id d =? c) q1
    | None => q1
    end in
  let q3 :=
    match search with
    | Some s =>
        if Py.truthy s
        then
          let search_term := Sql.contains_pattern s in
          Query.filter
            (fun d => (Sql.ilike (FoodDonation.title d) search_term
                       || Sql.ilike_opt (FoodDonation.description d) search_term)%bool) q2
        else q2
    | None => q2
    end in
  let q4 := Query.filter (fun d => today <=? FoodDonation.expiry_date d) q3 in
  Query.order_by by_urgency q4.

(** ** Public controller ([app/routes/main.py]) *)

Module Main.
(** The query parameters of [/browse], as [request.args.get] returns
    them: a missing text parameter is the empty string, a missing or
    unreadable [category_id] is 0 and a missing or unreadable [page]
    is 1. *)
Record BrowseArgs : Set := mkBrowseArgs {
  search : string;
  category_id : Z;
  city : string;
  dietary_info : string;
  page : Z
}.

(** The query [browse_donations] builds. *)
Definition browse_query (today : Z) (a : BrowseArgs) : Query.t :=
  let query :=
    get_available_donations today
      (if Py.truthy (city a) then Some (city a) else None)
      (if category_id a >? 0 then Some (category_id a) else None)
      (if Py.truthy (search a) then Some (search a) else None) in
  if Py.truthy (dietary_info a)
  then Query.filter
         (fun d => match FoodDonation.dietary_info d with
                   | Some x => String.eqb x (dietary_info a)
                   | None => false
                   end) query
  else query.

(** [browse_donations()]: the donations handed to the template. *)
Definition browse_donations (env : Env) (a : BrowseArgs) (db : Db.t)
  : list FoodDonation.t :=
  Query.paginate (page a) 12 (browse_query (today env) a) (Db.food_donations db).
End Main.

(** ** The application as a transition system *)

(** The requests that write to the database. *)
Inductive Action : Set :=
| Register (session : option Z) (req : Request) (form : RegistrationForm.t)
| AddDonation (session : option Z) (req : Request) (form : FoodDonationForm.t)
| EditDonation (session : option Z) (id : Z) (req : Request) (form : FoodDonationForm.t)
| DeleteDonation (session : option Z) (id : Z)
| DonorDashboard (session : option Z)
| DonorViewDonation (session : option Z) (id : Z)
| ClaimDonation (session : option Z) (id : Z) (req : Request) (form : ClaimForm.t)
| UpdateClaim (session : option Z) (id : Z) (req : Request) (form : UpdateClaimForm.t)
| CancelClaim (session : option Z) (id : Z) (reason : option string)
| CompletePickup (session : option Z) (id : Z).

(** The database after one request. *)
Definition step (env : Env) (a : Action) (db : Db.t) : Db.t :=
  match a with
  | Register s r f => Auth.db_after (Auth.register env s r f db)
  | AddDonation s r f => fst (Donor.add_donation env s r f db)
  | EditDonation s i r f => fst (Donor.edit_donation env s i r f db)
  | DeleteDonation s i => fst (Donor.delete_donation s i db)
  | DonorDashboard s => fst (Donor.dashboard env s db)
  | DonorViewDonation s i => fst (Donor.view_donation env s i db)
  | ClaimDonation s i r f => fst (Ngo.claim_donation env s i r f db)
  | UpdateClaim s i r f => fst (Ngo.update_claim env s i r f db)
  | CancelClaim s i reason => fst (Ngo.cancel_claim s i reason db)
  | CompletePickup s i => fst (Ngo.complete_pickup env s i db)
  end.

(** The database after a sequence of requests, each with its clock. *)
Definition run (trace : list (Env * Action)) (db : Db.t) : Db.t :=
  fold_left (fun db ea => step (fst ea) (snd ea) db) trace db.

(** The database after bootstrap: the seeded categories and no other row. *)
Definition bootstrap (categories : list Category.t) : Db.t :=
  Db.mk [] categories [] [].

(** A state is reachable when some sequence of requests leads to it from
    a bootstrap whose categories have distinct names. *)
Definition reachable (db : Db.t) : Prop :=
  exists categories trace,
    Db.distinct_str (map Category.name categories) = true
    /\ db = run trace (bootstrap categories).

(** The two ways of cancelling a claim: the cancel-claim action, and
    update-claim with target status [cancelled]. *)
Definition is_cancellation (a : Action) : bool :=
  match a with
  | CancelClaim _ _ _ => true
  | UpdateClaim _ _ _ f =>
      match UpdateClaimForm.status f with
      | Some s => String.eqb s "cancelled"
      | None => false
      end
  | _ => false
  end.

(** The request is a cancellation addressed to the claim with id [claim]. *)
Definition cancels (claim : Z) (a : Action) : bool :=
  match a with
  | CancelClaim _ i _ | UpdateClaim _ i _ _ =>
      (is_cancellation a && (i =? claim))%bool
  | _ => false
  end.

(** The request asks to delete donation [i]. *)
Definition deletes (i : Z) (a : Action) : bool :=
  match a with
  | DeleteDonation _ j => j =? i
  | _ => false
  end.

(** ** A worked scenario *)

Module Scenario.
Definition env (day : Z) : Env :=
  mkEnv day (day * 86400) (fun _ => true) (fun p => p) String.eqb.

Definition post : Request := mkRequest POST true.

Definition categories : list Category.t :=
  [Category.mk 1 "Bakery Items" (Some "Bread, pastries, and baked goods") 0].

Definition donor_form : RegistrationForm.t :=
  RegistrationForm.mk (Some "greenrest") (Some "g@x.com") (Some "secret1")
    (Some "secret1") (Some "donor") (Some "Green Restaurant")
    (Some "") (Some "") (Some "") (Some "") (Some "").

Definition ngo_form : RegistrationForm.t :=
  RegistrationForm.mk (Some "helping") (Some "h@x.org") (Some "secret2")
    (Some "secret2") (Some "ngo") (Some "Helen Hands")
    (Some "") (Some "") (Some "") (Some "Helping Hands") (Some "REG123").

Definition bread_form : FoodDonationForm.t :=
  FoodDonationForm.mk (Some "Surplus Bread") (Some "") (Some 1) (Some 20)
    (Some "pieces") (Some 103) (Some "123 Long Enough Address")
    (Some "Springfield") (Some "") true (Some "").

(** Donor 1 and NGO 2 register, the donor lists bread that expires on
    day 103, and the NGO claims it, all on day 100. *)
Definition claimed_trace : list (Env * Action) :=
  [(env 100, Register None post donor_form);
   (env 100, Register None post ngo_form);
   (env 100, AddDonation (Some 1) post bread_form);
   (env 100, ClaimDonation (Some 2) 1 post (ClaimForm.mk (Some "")))].

Definition claimed_db : Db.t := run claimed_trace (bootstrap categories).

(** The NGO then cancels its claim. *)
Definition cancelled_trace : list (Env * Action) :=
  claimed_trace ++ [(env 100, CancelClaim (Some 2) 1 None)].

Definition cancelled_db : Db.t := run cancelled_trace (bootstrap categories).

(** After the cancellation the donor deletes the bread and lists it
    again. *)
Definition relisted_trace : list (Env * Action) :=
  [(env 100, DeleteDonation (Some 1) 1);
   (env 100, AddDonation (Some 1) post bread_form)].

(** The state before the NGO's claim: the bread is listed. *)
Definition listed_trace : list (Env * Action) :=
  [(env 100, Register None post donor_form);
   (env 100, Register None post ngo_form);
   (env 100, AddDonation (Some 1) post bread_form)].

Definition listed_db : Db.t := run listed_trace (bootstrap categories).

(** Or the NGO reports the bread as picked up. *)
Definition picked_up_trace : list (Env * Action) :=
  claimed_trace
  ++ [(env 100, UpdateClaim (Some 2) 1 post
                  (UpdateClaimForm.mk (Some "picked_up") (Some "")))].

Definition picked_up_db : Db.t := run picked_up_trace (bootstrap categories).

Definition donor : User.t :=
  User.mk 1 "greenrest" "g@x.com" "secret1" UserType.donor "Green Restaurant"
    None None None None None true 8640000.

Definition ngo : User.t :=
  User.mk 2 "helping" "h@x.org" "secret2" UserType.ngo "Helen Hands"
    None None None (Some "Helping Hands") (Some "REG123") true 8640000.

Definition bread (status : DonationStatus.t) : FoodDonation.t :=
  FoodDonation.mk 1 1 1 "Surplus Bread" None 20 "pieces" 103
    "123 Long Enough Address" "Springfield" None status true None 8640000.

Definition bread_claim (status : ClaimStatus.t) (notes : option string) : Claim.t :=
  Claim.mk 1 1 2 status (Some 8640000) None None notes.
End Scenario.

(** ** Vocabulary of the statements *)

(** What the decorators let through: a session whose user is an active
    account of the role. *)
Definition ngo_session (db : Db.t) (session : option Z) (u : User.t) : Prop :=
  current_user db session = Some u
  /\ User.is_active u = true /\ User.is_ngo u = true.

Definition donor_session (db : Db.t) (session : option Z) (u : User.t) : Prop :=
  current_user db session = Some u
  /\ User.is_active u = true /\ User.is_donor u = true.

(** Primary keys are distinct, the unique columns are distinct and every
    claim refers to a donation of the table. *)
Record consistent (db : Db.t) : Prop := mkConsistent {
  cons_unique : Db.unique_ok db = true;
  cons_donation_keys : NoDup (map FoodDonation.id (Db.food_donations db));
  cons_claim_keys : NoDup (map Claim.id (Db.claims db));
  cons_claim_donation :
    forall c, In c (Db.claims db) ->
      exists d, In d (Db.food_donations db)
                /\ FoodDonation.id d = Claim.donation_id c
}.

(** The donation is held: its status is [claimed] or [completed]. *)
Definition held (d : FoodDonation.t) : Prop :=
  FoodDonation.status d = DonationStatus.claimed
  \/ FoodDonation.status d = DonationStatus.completed.

(** Every donation that a claim refers to is held, unless the claim's
    id is among [cancelled]. *)
Definition held_unless (cancelled : Z -> Prop) (db : Db.t) : Prop :=
  forall c d,
    In c (Db.claims db) -> In d (Db.food_donations db) ->
    Claim.donation_id c = FoodDonation.id d ->
    held d \/ cancelled (Claim.id c).

(** Row-wise relations between a table and the table after a request
    that only assigns attributes. *)
Definition same_claim_keys (c c' : Claim.t) : Prop :=
  Claim.id c' = Claim.id c
  /\ Claim.donation_id c' = Claim.donation_id c
  /\ Claim.ngo_id c' = Claim.ngo_id c.

Definition same_key (d d' : FoodDonation.t) : Prop :=
  FoodDonation.id d' = FoodDonation.id d.

Definition keeps_held (d d' : FoodDonation.t) : Prop :=
  FoodDonation.id d' = FoodDonation.id d /\ (held d -> held d').

(** As [keeps_held], but for the donation with key [j]. *)
Definition keeps_held_except (j : Z) (d d' : FoodDonation.t) : Prop :=
  FoodDonation.id d' = FoodDonation.id d
  /\ (FoodDonation.id d <> j -> held d -> held d').

Record rewrites (R : FoodDonation.t -> FoodDonation.t -> Prop)
    (db db' : Db.t) : Prop := mkRewrites {
  rw_users : Db.users db' = Db.users db;
  rw_categories : Db.categories db' = Db.categories db;
  rw_claims : Forall2 same_claim_keys (Db.claims db) (Db.claims db');
  rw_donations : Forall2 R (Db.food_donations db) (Db.food_donations db')
}.

Definition msg_unavailable : string :=
  "This donation is no longer available for claiming.".
Definition msg_already_claimed : string :=
  "This donation has already been claimed by another NGO.".

(** Donation [i] is in the table and some claim row refers to it. *)
Definition claim_row_kept (db : Db.t) (i : Z) : Prop :=
  (exists d, In d (Db.food_donations db) /\ FoodDonation.id d = i)
  /\ (exists c, In c (Db.claims db) /\ Claim.donation_id c = i).

(** The state [update_claim] commits when the target status is
    [cancelled]: the two assignments, then [cancel_claim]. *)
Definition update_cancelled_state (notes : option string) (c : Claim.t)
    (db : Db.t) : Db.t :=
  cancel_claim_method notes c
    (Db.update_claim (Claim.id c)
       (Claim.set_notes (if Py.truthy_opt notes then Some (stripped notes)
                         else Claim.notes c))
       (Db.update_claim (Claim.id c) (Claim.set_status ClaimStatus.cancelled) db)).

(** The donation after the expiry check. *)
Definition expire (today : Z) (d : FoodDonation.t) : FoodDonation.t :=
  fst (FoodDonation.update_status_if_expired today d).

(** The row the sweep of [dashboard] leaves for [d]. *)
Definition sweep_row (today donor : Z) (d : FoodDonation.t) : FoodDonation.t :=
  if Donor.swept donor d then expire today d else d.

(** The two pages whose load runs the expiry check. *)
Inductive Page : Set := DashboardPage | DetailPage.

(** The database after the donor of [session] loads the dashboard, or
    the detail view of donation [i]. *)
Definition load (env : Env) (session : option Z) (i : Z) (page : Page)
    (db : Db.t) : Db.t :=
  match page with
  | DashboardPage => fst (Donor.dashboard env session db)
  | DetailPage => fst (Donor.view_donation env session i db)
  end.

(** The listing as the specification words it: substring tests instead
    of LIKE patterns.  These definitions follow the specification, for
    comparison with [Main.browse_query]. *)
Module BrowseSpec.
(** [s.startswith(prefix)] *)
Fixpoint startswith (prefix s : string) : bool :=
  match prefix with
  | EmptyString => true
  | String c prefix' =>
      match s with
      | EmptyString => false
      | String d s' => (Ascii.eqb d c && startswith prefix' s')%bool
      end
  end.

(** Some suffix of the text passes [f]. *)
Fixpoint any_suffix (f : string -> bool) (text : string) : bool :=
  (f text
   || match text with
      | EmptyString => false
      | String _ text' => any_suffix f text'
      end)%bool.

(** [needle in text] *)
Definition contains (needle text : string) : bool :=
  any_suffix (startswith needle) text.





End BrowseSpec.

(** * Further pages and scripts *)

(** ** More of the ORM session *)

(** [Claim.query.get(id)] *)
Definition get_claim (db : Db.t) (i : Z) : option Claim.t :=
  find (fun c => Claim.id c =? i) (Db.claims db).

(** [User.query.filter_by(email=email).first()] *)
Definition user_by_email (db : Db.t) (email : string) : option User.t :=
  find (fun u => String.eqb (User.email u) email) (Db.users db).

(** Attribute assignment on the loaded user with primary key [i]. *)
Definition update_user (i : Z) (f : User.t -> User.t) (db : Db.t) : Db.t :=
  Db.with_users (map (fun u => if User.id u =? i then f u else u) (Db.users db)) db.

Definition set_is_active (b : bool) (u : User.t) : User.t :=
  User.mk (User.id u) (User.username u) (User.email u) (User.password_hash u)
    (User.user_type u) (User.full_name u) (User.phone u) (User.address u)
    (User.city u) (User.organization_name u) (User.registration_number u)
    b (User.created_at u).

(** [User.set_password] *)
Definition set_password (env : Env) (password : string) (u : User.t) : User.t :=
  User.mk (User.id u) (User.username u) (User.email u)
    (generate_password_hash env password)
    (User.user_type u) (User.full_name u) (User.phone u) (User.address u)
    (User.city u) (User.organization_name u) (User.registration_number u)
    (User.is_active u) (User.created_at u).

(** [User.check_password] *)
Definition check_password (env : Env) (u : User.t) (password : string) : bool :=
  check_password_hash env (User.password_hash u) password.

(** ** The rest of the authentication controller *)

(** [class ProfileForm] *)
Module ProfileForm.
Record t : Set := mk {
  full_name : option string;
  phone : option string;
  address : option string;
  city : option string;
  organization_name : option string
}.

(** [validate_organization_name]:
    [current_user.user_type == 'ngo' and not field.data] *)
Definition validate_organization_name (current : User.t) (f : t) : Validators.Verdict :=
  if (User.is_ngo current && negb (Py.truthy_opt (organization_name f)))%bool
  then Validators.invalid "Organization name is required for NGOs."
  else Validators.pass.

Definition errors (current : User.t) (f : t) : list (string * list string) :=
  Validators.field_errors "full_name"
    [Validators.DataRequired "Full name is required." (full_name f);
     Validators.Length 2 (Some 100%nat)
       "Name must be between 2 and 100 characters." (full_name f)]
  ++ Validators.field_errors "phone"
    [Validators.Length 0 (Some 20%nat)
       "Phone number cannot exceed 20 characters." (phone f)]
  ++ Validators.field_errors "address"
    [Validators.Length 0 (Some 500%nat)
       "Address cannot exceed 500 characters." (address f)]
  ++ Validators.field_errors "city"
    [Validators.Length 0 (Some 50%nat)
       "City name cannot exceed 50 characters." (city f)]
  ++ Validators.field_errors "organization_name"
    [Validators.Length 0 (Some 100%nat)
       "Organization name cannot exceed 100 characters." (organization_name f);
     validate_organization_name current f].

Definition validate_on_submit (current : User.t) (r : Request) (f : t) : bool :=
  (is_submitted r && csrf_ok r
   && match errors current f with [] => true | _ => false end)%bool.
End ProfileForm.

(** [class ChangePasswordForm] *)
Module ChangePasswordForm.
Record t : Set := mk {
  current_password : option string;
  new_password : option string;
  confirm_password : option string
}.

(** [validate_current_password] *)
Definition validate_current_password (env : Env) (current : User.t) (f : t)
  : Validators.Verdict :=
  if check_password env current (RegistrationForm.data (current_password f))
  then Validators.pass
  else Validators.invalid "Current password is incorrect.".

Definition errors (env : Env) (current : User.t) (f : t)
  : list (string * list string) :=
  Validators.field_errors "current_password"
    [Validators.DataRequired "Current password is required." (current_password f);
     validate_current_password env current f]
  ++ Validators.field_errors "new_password"
    [Validators.DataRequired "New password is required." (new_password f);
     Validators.Length 6 None
       "Password must be at least 6 characters long." (new_password f)]
  ++ Validators.field_errors "confirm_password"
    [Validators.DataRequired "Please confirm your new password." (confirm_password f);
     Validators.EqualTo "Passwords must match." (confirm_password f) (new_password f)].

Definition validate_on_submit (env : Env) (current : User.t) (r : Request) (f : t)
  : bool :=
  (is_submitted r && csrf_ok r
   && match errors env current f with [] => true | _ => false end)%bool.
End ChangePasswordForm.

(** [edit_profile], [change_password] and [deactivate_account] of
    [app/routes/auth.py]. *)
Module Account.
(** [@login_required], for a request whose answer carries the session. *)
Definition login_required (db : Db.t) (session : option Z)
    (f : User.t -> Auth.Result) : Auth.Result :=
  let unauthorized :=
    Auth.mkResult db session
      (flash "Please log in to access this page." "info"
         (redirect (url_for "auth.login" None))) in
  match current_user db session with
  | Some u => if User.is_authenticated u then f u else unauthorized
  | None => unauthorized
  end.

(** The assignments of [edit_profile] to the current user. *)
Definition edited (form : ProfileForm.t) (u : User.t) : User.t :=
  User.mk (User.id u) (User.username u) (User.email u) (User.password_hash u)
    (User.user_type u)
    (stripped (ProfileForm.full_name form))
    (strip_or_none (ProfileForm.phone form))
    (strip_or_none (ProfileForm.address form))
    (strip_or_none (ProfileForm.city form))
    (if User.is_ngo u then Some (stripped (ProfileForm.organization_name form))
     else User.organization_name u)
    (User.registration_number u) (User.is_active u) (User.created_at u).

(** [edit_profile()]; [form] is the data of
    [ProfileForm(obj=current_user)] once it has read the request: a field
    that the request does not carry holds the attribute of the account. *)
Definition edit_profile (session : option Z) (req : Request)
    (form : ProfileForm.t) (db : Db.t) : Auth.Result :=
  login_required db session (fun u =>
    if ProfileForm.validate_on_submit u req form then
      match Db.try_commit db (update_user (User.id u) (edited form) db) with
      | (db', true) =>
          Auth.mkResult db' session
            (flash "Your profile has been updated successfully." "success"
               (redirect (url_for "auth.profile" None)))
      | (db', false) =>
          Auth.mkResult db' session
            (flash "An error occurred while updating your profile." "error"
               (render_template "auth/edit_profile.html"))
      end
    else Auth.mkResult db session (reply (render_template "auth/edit_profile.html"))).

(** [change_password()] *)
Definition change_password (env : Env) (session : option Z) (req : Request)
    (form : ChangePasswordForm.t) (db : Db.t) : Auth.Result :=
  login_required db session (fun u =>
    if ChangePasswordForm.validate_on_submit env u req form then
      match Db.try_commit db
              (update_user (User.id u)
                 (set_password env
                    (RegistrationForm.data (ChangePasswordForm.new_password form)))
                 db) with
      | (db', true) =>
          Auth.mkResult db' session
            (flash "Your password has been changed successfully." "success"
               (redirect (url_for "auth.profile" None)))
      | (db', false) =>
          Auth.mkResult db' session
            (flash "An error occurred while changing your password." "error"
               (render_template "auth/change_password.html"))
      end
    else Auth.mkResult db session
           (reply (render_template "auth/change_password.html"))).

(** [deactivate_account()] *)
Definition deactivate_account (session : option Z) (db : Db.t) : Auth.Result :=
  login_required db session (fun u =>
    match Db.try_commit db (update_user (User.id u) (set_is_active false) db) with
    | (db', true) =>
        Auth.mkResult db' None
          (flash "Your account has been deactivated." "info"
             (redirect (url_for "main.index" None)))
    | (db', false) =>
        Auth.mkResult db' session
          (flash "An error occurred while deactivating your account." "error"
             (redirect (url_for "auth.profile" None)))
    end).
End Account.

(** ** Pages that only read *)

(** What a page that only reads hands back: the reply of a decorator, or
    the template with the data it renders. *)
Inductive View (A : Type) : Type :=
| answered (r : Reply)
| rendered (template : string) (context : A).

Arguments answered {A} r.
Arguments rendered {A} template context.

(** [@login_required] on a page that only reads. *)
Definition login_required_view {A : Type} (db : Db.t) (session : option Z)
    (f : User.t -> View A) : View A :=
  let unauthorized :=
    answered (flash "Please log in to access this page." "info"
                (redirect (url_for "auth.login" None))) in
  match current_user db session with
  | Some u => if User.is_authenticated u then f u else unauthorized
  | None => unauthorized
  end.

(** [@donor_required] on a page that only reads. *)
Definition donor_required_view {A : Type} (u : User.t) (f : View A) : View A :=
  if (negb (User.is_authenticated u) || negb (User.is_donor u))%bool
  then answered (flash "Access denied. Donor account required." "error"
                   (redirect (url_for "main.index" None)))
  else f.

(** [@ngo_required] on a page that only reads. *)
Definition ngo_required_view {A : Type} (u : User.t) (f : View A) : View A :=
  if (negb (User.is_authenticated u) || negb (User.is_ngo u))%bool
  then answered (flash "Access denied. NGO account required." "error"
                   (redirect (url_for "main.index" None)))
  else f.

(** [query.count()] *)
Definition count (q : Query.t) (rows : list FoodDonation.t) : nat :=
  List.length (List.filter (Query.criteria q) rows).

(** [query.limit(n).all()] *)
Definition limit (n : nat) (q : Query.t) (rows : list FoodDonation.t)
  : list FoodDonation.t :=
  firstn n (Query.all q rows).

(** [created_at.desc()] *)
Definition by_created_desc (a b : FoodDonation.t) : bool :=
  FoodDonation.created_at b <=? FoodDonation.created_at a.

(** [filter_by(status=s)] *)
Definition has_status (s : DonationStatus.t) (d : FoodDonation.t) : bool :=
  DonationStatus.eqb (FoodDonation.status d) s.

(** The name of a donation status, as a query parameter spells it. *)
Definition donation_status_name (s : DonationStatus.t) : string :=
  match s with
  | DonationStatus.available => "available"
  | DonationStatus.claimed => "claimed"
  | DonationStatus.completed => "completed"
  | DonationStatus.expired => "expired"
  end.

(** [FoodDonation.query.filter_by(status='available')
      .filter(FoodDonation.expiry_date >= date.today())] *)
Definition available_today (today : Z) : Query.t :=
  Query.filter (fun d => today <=? FoodDonation.expiry_date d)
    (Query.filter (has_status DonationStatus.available) Query.query).

(** The rest of [app/routes/main.py]. *)
Module Site.
Record HomeStats : Set := mkHomeStats {
  total_donations : nat;
  available_donations : nat;
  completed_donations : nat;
  total_donors : nat;
  total_ngos : nat
}.

(** [index()]: the statistics and the showcase of recent donations. *)
Definition index (env : Env) (db : Db.t) : HomeStats * list FoodDonation.t :=
  (mkHomeStats
     (count Query.query (Db.food_donations db))
     (count (available_today (today env)) (Db.food_donations db))
     (count (Query.filter (has_status DonationStatus.completed) Query.query)
        (Db.food_donations db))
     (List.length (List.filter User.is_donor (Db.users db)))
     (List.length (List.filter User.is_ngo (Db.users db))),
   limit 6 (Query.order_by by_created_desc (available_today (today env)))
     (Db.food_donations db)).

Record ApiStats : Set := mkApiStats {
  api_total_donations : nat;
  api_available_donations : nat;
  api_completed_donations : nat;
  api_total_users : nat;
  api_active_claims : nat
}.

(** [Claim.status.in_(['claimed', 'scheduled', 'picked_up'])] *)
Definition active_status (c : Claim.t) : bool :=
  (ClaimStatus.eqb (Claim.status c) ClaimStatus.claimed
   || ClaimStatus.eqb (Claim.status c) ClaimStatus.scheduled
   || ClaimStatus.eqb (Claim.status c) ClaimStatus.picked_up)%bool.

(** [api_stats()] *)
Definition api_stats (env : Env) (db : Db.t) : ApiStats :=
  mkApiStats
    (count Query.query (Db.food_donations db))
    (count (available_today (today env)) (Db.food_donations db))
    (count (Query.filter (has_status DonationStatus.completed) Query.query)
       (Db.food_donations db))
    (List.length (Db.users db))
    (List.length (List.filter active_status (Db.claims db))).
End Site.

(** The listing pages of [app/routes/donor.py]. *)
Module DonorViews.
(** The query of [my_donations]: the donor's donations, of the status
    the [status] parameter names when it is not empty, newest first. *)
Definition my_donations_query (u : User.t) (status_filter : string) : Query.t :=
  let query :=
    Query.filter (fun d => FoodDonation.donor_id d =? User.id u) Query.query in
  let query :=
    if Py.truthy status_filter
    then Query.filter
           (fun d => String.eqb (donation_status_name (FoodDonation.status d))
                       status_filter) query
    else query in
  Query.order_by by_created_desc query.

(** [my_donations()] *)
Definition my_donations (session : option Z) (page : Z) (status_filter : string)
    (db : Db.t) : View (list FoodDonation.t) :=
  login_required_view db session (fun u =>
  donor_required_view u
    (rendered "donor/donations.html"
       (Query.paginate page 10 (my_donations_query u status_filter)
          (Db.food_donations db)))).
End DonorViews.

(** The statistics of [dashboard] in [app/routes/ngo.py]. *)
Module NgoViews.
Record ClaimStats : Set := mkClaimStats {
  total_claims : nat;
  active_claims : nat;
  completed_claims : nat;
  available_nearby : nat
}.

(** [Claim.query.filter_by(ngo_id=current_user.id)] *)
Definition own (u : User.t) (c : Claim.t) : bool := Claim.ngo_id c =? User.id u.

Definition claim_stats (env : Env) (u : User.t) (db : Db.t) : ClaimStats :=
  mkClaimStats
    (List.length (List.filter (own u) (Db.claims db)))
    (List.length
       (List.filter (fun c => (own u c && Site.active_status c)%bool) (Db.claims db)))
    (List.length
       (List.filter
          (fun c => (own u c
                     && ClaimStatus.eqb (Claim.status c) ClaimStatus.completed)%bool)
          (Db.claims db)))
    (match User.city u with
     | Some city =>
         if Py.truthy city
         then count
                (Query.filter (fun d => today env <=? FoodDonation.expiry_date d)
                   (Query.filter
                      (fun d => Sql.ilike (FoodDonation.pickup_city d)
                                  (Sql.contains_pattern city))
                      (Query.filter (has_status DonationStatus.available)
                         Query.query)))
                (Db.food_donations db)
         else 0%nat
     | None => 0%nat
     end).

(** The urgent donations of [dashboard]: available, not expired, and
    expiring within two days; five of them at most. *)
Definition urgent_donations (env : Env) (db : Db.t) : list FoodDonation.t :=
  limit 5
    (Query.filter (fun d => FoodDonation.expiry_date d <=? today env + 2)
       (available_today (today env)))
    (Db.food_donations db).

(** [view_claim(id)] *)
Definition view_claim (session : option Z) (id : Z) (db : Db.t) : View (option Claim.t) :=
  login_required_view db session (fun u =>
  ngo_required_view u
    match Db.claim_of_ngo db id (User.id u) with
    | Some claim => rendered "ngo/view_claim.html" (Some claim)
    | None => answered (reply (abort 404))
    end).
End NgoViews.

(** ** The scripts *)

(** [init_database] of [init_db.py]. *)
Module InitDb.
Definition categories : list (string * string) :=
  [("Fruits & Vegetables", "Fresh produce, fruits, and vegetables");
   ("Bakery Items", "Bread, pastries, and baked goods");
   ("Dairy Products", "Milk, cheese, yogurt, and dairy items");
   ("Meat & Seafood", "Fresh and cooked meat, poultry, and seafood");
   ("Prepared Meals", "Ready-to-eat meals and cooked food");
   ("Dry Goods", "Rice, pasta, cereals, and non-perishable items");
   ("Beverages", "Juices, soft drinks, and other beverages");
   ("Other", "Miscellaneous food items")].

(** One turn of the loop: the category is added when no category of
    that name is there. *)
Definition add_if_missing (now : Z) (cats : list Category.t)
    (entry : string * string) : list Category.t :=
  match find (fun c => String.eqb (Category.name c) (fst entry)) cats with
  | Some _ => cats
  | None =>
      cats ++ [Category.mk (Db.next_id (map Category.id cats)) (fst entry)
                 (Some (snd entry)) now]
  end.

Definition seeded (now : Z) (cats : list Category.t) : list Category.t :=
  fold_left (add_if_missing now) categories cats.

(** [init_database()]: the database and the returned flag. *)
Definition init_database (env : Env) (db : Db.t) : Db.t * bool :=
  Db.try_commit db
    (Db.mk (Db.users db) (seeded (utcnow env) (Db.categories db))
       (Db.food_donations db) (Db.claims db)).
End InitDb.

(** [find_free_port] of [run.py]; [can_bind] tells whether binding the
    port succeeds. *)
Module Run.
Definition ports_to_try : list Z := [5000; 5001; 5002; 8000; 8080; 3000].

Definition find_free_port (can_bind : Z -> bool) : Z :=
  match find can_bind ports_to_try with
  | Some port => port
  | None => 5000
  end.
End Run.

(** ** Vocabulary of the further statements *)

(** The session a request comes with. *)
Definition session_of (a : Action) : option Z :=
  match a with
  | Register s _ _ | AddDonation s _ _ | EditDonation s _ _ _
  | DeleteDonation s _ | DonorDashboard s | DonorViewDonation s _
  | ClaimDonation s _ _ _ | UpdateClaim s _ _ _ | CancelClaim s _ _
  | CompletePickup s _ => s
  end.

(** The requests of the donor controller. *)
Definition donor_request (a : Action) : bool :=
  match a with
  | AddDonation _ _ _ | EditDonation _ _ _ _ | DeleteDonation _ _
  | DonorDashboard _ | DonorViewDonation _ _ => true
  | _ => false
  end.

(** The requests of the NGO controller. *)
Definition ngo_request (a : Action) : bool :=
  match a with
  | ClaimDonation _ _ _ _ | UpdateClaim _ _ _ _ | CancelClaim _ _ _
  | CompletePickup _ _ => true
  | _ => false
  end.

(** ** A second scenario: two donors and two NGOs *)

Module Town.
Definition bakery_form : RegistrationForm.t :=
  RegistrationForm.mk (Some "cornerbakery") (Some "c@x.com") (Some "secret3")
    (Some "secret3") (Some "donor") (Some "Corner Bakery")
    (Some "") (Some "") (Some "") (Some "") (Some "").

Definition foodbank_form : RegistrationForm.t :=
  RegistrationForm.mk (Some "foodbank") (Some "f@x.org") (Some "secret4")
    (Some "secret4") (Some "ngo") (Some "Fay Bank")
    (Some "") (Some "") (Some "Springfield") (Some "City Food Bank") (Some "REG456").

Definition bagels_form : FoodDonationForm.t :=
  FoodDonationForm.mk (Some "Day-old Bagels") (Some "") (Some 1) (Some 12)
    (Some "pieces") (Some 102) (Some "45 Another Long Road")
    (Some "Springfield Heights") (Some "") true (Some "vegan").

(** After the first scenario's claim, the bakery (user 3) and the food
    bank (user 4) register and the bakery lists bagels (donation 2). *)
Definition trace : list (Env * Action) :=
  (Scenario.claimed_trace
   ++ [(Scenario.env 100, Register None Scenario.post bakery_form);
       (Scenario.env 100, Register None Scenario.post foodbank_form);
       (Scenario.env 100, AddDonation (Some 3) Scenario.post bagels_form)])%list.

Definition db : Db.t := run trace (bootstrap Scenario.categories).

Definition bakery : User.t :=
  User.mk 3 "cornerbakery" "c@x.com" "secret3" UserType.donor "Corner Bakery"
    None None None None None true 8640000.

Definition foodbank : User.t :=
  User.mk 4 "foodbank" "f@x.org" "secret4" UserType.ngo "Fay Bank"
    None None (Some "Springfield") (Some "City Food Bank") (Some "REG456")
    true 8640000.

Definition bagels (status : DonationStatus.t) : FoodDonation.t :=
  FoodDonation.mk 2 3 1 "Day-old Bagels" None 12 "pieces" 102
    "45 Another Long Road" "Springfield Heights" None status true
    (Some "vegan") 8640000.

(** On day 101 the first NGO reports the bread as collected. *)
Definition delivered_trace : list (Env * Action) :=
  (trace ++ [(Scenario.env 101, CompletePickup (Some 2) 1)])%list.

Definition delivered_db : Db.t := run delivered_trace (bootstrap Scenario.categories).

Definition delivered_claim : Claim.t :=
  Claim.mk 1 1 2 ClaimStatus.completed (Some 8640000) None (Some 8726400) None.
End Town.

(** ** Every request that writes *)

(** The requests of [Action] and the three account pages that write:
    with them, every [db.session.commit()] of the controllers. *)
Inductive Visit : Set :=
| Core (a : Action)
| EditProfile (session : option Z) (req : Request) (form : ProfileForm.t)
| ChangePassword (session : option Z) (req : Request) (form : ChangePasswordForm.t)
| DeactivateAccount (session : option Z).

(** The database after one request. *)
Definition serve (env : Env) (v : Visit) (db : Db.t) : Db.t :=
  match v with
  | Core a => step env a db
  | EditProfile s r f => Auth.db_after (Account.edit_profile s r f db)
  | ChangePassword s r f => Auth.db_after (Account.change_password env s r f db)
  | DeactivateAccount s => Auth.db_after (Account.deactivate_account s db)
  end.

(** The session a request comes with. *)
Definition visit_session (v : Visit) : option Z :=
  match v with
  | Core a => session_of a
  | EditProfile s _ _ | ChangePassword s _ _ | DeactivateAccount s => s
  end.

(** The requests behind [@login_required]: all but the registration. *)
Definition needs_login (v : Visit) : bool :=
  match v with
  | Core (Register _ _ _) => false
  | _ => true
  end.

(** The request asks to delete donation [i]. *)
Definition visit_deletes (i : Z) (v : Visit) : bool :=
  match v with
  | Core a => deletes i a
  | _ => false
  end.

Definition serve_all (trace : list (Env * Visit)) (db : Db.t) : Db.t :=
  fold_left (fun db ev => serve (fst ev) (snd ev) db) trace db.

(** A state the site can be in: some sequence of requests leads to it
    from a bootstrap whose categories have distinct names. *)
Definition served (db : Db.t) : Prop :=
  exists categories trace,
    Db.distinct_str (map Category.name categories) = true
    /\ db = serve_all trace (bootstrap categories).

(** What the donation form has checked of a stored donation. *)
Definition checked (db : Db.t) (d : FoodDonation.t) : Prop :=
  1 <= FoodDonation.quantity d <= 10000
  /\ In (FoodDonation.unit d) FoodDonationForm.unit_choices
  /\ In (FoodDonation.category_id d) (map Category.id (Db.categories db))
  /\ FoodDonation.title d <> EmptyString
  /\ FoodDonation.pickup_address d <> EmptyString
  /\ FoodDonation.pickup_city d <> EmptyString.

(** What holds of the rows in every state the site can be in, beyond
    [consistent]. *)
Record sound (db : Db.t) : Prop := mkSound {
  sound_consistent : consistent db;
  sound_user_keys : NoDup (map User.id (Db.users db));
  sound_donor :
    forall d, In d (Db.food_donations db) ->
      exists u, In u (Db.users db)
                /\ User.id u = FoodDonation.donor_id d
                /\ User.is_donor u = true;
  sound_ngo :
    forall c, In c (Db.claims db) ->
      exists u, In u (Db.users db)
                /\ User.id u = Claim.ngo_id c
                /\ User.is_ngo u = true;
  sound_times :
    forall c, In c (Db.claims db) ->
      Claim.claimed_at c <> None /\ Claim.pickup_scheduled_at c = None;
  sound_completed :
    forall c, In c (Db.claims db) ->
      Claim.status c = ClaimStatus.completed ->
      Claim.completed_at c <> None
      /\ exists d, In d (Db.food_donations db)
                   /\ FoodDonation.id d = Claim.donation_id c
                   /\ FoodDonation.status d = DonationStatus.completed;
  sound_held :
    forall d, In d (Db.food_donations db) -> held d ->
      exists c, In c (Db.claims db)
                /\ Claim.donation_id c = FoodDonation.id d
                /\ Claim.status c <> ClaimStatus.cancelled;
  sound_checked :
    forall d, In d (Db.food_donations db) -> checked db d
}.

(** ** A third scenario: the bakery closes its account *)

Module Lockout.
(** On day 101 the bakery (user 3) deactivates its account. *)
Definition db : Db.t :=
  serve (Scenario.env 101) (DeactivateAccount (Some 3)) Town.db.

Definition bakery : User.t := set_is_active false Town.bakery.

(** What the bakery then tries with the session it still holds. *)
Definition profile_form : ProfileForm.t :=
  ProfileForm.mk (Some "Corner Bakery") (Some "555 0100") (Some "")
    (Some "Springfield") (Some "").

Definition trace : list (Env * Visit) :=
  [(Scenario.env 102, EditProfile (Some 3) Scenario.post profile_form);
   (Scenario.env 102, Core (AddDonation (Some 3) Scenario.post Town.bagels_form));
   (Scenario.env 102,
    ChangePassword (Some 3) Scenario.post
      (ChangePasswordForm.mk (Some "secret3") (Some "secret33") (Some "secret33")))].
End Lockout.

(** * Properties *)

Lemma donation_status_eqb_spec (a b : DonationStatus.t) :
  reflect (a = b) (DonationStatus.eqb a b).
Proof. destruct a, b; simpl; constructor; congruence. Qed.

Lemma claim_status_eqb_spec (a b : ClaimStatus.t) :
  reflect (a = b) (ClaimStatus.eqb a b).
Proof. destruct a, b; simpl; constructor; congruence. Qed.

(** ** Lists and lookups *)

Lemma existsb_Zeqb_In (x : Z) (l : list Z) : existsb (Z.eqb x) l = true <-> In x l.
Proof.
  rewrite existsb_exists. split.
  - intros [y [Hy He]]. apply Z.eqb_eq in He. now subst.
  - intros H. exists x. split; [assumption | apply Z.eqb_refl].
Qed.

Lemma distinctZ_NoDup (l : list Z) : Db.distinctZ l = true <-> NoDup l.
Proof.
  induction l as [|x r IH]; simpl.
  - split; [constructor | reflexivity].
  - rewrite andb_true_iff, negb_true_iff, IH. split.
    + intros [Hx Hr]. constructor; [|assumption].
      intros Hin. apply existsb_Zeqb_In in Hin. congruence.
    + intros H. inversion H as [|? ? Hx Hr]; subst. split; [|assumption].
      destruct (existsb (Z.eqb x) r) eqn:E; [|reflexivity].
      apply existsb_Zeqb_In in E. contradiction.
Qed.

(** A lookup in a table whose rows went through [g], when [g] keeps what
    the lookup tests. *)
Lemma find_map_keeping {A : Type} (p : A -> bool) (g : A -> A) (l : list A) :
  (forall x, p (g x) = p x) ->
  find p (map g l) = option_map g (find p l).
Proof.
  intros Hp. induction l as [|x r IH]; simpl; [reflexivity|].
  rewrite Hp. destruct (p x); [reflexivity | exact IH].
Qed.

(** In a table with distinct keys the row with a given key is the one a
    lookup by that key returns. *)
Lemma find_by_key {A : Type} (key : A -> Z) (l : list A) (x : A) :
  NoDup (map key l) -> In x l ->
  find (fun y => key y =? key x) l = Some x.
Proof.
  induction l as [|y l IH]; simpl; intros Hnd Hin; [contradiction|].
  inversion Hnd as [|? ? Hy Hl]; subst.
  destruct Hin as [-> | Hin].
  - now rewrite Z.eqb_refl.
  - destruct (key y =? key x) eqn:E.
    + apply Z.eqb_eq in E. exfalso. apply Hy. rewrite E. now apply in_map.
    + now apply IH.
Qed.

Lemma next_id_fresh (ids : list Z) (i : Z) : In i ids -> i < Db.next_id ids.
Proof.
  unfold Db.next_id. induction ids as [|j r IH]; cbn [fold_right In]; [contradiction|].
  intros [-> | H]; [lia | specialize (IH H); lia].
Qed.

Lemma next_id_not_in (ids : list Z) : ~ In (Db.next_id ids) ids.
Proof. intros H. apply next_id_fresh in H. lia. Qed.

(** ** Authorisation *)

Lemma ngo_route (db : Db.t) (session : option Z) (u : User.t)
    (body : User.t -> Db.t * Reply) :
  ngo_session db session u ->
  login_required (current_user db session) db
    (fun v => ngo_required v db (body v)) = body u.
Proof.
  intros (Hc & Ha & Hn). unfold login_required, ngo_required, User.is_authenticated.
  now rewrite Hc, Ha, Hn.
Qed.

Lemma donor_route (db : Db.t) (session : option Z) (u : User.t)
    (body : User.t -> Db.t * Reply) :
  donor_session db session u ->
  login_required (current_user db session) db
    (fun v => donor_required v db (body v)) = body u.
Proof.
  intros (Hc & Ha & Hn). unfold login_required, donor_required, User.is_authenticated.
  now rewrite Hc, Ha, Hn.
Qed.

(** A guarded route either leaves the database alone or runs its body. *)
Lemma ngo_route_cases (db : Db.t) (session : option Z)
    (body : User.t -> Db.t * Reply) :
  fst (login_required (current_user db session) db
         (fun v => ngo_required v db (body v))) = db
  \/ exists u, ngo_session db session u
     /\ login_required (current_user db session) db
          (fun v => ngo_required v db (body v)) = body u.
Proof.
  unfold login_required, ngo_required, ngo_session, User.is_authenticated.
  destruct (current_user db session) as [u|]; [|now left].
  destruct (User.is_active u) eqn:Ha; [|now left].
  destruct (User.is_ngo u) eqn:Hn; [|now left].
  right. exists u. simpl. auto.
Qed.

Lemma donor_route_cases (db : Db.t) (session : option Z)
    (body : User.t -> Db.t * Reply) :
  fst (login_required (current_user db session) db
         (fun v => donor_required v db (body v))) = db
  \/ exists u, donor_session db session u
     /\ login_required (current_user db session) db
          (fun v => donor_required v db (body v)) = body u.
Proof.
  unfold login_required, donor_required, donor_session, User.is_authenticated.
  destruct (current_user db session) as [u|]; [|now left].
  destruct (User.is_active u) eqn:Ha; [|now left].
  destruct (User.is_donor u) eqn:Hn; [|now left].
  right. exists u. simpl. auto.
Qed.

(** ** Integrity of the database *)

Lemma Forall2_map_r {A : Type} (R : A -> A -> Prop) (g : A -> A) (l : list A) :
  (forall x, In x l -> R x (g x)) -> Forall2 R l (map g l).
Proof.
  induction l as [|x r IH]; simpl; intros H; constructor.
  - apply H. now left.
  - apply IH. intros y Hy. apply H. now right.
Qed.

Lemma Forall2_In_r {A : Type} (R : A -> A -> Prop) (l l' : list A) (y : A) :
  Forall2 R l l' -> In y l' -> exists x, In x l /\ R x y.
Proof.
  induction 1 as [|a b l l' Hab _ IH]; simpl; [contradiction|].
  intros [<- | Hy].
  - exists a. auto.
  - destruct (IH Hy) as [x [Hx Hr]]. exists x. auto.
Qed.

Lemma Forall2_In_l {A : Type} (R : A -> A -> Prop) (l l' : list A) (x : A) :
  Forall2 R l l' -> In x l -> exists y, In y l' /\ R x y.
Proof.
  induction 1 as [|a b l l' Hab _ IH]; simpl; [contradiction|].
  intros [<- | Hx].
  - exists b. auto.
  - destruct (IH Hx) as [y [Hy Hr]]. exists y. auto.
Qed.

Lemma Forall2_same_map {A B : Type} (R : A -> A -> Prop) (key : A -> B)
    (l l' : list A) :
  (forall x y, R x y -> key y = key x) ->
  Forall2 R l l' -> map key l' = map key l.
Proof.
  intros HR. induction 1 as [|a b l l' Hab _ IH]; simpl; [reflexivity|].
  now rewrite (HR _ _ Hab), IH.
Qed.

Lemma Forall2_trans {A : Type} (R : A -> A -> Prop) (l1 l2 l3 : list A) :
  (forall x y z, R x y -> R y z -> R x z) ->
  Forall2 R l1 l2 -> Forall2 R l2 l3 -> Forall2 R l1 l3.
Proof.
  intros HR H12. revert l3.
  induction H12 as [|a b l l' Hab _ IH]; intros l3 H23;
    inversion H23; subst; constructor; eauto.
Qed.

Lemma Forall2_refl {A : Type} (R : A -> A -> Prop) (l : list A) :
  (forall x, R x x) -> Forall2 R l l.
Proof. intros HR. induction l; constructor; auto. Qed.

Lemma Forall2_weaken {A : Type} (R S : A -> A -> Prop) (l l' : list A) :
  (forall x y, R x y -> S x y) -> Forall2 R l l' -> Forall2 S l l'.
Proof. intros HRS. induction 1; constructor; auto. Qed.

Lemma same_claim_keys_refl (c : Claim.t) : same_claim_keys c c.
Proof. repeat split. Qed.

Lemma same_claim_keys_trans (a b c : Claim.t) :
  same_claim_keys a b -> same_claim_keys b c -> same_claim_keys a c.
Proof. unfold same_claim_keys. intuition congruence. Qed.

Lemma keeps_held_refl (d : FoodDonation.t) : keeps_held d d.
Proof. split; auto. Qed.

Lemma keeps_held_trans (a b c : FoodDonation.t) :
  keeps_held a b -> keeps_held b c -> keeps_held a c.
Proof. unfold keeps_held. intros [H1 H2] [H3 H4]. split; [congruence | auto]. Qed.

Lemma same_key_refl (d : FoodDonation.t) : same_key d d.
Proof. reflexivity. Qed.

Lemma same_key_trans (a b c : FoodDonation.t) :
  same_key a b -> same_key b c -> same_key a c.
Proof. unfold same_key. congruence. Qed.

Lemma keeps_held_same_key (d d' : FoodDonation.t) : keeps_held d d' -> same_key d d'.
Proof. now intros [H _]. Qed.

Lemma rewrites_weaken (db db' : Db.t) :
  rewrites keeps_held db db' -> rewrites same_key db db'.
Proof.
  intros [Hu Hc Hcl Hd]. constructor; auto.
  eapply Forall2_weaken; [apply keeps_held_same_key | exact Hd].
Qed.

Section Rewrites.
Variable R : FoodDonation.t -> FoodDonation.t -> Prop.
Hypothesis R_refl : forall d, R d d.
Hypothesis R_trans : forall a b c, R a b -> R b c -> R a c.

Lemma rewrites_refl (db : Db.t) : rewrites R db db.
Proof.
  constructor; auto.
  - apply Forall2_refl, same_claim_keys_refl.
  - now apply Forall2_refl.
Qed.

Lemma rewrites_trans (a b c : Db.t) :
  rewrites R a b -> rewrites R b c -> rewrites R a c.
Proof.
  intros [Hu1 Hc1 Hcl1 Hd1] [Hu2 Hc2 Hcl2 Hd2]. constructor.
  - congruence.
  - congruence.
  - eapply Forall2_trans; eauto using same_claim_keys_trans.
  - eapply Forall2_trans; eauto.
Qed.

Lemma rewrites_update_claim (i : Z) (f : Claim.t -> Claim.t) (db : Db.t) :
  (forall c, same_claim_keys c (f c)) ->
  rewrites R db (Db.update_claim i f db).
Proof.
  intros Hf. constructor; simpl; auto.
  - apply Forall2_map_r. intros c _.
    destruct (Claim.id c =? i); [apply Hf | apply same_claim_keys_refl].
  - now apply Forall2_refl.
Qed.

Lemma rewrites_map_donations (g : FoodDonation.t -> FoodDonation.t) (db : Db.t) :
  (forall d, In d (Db.food_donations db) -> R d (g d)) ->
  rewrites R db (Db.with_food_donations (map g (Db.food_donations db)) db).
Proof.
  intros Hg. constructor; simpl; auto.
  - apply Forall2_refl, same_claim_keys_refl.
  - now apply Forall2_map_r.
Qed.

Lemma rewrites_update_donation (i : Z) (f : FoodDonation.t -> FoodDonation.t)
    (db : Db.t) :
  (forall d, In d (Db.food_donations db) -> FoodDonation.id d = i -> R d (f d)) ->
  rewrites R db (Db.update_donation i f db).
Proof.
  intros Hf. unfold Db.update_donation.
  apply (rewrites_map_donations
           (fun d => if FoodDonation.id d =? i then f d else d)).
  intros d Hd. destruct (FoodDonation.id d =? i) eqn:E; [|apply R_refl].
  apply Hf; [assumption | now apply Z.eqb_eq].
Qed.
End Rewrites.

(** ** What each request does to the tables *)

Lemma try_commit_cases (before pending : Db.t) :
  (Db.try_commit before pending = (pending, true) /\ Db.unique_ok pending = true)
  \/ Db.try_commit before pending = (before, false).
Proof.
  unfold Db.try_commit. destruct (Db.unique_ok pending); auto.
Qed.

(** Split on the decorators of a route: either they answer and the
    database is the one before, or the body runs for the session's user. *)
Ltac ngo_guard u Hu :=
  match goal with
  | |- context [login_required (current_user ?db ?s) ?db
                  (fun v => ngo_required v ?db (@?body v))] =>
      let H := fresh "Hroute" in
      destruct (ngo_route_cases db s body) as [H | (u & Hu & H)];
      cbv beta in H; rewrite H; clear H
  end.

Ltac donor_guard u Hu :=
  match goal with
  | |- context [login_required (current_user ?db ?s) ?db
                  (fun v => donor_required v ?db (@?body v))] =>
      let H := fresh "Hroute" in
      destruct (donor_route_cases db s body) as [H | (u & Hu & H)];
      cbv beta in H; rewrite H; clear H
  end.

(** Split on the outcome of the commit of a route. *)
Ltac commit_cases Hok :=
  match goal with
  | |- context [Db.try_commit ?b ?p] =>
      let H := fresh "Hcommit" in
      destruct (try_commit_cases b p) as [[H Hok] | H]; rewrite H; cbn [fst snd]
  end.

Lemma mark_as_completed_rewrites (now : Z) (c : Claim.t) (db : Db.t) :
  rewrites keeps_held db (mark_as_completed now c db).
Proof.
  unfold mark_as_completed.
  set (db1 := Db.update_claim _ _ db).
  assert (H1 : rewrites keeps_held db db1).
  { apply rewrites_update_claim; [apply keeps_held_refl|].
    intros x. repeat split. }
  destruct (Db.donation_of_claim db1 c) as [d|]; [|exact H1].
  eapply rewrites_trans; [apply keeps_held_trans | exact H1 |].
  apply rewrites_update_donation; [apply keeps_held_refl|].
  intros x _ _. split; [reflexivity|]. intros _. now right.
Qed.

Lemma cancel_claim_method_rewrites (reason : option string) (c : Claim.t) (db : Db.t) :
  rewrites same_key db (cancel_claim_method reason c db).
Proof.
  unfold cancel_claim_method.
  set (db1 := Db.update_claim _ _ db).
  assert (H1 : rewrites same_key db db1).
  { apply rewrites_update_claim; [apply same_key_refl|]. intros x. repeat split. }
  set (db2 := match reason with Some r => _ | None => _ end).
  assert (H2 : rewrites same_key db db2).
  { subst db2. destruct reason as [r|]; [|exact H1].
    destruct (Py.truthy r); [|exact H1].
    eapply rewrites_trans; [apply same_key_trans | exact H1 |].
    apply rewrites_update_claim; [apply same_key_refl|]. intros x. repeat split. }
  destruct (Db.donation_of_claim db2 c) as [d|]; [|exact H2].
  eapply rewrites_trans; [apply same_key_trans | exact H2 |].
  apply rewrites_update_donation; [apply same_key_refl|].
  intros x _ _. reflexivity.
Qed.

Lemma update_claim_rewrites (env : Env) (s : option Z) (i : Z) (r : Request)
    (f : UpdateClaimForm.t) (db : Db.t) :
  rewrites same_key db (fst (Ngo.update_claim env s i r f db)).
Proof.
  unfold Ngo.update_claim. ngo_guard u Hu; [apply rewrites_refl, same_key_refl|].
  destruct (Db.claim_of_ngo db i (User.id u)) as [c|];
    [|apply rewrites_refl, same_key_refl].
  cbv zeta. generalize (UpdateClaimForm.process c f). intros form.
  destruct (UpdateClaimForm.validate_on_submit r form);
    [|apply rewrites_refl, same_key_refl].
  destruct (UpdateClaimForm.status form) as [target|];
    [|apply rewrites_refl, same_key_refl].
  destruct (ClaimStatus.of_string target) as [st|];
    [|apply rewrites_refl, same_key_refl].
  cbv zeta. commit_cases Hok; [|apply rewrites_refl, same_key_refl].
  set (db2 := Db.update_claim _ _ (Db.update_claim _ _ db)).
  assert (H2 : rewrites same_key db db2).
  { eapply rewrites_trans; [apply same_key_trans | |];
      (apply rewrites_update_claim; [apply same_key_refl|]; intros x; repeat split). }
  destruct (_ && _)%bool.
  - eapply rewrites_trans; [apply same_key_trans | exact H2 |].
    apply rewrites_weaken, mark_as_completed_rewrites.
  - destruct (String.eqb target "cancelled"); [|exact H2].
    eapply rewrites_trans; [apply same_key_trans | exact H2 |].
    apply cancel_claim_method_rewrites.
Qed.

Lemma cancel_claim_rewrites (s : option Z) (i : Z) (reason : option string)
    (db : Db.t) :
  rewrites same_key db (fst (Ngo.cancel_claim s i reason db)).
Proof.
  unfold Ngo.cancel_claim. ngo_guard u Hu; [apply rewrites_refl, same_key_refl|].
  destruct (Db.claim_of_ngo db i (User.id u)) as [c|];
    [|apply rewrites_refl, same_key_refl].
  destruct (negb (Claim.can_be_cancelled c)); [apply rewrites_refl, same_key_refl|].
  cbv zeta. commit_cases Hok; [|apply rewrites_refl, same_key_refl].
  apply cancel_claim_method_rewrites.
Qed.

Lemma complete_pickup_rewrites (env : Env) (s : option Z) (i : Z) (db : Db.t) :
  rewrites keeps_held db (fst (Ngo.complete_pickup env s i db)).
Proof.
  unfold Ngo.complete_pickup. ngo_guard u Hu; [apply rewrites_refl, keeps_held_refl|].
  destruct (Db.claim_of_ngo db i (User.id u)) as [c|];
    [|apply rewrites_refl, keeps_held_refl].
  destruct (ClaimStatus.eqb (Claim.status c) ClaimStatus.completed);
    [apply rewrites_refl, keeps_held_refl|].
  cbv zeta. commit_cases Hok; [|apply rewrites_refl, keeps_held_refl].
  destruct (Db.donation_of_claim _ c); apply mark_as_completed_rewrites.
Qed.

Lemma edit_donation_rewrites (env : Env) (s : option Z) (i : Z) (r : Request)
    (f : FoodDonationForm.t) (db : Db.t) :
  rewrites keeps_held db (fst (Donor.edit_donation env s i r f db)).
Proof.
  unfold Donor.edit_donation. donor_guard u Hu; [apply rewrites_refl, keeps_held_refl|].
  destruct (Db.donation_of_donor db i (User.id u)) as [d|];
    [|apply rewrites_refl, keeps_held_refl].
  destruct (negb (FoodDonation.can_be_edited d)); [apply rewrites_refl, keeps_held_refl|].
  destruct (FoodDonationForm.validate_on_submit _ db r f);
    [|apply rewrites_refl, keeps_held_refl].
  cbv zeta. commit_cases Hok; [|apply rewrites_refl, keeps_held_refl].
  apply rewrites_update_donation; [apply keeps_held_refl|].
  intros x _ _. split; [reflexivity | exact (fun H => H)].
Qed.

(** The expiry check only rewrites a donation that is [available]. *)
Lemma update_status_if_expired_keeps_held (today : Z) (d : FoodDonation.t) :
  keeps_held d (fst (FoodDonation.update_status_if_expired today d)).
Proof.
  unfold FoodDonation.update_status_if_expired.
  destruct (FoodDonation.is_expired today d); simpl; [|apply keeps_held_refl].
  destruct (donation_status_eqb_spec (FoodDonation.status d) DonationStatus.available)
    as [E|E]; simpl; [|apply keeps_held_refl].
  split; [reflexivity|]. unfold held. rewrite E. intros [H|H]; discriminate.
Qed.

Lemma dashboard_rewrites (env : Env) (s : option Z) (db : Db.t) :
  rewrites keeps_held db (fst (Donor.dashboard env s db)).
Proof.
  unfold Donor.dashboard. donor_guard u Hu; [apply rewrites_refl, keeps_held_refl|].
  cbv zeta. cbn [fst].
  destruct (_ >? 0); [|apply rewrites_refl, keeps_held_refl].
  unfold Donor.sweep. apply rewrites_map_donations. intros d _.
  destruct (Donor.swept (User.id u) d);
    [apply update_status_if_expired_keeps_held | apply keeps_held_refl].
Qed.

Lemma view_donation_rewrites (env : Env) (s : option Z) (i : Z) (db : Db.t) :
  NoDup (map FoodDonation.id (Db.food_donations db)) ->
  rewrites keeps_held db (fst (Donor.view_donation env s i db)).
Proof.
  intros Hnd. unfold Donor.view_donation.
  donor_guard u Hu; [apply rewrites_refl, keeps_held_refl|].
  destruct (Db.donation_of_donor db i (User.id u)) as [d|] eqn:Hd;
    [|apply rewrites_refl, keeps_held_refl].
  pose proof (update_status_if_expired_keeps_held (today env) d) as Hk.
  destruct (FoodDonation.update_status_if_expired (today env) d) as [d' changed].
  cbn [fst] in *. destruct changed; [|apply rewrites_refl, keeps_held_refl].
  apply rewrites_update_donation; [apply keeps_held_refl|].
  intros x Hx Hid.
  apply find_some in Hd. destruct Hd as [Hin _].
  assert (x = d) as ->; [|exact Hk].
  pose proof (find_by_key FoodDonation.id _ x Hnd Hx) as F1.
  pose proof (find_by_key FoodDonation.id _ d Hnd Hin) as F2.
  rewrite Hid in F1. congruence.
Qed.

Lemma claim_donation_cases (env : Env) (s : option Z) (i : Z) (r : Request)
    (f : ClaimForm.t) (db : Db.t) :
  fst (Ngo.claim_donation env s i r f db) = db
  \/ exists u d c,
       ngo_session db s u
       /\ Db.get_donation db i = Some d
       /\ FoodDonation.can_be_claimed (today env) d = true
       /\ Db.claim_of_donation db (FoodDonation.id d) = None
       /\ Claim.id c = Db.next_id (map Claim.id (Db.claims db))
       /\ Claim.donation_id c = FoodDonation.id d
       /\ Claim.ngo_id c = User.id u
       /\ Claim.status c = ClaimStatus.claimed
       /\ Db.unique_ok
            (Db.add_claim c
               (Db.update_donation (FoodDonation.id d)
                  (FoodDonation.set_status DonationStatus.claimed) db)) = true
       /\ fst (Ngo.claim_donation env s i r f db)
          = Db.add_claim c
              (Db.update_donation (FoodDonation.id d)
                 (FoodDonation.set_status DonationStatus.claimed) db).
Proof.
  unfold Ngo.claim_donation. ngo_guard u Hu; [now left|].
  destruct (Db.get_donation db i) as [d|] eqn:Hd; [|now left].
  destruct (FoodDonation.can_be_claimed (today env) d) eqn:Hc; [|now left].
  cbn [negb].
  destruct (Db.claim_of_donation db (FoodDonation.id d)) eqn:Hcl; [now left|].
  destruct (ClaimForm.validate_on_submit r f); [|now left].
  cbv zeta. commit_cases Hok; [|now left].
  right. eexists u, d, _. repeat split; try eassumption; try reflexivity; apply Hu.
Qed.

Lemma add_donation_cases (env : Env) (s : option Z) (r : Request)
    (f : FoodDonationForm.t) (db : Db.t) :
  fst (Donor.add_donation env s r f db) = db
  \/ exists d,
       FoodDonation.id d = Db.next_id (map FoodDonation.id (Db.food_donations db))
       /\ FoodDonation.status d = DonationStatus.available
       /\ fst (Donor.add_donation env s r f db) = Db.add_donation d db.
Proof.
  unfold Donor.add_donation. donor_guard u Hu; [now left|].
  destruct (FoodDonationForm.validate_on_submit _ db r f); [|now left].
  cbv zeta. commit_cases Hok; [|now left].
  right. eexists. repeat split; reflexivity.
Qed.

Lemma delete_donation_cases (s : option Z) (i : Z) (db : Db.t) :
  fst (Donor.delete_donation s i db) = db
  \/ exists d,
       In d (Db.food_donations db)
       /\ FoodDonation.id d = i
       /\ fst (Donor.delete_donation s i db) = Db.delete_donation i db.
Proof.
  unfold Donor.delete_donation. donor_guard u Hu; [now left|].
  destruct (Db.donation_of_donor db i (User.id u)) as [d|] eqn:Hd; [|now left].
  destruct (negb (FoodDonation.can_be_edited d)); [now left|].
  cbv zeta. commit_cases Hok; [|now left].
  apply find_some in Hd. destruct Hd as [Hin Hp].
  apply andb_true_iff in Hp. destruct Hp as [Hi _]. apply Z.eqb_eq in Hi.
  right. exists d. rewrite Hi. auto.
Qed.

Lemma register_cases (env : Env) (s : option Z) (r : Request)
    (f : RegistrationForm.t) (db : Db.t) :
  Auth.db_after (Auth.register env s r f db) = db
  \/ exists u,
       Db.unique_ok (Db.add_user u db) = true
       /\ Auth.db_after (Auth.register env s r f db) = Db.add_user u db.
Proof.
  unfold Auth.register.
  destruct (is_authenticated (current_user db s)); [now left|].
  destruct (RegistrationForm.validate_on_submit env db r f); [|now left].
  cbv zeta.
  destruct (try_commit_cases db (Db.add_user (Auth.new_user env f db) db))
    as [[H Hok] | H]; rewrite H; cbn; [|now left].
  right. eexists. split; [exact Hok | reflexivity].
Qed.

(** ** Integrity is kept by every request *)

Lemma consistent_rewrites (db db' : Db.t) :
  consistent db -> rewrites same_key db db' -> consistent db'.
Proof.
  intros [Hu Hd Hc Hfk] [Ru Rc Rcl Rd].
  assert (Ed : map FoodDonation.id (Db.food_donations db')
               = map FoodDonation.id (Db.food_donations db)).
  { eapply Forall2_same_map; [|exact Rd]. auto. }
  assert (Ec : map Claim.id (Db.claims db') = map Claim.id (Db.claims db)).
  { eapply Forall2_same_map; [|exact Rcl]. now intros x y (H & _). }
  assert (Ecd : map Claim.donation_id (Db.claims db')
                = map Claim.donation_id (Db.claims db)).
  { eapply Forall2_same_map; [|exact Rcl]. now intros x y (_ & H & _). }
  constructor.
  - unfold Db.unique_ok in *. now rewrite Ru, Rc, Ecd.
  - now rewrite Ed.
  - now rewrite Ec.
  - intros c' Hc'.
    destruct (Forall2_In_r _ _ _ _ Rcl Hc') as (c & Hin & _ & Hk & _).
    destruct (Hfk c Hin) as (d & Hdin & Hid).
    destruct (Forall2_In_l _ _ _ _ Rd Hdin) as (d' & Hd' & Hk').
    exists d'. split; [assumption|]. unfold same_key in Hk'. congruence.
Qed.

Lemma NoDup_app_cons_last {A : Type} (l : list A) (x : A) :
  NoDup l -> ~ In x l -> NoDup (l ++ [x]).
Proof.
  induction l as [|y l IH]; simpl; intros Hnd Hx.
  - constructor; [tauto | constructor].
  - inversion Hnd as [|? ? Hy Hl]; subst. constructor.
    + intros Hin. apply in_app_or in Hin. simpl in Hin.
      destruct Hin as [Hin | [-> | []]]; tauto.
    + apply IH; tauto.
Qed.

Lemma consistent_add_claim (db : Db.t) (c : Claim.t) :
  consistent db ->
  Claim.id c = Db.next_id (map Claim.id (Db.claims db)) ->
  (exists d, In d (Db.food_donations db) /\ FoodDonation.id d = Claim.donation_id c) ->
  Db.unique_ok (Db.add_claim c db) = true ->
  consistent (Db.add_claim c db).
Proof.
  intros [Hu Hd Hc Hfk] Hid Hex Hok. constructor; simpl.
  - exact Hok.
  - exact Hd.
  - rewrite map_app. simpl. apply NoDup_app_cons_last; [exact Hc|].
    rewrite Hid. apply next_id_not_in.
  - intros x Hx. apply in_app_or in Hx. destruct Hx as [Hx | [<- | []]]; auto.
Qed.

Lemma consistent_add_donation (db : Db.t) (d : FoodDonation.t) :
  consistent db ->
  FoodDonation.id d = Db.next_id (map FoodDonation.id (Db.food_donations db)) ->
  consistent (Db.add_donation d db).
Proof.
  intros [Hu Hd Hc Hfk] Hid. constructor; simpl.
  - exact Hu.
  - rewrite map_app. simpl. apply NoDup_app_cons_last; [exact Hd|].
    rewrite Hid. apply next_id_not_in.
  - exact Hc.
  - intros x Hx. destruct (Hfk x Hx) as (y & Hy & E).
    exists y. split; [apply in_or_app; now left | exact E].
Qed.

Lemma NoDup_map_filter {A B : Type} (key : A -> B) (p : A -> bool) (l : list A) :
  NoDup (map key l) -> NoDup (map key (filter p l)).
Proof.
  induction l as [|x l IH]; simpl; intros H; [constructor|].
  inversion H as [|? ? Hx Hl]; subst.
  destruct (p x); simpl; [|auto].
  constructor; [|auto].
  intros Hin. apply Hx. apply in_map_iff in Hin. destruct Hin as (y & E & Hy).
  apply filter_In in Hy. rewrite <- E. apply in_map. tauto.
Qed.

Lemma consistent_delete_donation (db : Db.t) (i : Z) :
  consistent db -> consistent (Db.delete_donation i db).
Proof.
  intros [Hu Hd Hc Hfk]. constructor; simpl.
  - unfold Db.unique_ok in *. simpl.
    repeat (apply andb_true_iff in Hu; destruct Hu as [Hu ?]).
    repeat (apply andb_true_iff; split); try assumption.
    apply distinctZ_NoDup. apply NoDup_map_filter. now apply distinctZ_NoDup.
  - now apply NoDup_map_filter.
  - now apply NoDup_map_filter.
  - intros c Hcin. apply filter_In in Hcin. destruct Hcin as [Hcin Hne].
    destruct (Hfk c Hcin) as (d & Hdin & E). exists d. split; [|exact E].
    apply filter_In. split; [assumption|]. now rewrite E.
Qed.

Lemma consistent_add_user (db : Db.t) (u : User.t) :
  consistent db -> Db.unique_ok (Db.add_user u db) = true ->
  consistent (Db.add_user u db).
Proof. intros [Hu Hd Hc Hfk] Hok. constructor; simpl; assumption. Qed.

Lemma get_donation_In (db : Db.t) (i : Z) (d : FoodDonation.t) :
  Db.get_donation db i = Some d ->
  In d (Db.food_donations db) /\ FoodDonation.id d = i.
Proof.
  intros H. apply find_some in H. destruct H as [Hin E].
  apply Z.eqb_eq in E. auto.
Qed.

Lemma claim_of_ngo_id (db : Db.t) (i ngo : Z) (c : Claim.t) :
  Db.claim_of_ngo db i ngo = Some c ->
  In c (Db.claims db) /\ Claim.id c = i /\ Claim.ngo_id c = ngo.
Proof.
  intros H. apply find_some in H. destruct H as [Hin E].
  apply andb_true_iff in E. destruct E as [E1 E2].
  apply Z.eqb_eq in E1, E2. auto.
Qed.

Lemma step_consistent (env : Env) (a : Action) (db : Db.t) :
  consistent db -> consistent (step env a db).
Proof.
  intros Hc. destruct a as [s r f | s r f | s i r f | s i | s | s i
                            | s i r f | s i r f | s i reason | s i]; simpl.
  - destruct (register_cases env s r f db) as [E | (u & Hok & E)]; rewrite E;
      [assumption | now apply consistent_add_user].
  - destruct (add_donation_cases env s r f db) as [E | (d & Hid & _ & E)];
      rewrite E; [assumption | now apply consistent_add_donation].
  - eapply consistent_rewrites;
      [exact Hc | apply rewrites_weaken, edit_donation_rewrites].
  - destruct (delete_donation_cases s i db) as [E | (d & _ & _ & E)]; rewrite E;
      [assumption | now apply consistent_delete_donation].
  - eapply consistent_rewrites;
      [exact Hc | apply rewrites_weaken, dashboard_rewrites].
  - eapply consistent_rewrites;
      [exact Hc | apply rewrites_weaken, view_donation_rewrites, Hc].
  - destruct (claim_donation_cases env s i r f db)
      as [E | (u & d & c & _ & Hd & _ & _ & Hid & Hdid & _ & _ & Hok & E)];
      rewrite E; [assumption|].
    set (db1 := Db.update_donation _ _ db) in *.
    assert (R1 : rewrites same_key db db1).
    { apply rewrites_update_donation; [apply same_key_refl|]. now intros x _ _. }
    apply consistent_add_claim; [eapply consistent_rewrites; eassumption | exact Hid | | exact Hok].
    apply get_donation_In in Hd. destruct Hd as [Hin _].
    destruct (Forall2_In_l _ _ _ _ (rw_donations _ _ _ R1) Hin) as (d' & Hd' & Hk).
    exists d'. split; [assumption|]. unfold same_key in Hk. congruence.
  - eapply consistent_rewrites; [exact Hc | apply update_claim_rewrites].
  - eapply consistent_rewrites; [exact Hc | apply cancel_claim_rewrites].
  - eapply consistent_rewrites;
      [exact Hc | apply rewrites_weaken, complete_pickup_rewrites].
Qed.

Lemma run_app (t1 t2 : list (Env * Action)) (db : Db.t) :
  run (t1 ++ t2) db = run t2 (run t1 db).
Proof. unfold run. apply fold_left_app. Qed.

Lemma run_consistent (trace : list (Env * Action)) (db : Db.t) :
  consistent db -> consistent (run trace db).
Proof.
  revert db. induction trace as [|[env a] tr IH]; simpl; intros db H; [assumption|].
  apply IH. now apply step_consistent.
Qed.

Lemma bootstrap_consistent (categories : list Category.t) :
  Db.distinct_str (map Category.name categories) = true ->
  consistent (bootstrap categories).
Proof.
  intros H. constructor; simpl.
  - unfold Db.unique_ok. simpl. now rewrite H.
  - constructor.
  - constructor.
  - intros c [].
Qed.

Lemma reachable_consistent (db : Db.t) : reachable db -> consistent db.
Proof.
  intros (cats & tr & Hd & ->). apply run_consistent. now apply bootstrap_consistent.
Qed.

(** ** Claimed donations stay held, until their claim is cancelled *)

Lemma held_unless_weaken (T T' : Z -> Prop) (db : Db.t) :
  (forall i, T i -> T' i) -> held_unless T db -> held_unless T' db.
Proof.
  intros HT Hh c d Hc Hd E. destruct (Hh c d Hc Hd E); [now left | right; auto].
Qed.

Lemma held_unless_rewrites (T : Z -> Prop) (db db' : Db.t) :
  held_unless T db -> rewrites keeps_held db db' -> held_unless T db'.
Proof.
  intros Hh [_ _ Rcl Rd] c' d' Hc' Hd' E.
  destruct (Forall2_In_r _ _ _ _ Rcl Hc') as (c & Hc & Hi & Hk & _).
  destruct (Forall2_In_r _ _ _ _ Rd Hd') as (d & Hd & Hid & Hkeep).
  destruct (Hh c d Hc Hd) as [H|H]; [congruence | left; auto | right].
  now rewrite Hi.
Qed.

Lemma held_unless_add_donation (T : Z -> Prop) (db : Db.t) (d : FoodDonation.t) :
  consistent db -> held_unless T db ->
  FoodDonation.id d = Db.next_id (map FoodDonation.id (Db.food_donations db)) ->
  held_unless T (Db.add_donation d db).
Proof.
  intros Hc Hh Hid c x Hcin Hx E. simpl in *.
  apply in_app_or in Hx. destruct Hx as [Hx | [<- | []]]; [now apply (Hh c x)|].
  exfalso. destruct (cons_claim_donation _ Hc c Hcin) as (y & Hy & Ey).
  apply (next_id_not_in (map FoodDonation.id (Db.food_donations db))).
  rewrite <- Hid, <- E, <- Ey. now apply in_map.
Qed.

Lemma held_unless_delete_donation (T : Z -> Prop) (db : Db.t) (i : Z) :
  held_unless T db -> held_unless T (Db.delete_donation i db).
Proof.
  intros Hh c d Hc Hd E. simpl in *.
  apply filter_In in Hc. apply filter_In in Hd. apply (Hh c d); tauto.
Qed.

Lemma held_unless_claim (T : Z -> Prop) (db : Db.t) (d : FoodDonation.t)
    (c : Claim.t) :
  held_unless T db ->
  Db.claim_of_donation db (FoodDonation.id d) = None ->
  Claim.donation_id c = FoodDonation.id d ->
  held_unless T
    (Db.add_claim c
       (Db.update_donation (FoodDonation.id d)
          (FoodDonation.set_status DonationStatus.claimed) db)).
Proof.
  intros Hh Hnone Hdid c' x' Hc' Hx' E. simpl in *.
  apply in_map_iff in Hx'. destruct Hx' as (x & Ex & Hx).
  destruct (FoodDonation.id x =? FoodDonation.id d) eqn:Eid.
  - subst x'. left. now left.
  - subst x'. apply in_app_or in Hc'. destruct Hc' as [Hc' | [<- | []]].
    + now apply (Hh c' x).
    + rewrite Hdid in E. rewrite E, Z.eqb_refl in Eid. discriminate.
Qed.

Lemma keeps_held_except_refl (j : Z) (d : FoodDonation.t) : keeps_held_except j d d.
Proof. split; auto. Qed.

Lemma keeps_held_except_trans (j : Z) (a b c : FoodDonation.t) :
  keeps_held_except j a b -> keeps_held_except j b c -> keeps_held_except j a c.
Proof.
  unfold keeps_held_except. intros [H1 H2] [H3 H4].
  split; [congruence|]. intros Hj Ha. apply H4; [congruence | auto].
Qed.

(** [cancel_claim] only releases the donation of the claim. *)
Lemma cancel_claim_method_except (reason : option string) (c : Claim.t) (db : Db.t) :
  rewrites (keeps_held_except (Claim.donation_id c)) db
    (cancel_claim_method reason c db).
Proof.
  set (R := keeps_held_except (Claim.donation_id c)).
  unfold cancel_claim_method.
  set (db1 := Db.update_claim _ _ db).
  assert (H1 : rewrites R db db1).
  { apply rewrites_update_claim; [apply keeps_held_except_refl|].
    intros x. repeat split. }
  set (db2 := match reason with Some r => _ | None => _ end).
  assert (H2 : rewrites R db db2).
  { subst db2. destruct reason as [r|]; [|exact H1].
    destruct (Py.truthy r); [|exact H1].
    eapply rewrites_trans; [apply keeps_held_except_trans | exact H1 |].
    apply rewrites_update_claim; [apply keeps_held_except_refl|].
    intros x. repeat split. }
  destruct (Db.donation_of_claim db2 c) as [d|] eqn:Hd; [|exact H2].
  eapply rewrites_trans; [apply keeps_held_except_trans | exact H2 |].
  apply rewrites_update_donation; [apply keeps_held_except_refl|].
  intros x _ Ex. split; [reflexivity|]. intros Hne. exfalso. apply Hne.
  apply get_donation_In in Hd. destruct Hd as [_ Hd]. congruence.
Qed.

Lemma update_cancelled_state_except (notes : option string) (c : Claim.t)
    (db : Db.t) :
  rewrites (keeps_held_except (Claim.donation_id c)) db
    (update_cancelled_state notes c db).
Proof.
  unfold update_cancelled_state.
  eapply rewrites_trans;
    [apply keeps_held_except_trans | | apply cancel_claim_method_except].
  eapply rewrites_trans; [apply keeps_held_except_trans | |];
    (apply rewrites_update_claim; [apply keeps_held_except_refl|];
     intros x; repeat split).
Qed.

Lemma cancel_claim_cases (s : option Z) (i : Z) (reason : option string)
    (db : Db.t) :
  fst (Ngo.cancel_claim s i reason db) = db
  \/ exists c,
       In c (Db.claims db) /\ Claim.id c = i
       /\ rewrites (keeps_held_except (Claim.donation_id c)) db
            (fst (Ngo.cancel_claim s i reason db)).
Proof.
  unfold Ngo.cancel_claim. ngo_guard u Hu; [now left|].
  destruct (Db.claim_of_ngo db i (User.id u)) as [c|] eqn:Hc; [|now left].
  destruct (negb (Claim.can_be_cancelled c)); [now left|].
  cbv zeta. commit_cases Hok; [|now left].
  apply claim_of_ngo_id in Hc. destruct Hc as (Hin & Ei & _).
  right. exists c. split; [assumption | split; [assumption|]].
  apply cancel_claim_method_except.
Qed.

(** [update_claim] keeps every donation that was claimed or completed
    so, unless the status of its form is [cancelled]: then only the
    donation of the claim may be released. *)
Lemma update_claim_held_cases (env : Env) (s : option Z) (i : Z) (r : Request)
    (f : UpdateClaimForm.t) (db : Db.t) :
  rewrites keeps_held db (fst (Ngo.update_claim env s i r f db))
  \/ exists c,
       In c (Db.claims db) /\ Claim.id c = i
       /\ UpdateClaimForm.status (UpdateClaimForm.process c f) = Some "cancelled"
       /\ rewrites (keeps_held_except (Claim.donation_id c)) db
            (fst (Ngo.update_claim env s i r f db)).
Proof.
  unfold Ngo.update_claim.
  ngo_guard u Hu; [left; apply rewrites_refl, keeps_held_refl|].
  destruct (Db.claim_of_ngo db i (User.id u)) as [c|] eqn:Hc;
    [|left; apply rewrites_refl, keeps_held_refl].
  cbv zeta.
  destruct (UpdateClaimForm.validate_on_submit r _);
    [|left; apply rewrites_refl, keeps_held_refl].
  destruct (UpdateClaimForm.status (UpdateClaimForm.process c f))
    as [target|] eqn:Et; [|left; apply rewrites_refl, keeps_held_refl].
  destruct (ClaimStatus.of_string target) as [st|] eqn:Est;
    [|left; apply rewrites_refl, keeps_held_refl].
  cbv zeta. commit_cases Hok; [|left; apply rewrites_refl, keeps_held_refl].
  destruct (String.eqb target "cancelled") eqn:Ecan.
  - apply String.eqb_eq in Ecan. subst target.
    change (ClaimStatus.of_string "cancelled")
      with (Some ClaimStatus.cancelled) in Est.
    injection Est as <-.
    change (String.eqb "cancelled" "completed") with false. cbn [andb].
    fold (update_cancelled_state
            (UpdateClaimForm.notes (UpdateClaimForm.process c f)) c db).
    apply claim_of_ngo_id in Hc. destruct Hc as (Hin & Ei & _).
    right. exists c.
    split; [assumption | split; [assumption | split; [exact Et|]]].
    apply update_cancelled_state_except.
  - left.
    set (db2 := Db.update_claim _ _ (Db.update_claim _ _ db)).
    assert (H2 : rewrites keeps_held db db2).
    { eapply rewrites_trans; [apply keeps_held_trans | |];
        (apply rewrites_update_claim; [apply keeps_held_refl|];
         intros x; repeat split). }
    destruct (_ && _)%bool; [|exact H2].
    eapply rewrites_trans; [apply keeps_held_trans | exact H2 |].
    apply mark_as_completed_rewrites.
Qed.

Lemma same_row_by_key {A : Type} (key : A -> Z) (l : list A) (x y : A) :
  NoDup (map key l) -> In x l -> In y l -> key x = key y -> x = y.
Proof.
  intros Hnd Hx Hy E.
  pose proof (find_by_key key l x Hnd Hx) as F1.
  pose proof (find_by_key key l y Hnd Hy) as F2.
  rewrite E in F1. congruence.
Qed.

Lemma consistent_claim_donation_distinct (db : Db.t) :
  consistent db -> NoDup (map Claim.donation_id (Db.claims db)).
Proof.
  intros [Hu _ _ _]. unfold Db.unique_ok in Hu.
  apply andb_true_iff in Hu. destruct Hu as [_ Hu]. now apply distinctZ_NoDup.
Qed.

(** After a cancellation of claim [c], the only donation that may have
    left [claimed]/[completed] is the donation of [c]. *)
Lemma held_unless_cancel (T : Z -> Prop) (db db' : Db.t) (c : Claim.t) :
  consistent db -> held_unless T db ->
  In c (Db.claims db) ->
  rewrites (keeps_held_except (Claim.donation_id c)) db db' ->
  held_unless (fun i => T i \/ i = Claim.id c) db'.
Proof.
  intros Hcons Hh Hin [_ _ Rcl Rd] c' d' Hc' Hd' E.
  destruct (Forall2_In_r _ _ _ _ Rcl Hc') as (c0 & Hc0 & Hi & Hk & _).
  destruct (Forall2_In_r _ _ _ _ Rd Hd') as (d0 & Hd0 & Hid & Hkeep).
  destruct (Z.eq_dec (FoodDonation.id d0) (Claim.donation_id c)) as [Ej|Ej].
  - right. right. rewrite Hi. f_equal.
    apply (same_row_by_key Claim.donation_id (Db.claims db));
      [now apply consistent_claim_donation_distinct | assumption | assumption |].
    congruence.
  - destruct (Hh c0 d0 Hc0 Hd0) as [H|H]; [congruence | left; auto | right; left].
    now rewrite Hi.
Qed.

Lemma claim_of_donation_In (db : Db.t) (i : Z) (c : Claim.t) :
  Db.claim_of_donation db i = Some c ->
  In c (Db.claims db) /\ Claim.donation_id c = i.
Proof.
  intros H. apply find_some in H. destruct H as [Hin E].
  apply Z.eqb_eq in E. auto.
Qed.

(** ** Claiming a donation that has a claim *)

(** The reply of [claim_donation] for a donation that has a claim: the
    first guard answers when the donation cannot be claimed, the second
    otherwise; either way nothing is written. *)
Lemma claim_donation_with_claim (env : Env) (session : option Z) (u : User.t)
    (id : Z) (req : Request) (form : ClaimForm.t) (db : Db.t)
    (d : FoodDonation.t) (c : Claim.t) :
  ngo_session db session u ->
  Db.get_donation db id = Some d ->
  Db.claim_of_donation db (FoodDonation.id d) = Some c ->
  Ngo.claim_donation env session id req form db
  = (db, flash (if FoodDonation.can_be_claimed (today env) d
                then msg_already_claimed else msg_unavailable)
           "error" (redirect (url_for "ngo.view_donation" (Some id)))).
Proof.
  intros Hu Hd Hc. unfold Ngo.claim_donation.
  rewrite (ngo_route db session u _ Hu). rewrite Hd.
  destruct (FoodDonation.can_be_claimed (today env) d); cbn [negb].
  - rewrite Hc. reflexivity.
  - reflexivity.
Qed.





(** ** A claim row outlives its cancellation *)

Lemma claim_row_kept_rewrites (db db' : Db.t) (i : Z) :
  rewrites same_key db db' -> claim_row_kept db i -> claim_row_kept db' i.
Proof.
  intros [_ _ Rcl Rd] [(d & Hd & Ed) (c & Hc & Ec)]. split.
  - destruct (Forall2_In_l _ _ _ _ Rd Hd) as (d' & Hd' & Hk).
    exists d'. split; [assumption|]. unfold same_key in Hk. congruence.
  - destruct (Forall2_In_l _ _ _ _ Rcl Hc) as (c' & Hc' & _ & Hk & _).
    exists c'. split; [assumption | congruence].
Qed.

Lemma step_keeps_claim_row (env : Env) (a : Action) (db : Db.t) (i : Z) :
  deletes i a = false -> claim_row_kept db i -> claim_row_kept (step env a db) i.
Proof.
  intros Hnd Hk.
  destruct a as [s r f | s r f | s j r f | s j | s | s j
                 | s j r f | s j r f | s j reason | s j]; cbn [step].
  - destruct (register_cases env s r f db) as [E | (u & _ & E)]; rewrite E;
      [assumption | exact Hk].
  - destruct (add_donation_cases env s r f db) as [E | (d & _ & _ & E)];
      rewrite E; [assumption|].
    destruct Hk as [(x & Hx & Ex) Hc]. split; [|exact Hc].
    exists x. split; [simpl; apply in_or_app; now left | exact Ex].
  - eapply claim_row_kept_rewrites;
      [apply rewrites_weaken, edit_donation_rewrites | exact Hk].
  - destruct (delete_donation_cases s j db) as [E | (d & _ & _ & E)]; rewrite E;
      [assumption|].
    simpl in Hnd. apply Z.eqb_neq in Hnd.
    destruct Hk as [(x & Hx & Ex) (c & Hc & Ec)]. split.
    + exists x. split; [|exact Ex]. simpl. apply filter_In. split; [assumption|].
      apply negb_true_iff, Z.eqb_neq. congruence.
    + exists c. split; [|exact Ec]. simpl. apply filter_In. split; [assumption|].
      apply negb_true_iff, Z.eqb_neq. congruence.
  - eapply claim_row_kept_rewrites;
      [apply rewrites_weaken, dashboard_rewrites | exact Hk].
  - unfold Donor.view_donation. donor_guard u Hu; [assumption|].
    destruct (Db.donation_of_donor db j (User.id u)) as [d|]; [|assumption].
    destruct (FoodDonation.update_status_if_expired (today env) d) as [d' changed] eqn:Eu.
    cbn [fst]. destruct changed; [|assumption].
    eapply claim_row_kept_rewrites; [|exact Hk].
    apply rewrites_update_donation; [apply same_key_refl|].
    intros x _ Ex. unfold same_key. rewrite Ex.
    pose proof (update_status_if_expired_keeps_held (today env) d) as [Hid _].
    rewrite Eu in Hid. exact Hid.
  - destruct (claim_donation_cases env s j r f db)
      as [E | (u & d & c & _ & _ & _ & _ & _ & _ & _ & _ & _ & E)];
      rewrite E; [assumption|].
    set (db1 := Db.update_donation _ _ db).
    assert (H1 : claim_row_kept db1 i).
    { eapply claim_row_kept_rewrites; [|exact Hk].
      apply rewrites_update_donation; [apply same_key_refl|]. now intros x _ _. }
    destruct H1 as [Hd (x & Hx & Ex)]. split; [exact Hd|].
    exists x. split; [simpl; apply in_or_app; now left | exact Ex].
  - eapply claim_row_kept_rewrites; [apply update_claim_rewrites | exact Hk].
  - eapply claim_row_kept_rewrites; [apply cancel_claim_rewrites | exact Hk].
  - eapply claim_row_kept_rewrites;
      [apply rewrites_weaken, complete_pickup_rewrites | exact Hk].
Qed.

(** The account pages write to the users only. *)
Lemma serve_keeps_claim_row (env : Env) (v : Visit) (db : Db.t) (i : Z) :
  visit_deletes i v = false ->
  claim_row_kept db i -> claim_row_kept (serve env v db) i.
Proof.
  intros Hnd Hk. destruct v as [a | s r f | s r f | s]; cbn [serve].
  - now apply step_keeps_claim_row.
  - unfold Account.edit_profile, Account.login_required.
    destruct (current_user db s) as [u|]; [|exact Hk].
    destruct (User.is_authenticated u); [|exact Hk].
    destruct (ProfileForm.validate_on_submit u r f); [|exact Hk].
    unfold Db.try_commit. destruct (Db.unique_ok _); exact Hk.
  - unfold Account.change_password, Account.login_required.
    destruct (current_user db s) as [u|]; [|exact Hk].
    destruct (User.is_authenticated u); [|exact Hk].
    destruct (ChangePasswordForm.validate_on_submit env u r f); [|exact Hk].
    unfold Db.try_commit. destruct (Db.unique_ok _); exact Hk.
  - unfold Account.deactivate_account, Account.login_required.
    destruct (current_user db s) as [u|]; [|exact Hk].
    destruct (User.is_authenticated u); [|exact Hk].
    unfold Db.try_commit. destruct (Db.unique_ok _); exact Hk.
Qed.

Lemma serve_all_keeps_claim_row (trace : list (Env * Visit)) (db : Db.t) (i : Z) :
  forallb (fun ev => negb (visit_deletes i (snd ev))) trace = true ->
  claim_row_kept db i -> claim_row_kept (serve_all trace db) i.
Proof.
  revert db. induction trace as [|[env v] tr IH]; simpl; intros db Hnd Hk;
    [assumption|].
  apply andb_true_iff in Hnd. destruct Hnd as [Ha Htr]. apply negb_true_iff in Ha.
  apply IH; [assumption | now apply serve_keeps_claim_row].
Qed.

Lemma claim_row_kept_lookups (db : Db.t) (i : Z) :
  claim_row_kept db i ->
  exists d c, Db.get_donation db i = Some d
              /\ Db.claim_of_donation db (FoodDonation.id d) = Some c.
Proof.
  intros [(d & Hd & Ed) (c & Hc & Ec)].
  destruct (Db.get_donation db i) as [d0|] eqn:E0.
  - exists d0. apply get_donation_In in E0. destruct E0 as [_ E0]. rewrite E0.
    destruct (Db.claim_of_donation db i) as [c0|] eqn:E1; [now exists c0|].
    exfalso. unfold Db.claim_of_donation in E1.
    pose proof (find_none _ _ E1 c Hc) as F. simpl in F.
    rewrite Ec, Z.eqb_refl in F. discriminate.
  - exfalso. unfold Db.get_donation in E0.
    pose proof (find_none _ _ E0 d Hd) as F. simpl in F.
    rewrite Ed, Z.eqb_refl in F. discriminate.
Qed.

(** C10, as stated, fails once the donor deletes the donation: the
    cancelled claim row goes with it, the requests for the donation find
    nothing, and when the donor lists a donation again, which takes the
    key of the deleted one, the claim request of the NGO that had
    cancelled succeeds. *)
Lemma cancelled_claim_reclaimed_after_relisting :
  Db.get_donation Scenario.cancelled_db 1
  = Some (Scenario.bread DonationStatus.available)
  /\ Db.claim_of_donation Scenario.cancelled_db 1
     = Some (Scenario.bread_claim ClaimStatus.cancelled
               (Some "Cancelled: Cancelled by NGO"))
  /\ Db.claims (run Scenario.relisted_trace Scenario.cancelled_db) = []
  /\ exists db',
       Ngo.claim_donation (Scenario.env 100) (Some 2) 1 Scenario.post
         (ClaimForm.mk (Some "again"))
         (run Scenario.relisted_trace Scenario.cancelled_db)
       = (db', flash ("Successfully claimed " ++ dquote ++ "Surplus Bread"
                      ++ dquote ++ "! Please coordinate pickup with the donor.")
                 "success" (redirect (url_for "ngo.view_claim" (Some 1))))
       /\ Db.get_donation db' 1 = Some (Scenario.bread DonationStatus.claimed)
       /\ Db.claim_of_donation db' 1
          = Some (Scenario.bread_claim ClaimStatus.claimed (Some "again")).
Proof.
  split; [vm_compute; reflexivity|].
  split; [vm_compute; reflexivity|].
  split; [vm_compute; reflexivity|].
  eexists.
  split; [vm_compute; reflexivity|].
  split; vm_compute; reflexivity.
Qed.

(** C10, amended: a donation whose claim was cancelled is [available]
    again, and reported as available and claimable until it expires;
    yet, through every later sequence of requests of the site none of
    which asks to delete the donation, every claim request on it by
    every NGO is rejected and writes nothing, because a claim row still
    refers to the donation.  While the donation can be claimed, the
    reply is that it was already claimed. *)
Theorem cancelled_claim_blocks_reclaim_until_deleted :
  forall (db : Db.t) (i : Z) (d : FoodDonation.t) (c : Claim.t),
    Db.get_donation db i = Some d ->
    Db.claim_of_donation db i = Some c ->
    Claim.status c = ClaimStatus.cancelled ->
    FoodDonation.status d = DonationStatus.available ->
    (forall today : Z,
        today <= FoodDonation.expiry_date d ->
        FoodDonation.is_available today d = true
        /\ FoodDonation.can_be_claimed today d = true)
    /\ (forall (trace : list (Env * Visit)),
          forallb (fun ev => negb (visit_deletes i (snd ev))) trace = true ->
          forall (env : Env) (session : option Z) (u : User.t)
                 (req : Request) (form : ClaimForm.t),
            ngo_session (serve_all trace db) session u ->
            exists d' c',
              Db.get_donation (serve_all trace db) i = Some d'
              /\ Db.claim_of_donation (serve_all trace db) i = Some c'
              /\ Ngo.claim_donation env session i req form (serve_all trace db)
                 = (serve_all trace db,
                    flash (if FoodDonation.can_be_claimed (today env) d'
                           then "This donation has already been claimed by another NGO."
                           else "This donation is no longer available for claiming.")
                      "error" (redirect (url_for "ngo.view_donation" (Some i))))).
Proof.
  intros db i d c Hd Hc Hcs Hds. split.
  - intros today Hexp.
    unfold FoodDonation.is_available, FoodDonation.can_be_claimed,
      FoodDonation.is_expired.
    rewrite Hds. simpl.
    assert (E : (FoodDonation.expiry_date d <? today) = false) by (apply Z.ltb_ge; lia).
    rewrite E. split; reflexivity.
  - intros tr Hnd env session u req form Hu.
    assert (Hk : claim_row_kept db i).
    { apply get_donation_In in Hd. apply claim_of_donation_In in Hc.
      split; [exists d | exists c]; tauto. }
    apply (serve_all_keeps_claim_row tr) in Hk; [|assumption].
    destruct (claim_row_kept_lookups _ _ Hk) as (d' & c' & Hd' & Hc').
    exists d', c'. split; [assumption|].
    pose proof (get_donation_In _ _ _ Hd') as [_ Eid].
    split; [now rewrite <- Eid|].
    now apply claim_donation_with_claim with (u := u) (c := c').
Qed.

Lemma cancelled_claim_blocks_reclaim_until_deleted_witness :
  FoodDonation.can_be_claimed 101 (Scenario.bread DonationStatus.available) = true
  /\ exists d' c',
       Db.get_donation
         (serve_all [(Scenario.env 101, Core (DonorDashboard (Some 1)));
                     (Scenario.env 101, DeactivateAccount (Some 1))]
            Scenario.cancelled_db) 1
       = Some d'
       /\ Db.claim_of_donation
            (serve_all [(Scenario.env 101, Core (DonorDashboard (Some 1)));
                        (Scenario.env 101, DeactivateAccount (Some 1))]
               Scenario.cancelled_db) 1
          = Some c'
       /\ Ngo.claim_donation (Scenario.env 101) (Some 2) 1 Scenario.post
            (ClaimForm.mk (Some "again"))
            (serve_all [(Scenario.env 101, Core (DonorDashboard (Some 1)));
                        (Scenario.env 101, DeactivateAccount (Some 1))]
               Scenario.cancelled_db)
          = (serve_all [(Scenario.env 101, Core (DonorDashboard (Some 1)));
                        (Scenario.env 101, DeactivateAccount (Some 1))]
               Scenario.cancelled_db,
             flash (if FoodDonation.can_be_claimed (today (Scenario.env 101)) d'
                    then "This donation has already been claimed by another NGO."
                    else "This donation is no longer available for claiming.")
               "error" (redirect (url_for "ngo.view_donation" (Some 1)))).
Proof.
  assert (Hd : Db.get_donation Scenario.cancelled_db 1
               = Some (Scenario.bread DonationStatus.available))
    by (vm_compute; reflexivity).
  assert (Hc : Db.claim_of_donation Scenario.cancelled_db 1
               = Some (Scenario.bread_claim ClaimStatus.cancelled
                         (Some "Cancelled: Cancelled by NGO")))
    by (vm_compute; reflexivity).
  pose proof (cancelled_claim_blocks_reclaim_until_deleted Scenario.cancelled_db 1
                _ _ Hd Hc eq_refl eq_refl) as [H1 H2].
  split.
  - apply (H1 101). simpl. lia.
  - apply (H2 [(Scenario.env 101, Core (DonorDashboard (Some 1)));
               (Scenario.env 101, DeactivateAccount (Some 1))] eq_refl
             (Scenario.env 101) (Some 2) Scenario.ngo
             Scenario.post (ClaimForm.mk (Some "again"))).
    repeat split; vm_compute; reflexivity.
Defined.

(** ** The claim life cycle: update, cancel, complete *)

Lemma unique_ok_rewrites (db db' : Db.t) :
  rewrites same_key db db' -> Db.unique_ok db' = Db.unique_ok db.
Proof.
  intros [Ru Rc Rcl _].
  assert (E : map Claim.donation_id (Db.claims db')
              = map Claim.donation_id (Db.claims db)).
  { eapply Forall2_same_map; [|exact Rcl]. now intros x y (_ & H & _). }
  unfold Db.unique_ok. now rewrite Ru, Rc, E.
Qed.

Lemma claim_of_ngo_update_claim (db : Db.t) (i ngo : Z) (f : Claim.t -> Claim.t)
    (c : Claim.t) :
  (forall x, Claim.id (f x) = Claim.id x /\ Claim.ngo_id (f x) = Claim.ngo_id x) ->
  Db.claim_of_ngo db i ngo = Some c ->
  Db.claim_of_ngo (Db.update_claim i f db) i ngo = Some (f c).
Proof.
  intros Hf Hc. pose proof (claim_of_ngo_id _ _ _ _ Hc) as (_ & Ei & _).
  unfold Db.claim_of_ngo, Db.update_claim in *. simpl.
  rewrite find_map_keeping.
  - rewrite Hc. simpl. rewrite Ei, Z.eqb_refl. reflexivity.
  - intros x. cbv beta. destruct (Claim.id x =? i) eqn:E; [|now rewrite E].
    destruct (Hf x) as [-> ->]. now rewrite E.
Qed.

Lemma get_donation_update_donation (db : Db.t) (i : Z)
    (g : FoodDonation.t -> FoodDonation.t) (d : FoodDonation.t) :
  (forall x, FoodDonation.id (g x) = FoodDonation.id x) ->
  Db.get_donation db i = Some d ->
  Db.get_donation (Db.update_donation i g db) i = Some (g d).
Proof.
  intros Hg Hd. pose proof (get_donation_In _ _ _ Hd) as [_ Ei].
  unfold Db.get_donation, Db.update_donation in *. simpl.
  rewrite find_map_keeping.
  - rewrite Hd. simpl. rewrite Ei, Z.eqb_refl. reflexivity.
  - intros x. cbv beta. destruct (FoodDonation.id x =? i) eqn:E; [|now rewrite E].
    now rewrite Hg, E.
Qed.

(** [mark_as_completed], read through the lookups. *)
Lemma mark_as_completed_claim (now ngo : Z) (c c0 : Claim.t) (db : Db.t) :
  Db.claim_of_ngo db (Claim.id c) ngo = Some c0 ->
  Db.claim_of_ngo (mark_as_completed now c db) (Claim.id c) ngo
  = Some (Claim.set_completed_at (Some now)
            (Claim.set_status ClaimStatus.completed c0)).
Proof.
  intros Hc. unfold mark_as_completed.
  set (f := fun x => Claim.set_completed_at (Some now)
                       (Claim.set_status ClaimStatus.completed x)).
  assert (H1 : Db.claim_of_ngo (Db.update_claim (Claim.id c) f db) (Claim.id c) ngo
               = Some (f c0)).
  { apply claim_of_ngo_update_claim; [|exact Hc]. intros x. split; reflexivity. }
  destruct (Db.donation_of_claim _ c); exact H1.
Qed.

Lemma mark_as_completed_donation (now : Z) (c : Claim.t) (d : FoodDonation.t)
    (db : Db.t) :
  Db.get_donation db (Claim.donation_id c) = Some d ->
  Db.get_donation (mark_as_completed now c db) (Claim.donation_id c)
  = Some (FoodDonation.set_status DonationStatus.completed d).
Proof.
  intros Hd. unfold mark_as_completed, Db.donation_of_claim.
  set (db1 := Db.update_claim _ _ db).
  change (Db.get_donation db1 (Claim.donation_id c))
    with (Db.get_donation db (Claim.donation_id c)).
  rewrite Hd. pose proof (get_donation_In _ _ _ Hd) as [_ Ei]. rewrite Ei.
  apply get_donation_update_donation; [reflexivity | exact Hd].
Qed.

(** [cancel_claim], read through the lookups. *)
Lemma cancel_claim_method_claim (reason : option string) (ngo : Z)
    (c c0 : Claim.t) (db : Db.t) :
  Db.claim_of_ngo db (Claim.id c) ngo = Some c0 ->
  Db.claim_of_ngo (cancel_claim_method reason c db) (Claim.id c) ngo
  = Some (if Py.truthy_opt reason
          then Claim.set_notes
                 (Some ("Cancelled: " ++ RegistrationForm.data reason)%string)
                 (Claim.set_status ClaimStatus.cancelled c0)
          else Claim.set_status ClaimStatus.cancelled c0).
Proof.
  intros Hc. unfold cancel_claim_method.
  set (db1 := Db.update_claim _ _ db).
  assert (H1 : Db.claim_of_ngo db1 (Claim.id c) ngo
               = Some (Claim.set_status ClaimStatus.cancelled c0)).
  { apply claim_of_ngo_update_claim; [|exact Hc]. intros x. split; reflexivity. }
  set (db2 := match reason with Some r => _ | None => _ end).
  assert (H2 : Db.claim_of_ngo db2 (Claim.id c) ngo
               = Some (if Py.truthy_opt reason
                       then Claim.set_notes
                              (Some ("Cancelled: " ++ RegistrationForm.data reason)%string)
                              (Claim.set_status ClaimStatus.cancelled c0)
                       else Claim.set_status ClaimStatus.cancelled c0)).
  { subst db2. destruct reason as [r|]; simpl; [|exact H1].
    destruct (Py.truthy r); [|exact H1].
    apply claim_of_ngo_update_claim; [|exact H1]. intros x. split; reflexivity. }
  destruct (Db.donation_of_claim db2 c); exact H2.
Qed.

Lemma cancel_claim_method_donation (reason : option string) (c : Claim.t)
    (d : FoodDonation.t) (db : Db.t) :
  Db.get_donation db (Claim.donation_id c) = Some d ->
  Db.get_donation (cancel_claim_method reason c db) (Claim.donation_id c)
  = Some (FoodDonation.set_status DonationStatus.available d).
Proof.
  intros Hd. unfold cancel_claim_method, Db.donation_of_claim.
  set (db2 := match reason with Some r => _ | None => _ end).
  assert (E : Db.get_donation db2 (Claim.donation_id c)
              = Db.get_donation db (Claim.donation_id c)).
  { subst db2. destruct reason as [r|]; [destruct (Py.truthy r)|]; reflexivity. }
  rewrite E, Hd. pose proof (get_donation_In _ _ _ Hd) as [_ Ei]. rewrite Ei.
  apply get_donation_update_donation; [reflexivity|]. now rewrite E.
Qed.

(** In a consistent database a claim has its donation. *)
Lemma consistent_donation_of_claim (db : Db.t) (c : Claim.t) :
  consistent db -> In c (Db.claims db) ->
  exists d, Db.get_donation db (Claim.donation_id c) = Some d.
Proof.
  intros Hc Hin. destruct (cons_claim_donation _ Hc c Hin) as (d & Hd & E).
  exists d. unfold Db.get_donation. rewrite <- E.
  apply (find_by_key FoodDonation.id); [apply Hc | exact Hd].
Qed.

Lemma update_claim_cancelled_result (env : Env) (session : option Z) (u : User.t)
    (id : Z) (c : Claim.t) (req : Request) (posted : UpdateClaimForm.t)
    (db : Db.t) :
  Db.unique_ok db = true ->
  ngo_session db session u ->
  Db.claim_of_ngo db id (User.id u) = Some c ->
  UpdateClaimForm.status (UpdateClaimForm.process c posted) = Some "cancelled" ->
  UpdateClaimForm.validate_on_submit req (UpdateClaimForm.process c posted)
  = true ->
  Ngo.update_claim env session id req posted db
  = (update_cancelled_state
       (UpdateClaimForm.notes (UpdateClaimForm.process c posted)) c db,
     flash "Claim status updated successfully!" "success"
       (redirect (url_for "ngo.view_claim" (Some id)))).
Proof.
  intros Hok Hu Hc Hst Hv. unfold Ngo.update_claim.
  rewrite (ngo_route db session u _ Hu). rewrite Hc. cbv zeta.
  rewrite Hv, Hst.
  change (ClaimStatus.of_string "cancelled") with (Some ClaimStatus.cancelled).
  change (String.eqb "cancelled" "completed") with false.
  change (String.eqb "cancelled" "cancelled") with true.
  cbv zeta. cbn [andb].
  set (notes := UpdateClaimForm.notes (UpdateClaimForm.process c posted)).
  fold (update_cancelled_state notes c db).
  assert (E : Db.unique_ok (update_cancelled_state notes c db) = true).
  { rewrite <- Hok. apply unique_ok_rewrites. unfold update_cancelled_state.
    eapply rewrites_trans; [apply same_key_trans | | apply cancel_claim_method_rewrites].
    eapply rewrites_trans; [apply same_key_trans | |];
      (apply rewrites_update_claim; [apply same_key_refl|]; intros x; repeat split). }
  unfold Db.try_commit. rewrite E. reflexivity.
Qed.

Lemma update_cancelled_state_claim (notes : option string) (ngo : Z) (c : Claim.t)
    (db : Db.t) :
  Db.claim_of_ngo db (Claim.id c) ngo = Some c ->
  Db.claim_of_ngo (update_cancelled_state notes c db) (Claim.id c) ngo
  = Some (Claim.mk (Claim.id c) (Claim.donation_id c) (Claim.ngo_id c)
            ClaimStatus.cancelled (Claim.claimed_at c)
            (Claim.pickup_scheduled_at c) (Claim.completed_at c)
            (if Py.truthy_opt notes
             then Some ("Cancelled: " ++ RegistrationForm.data notes)%string
             else Claim.notes c)).
Proof.
  intros Hc. unfold update_cancelled_state.
  erewrite cancel_claim_method_claim.
  2:{ apply claim_of_ngo_update_claim; [intros x; split; reflexivity|].
      apply claim_of_ngo_update_claim; [intros x; split; reflexivity|]. exact Hc. }
  destruct (Py.truthy_opt notes); reflexivity.
Qed.

Lemma update_cancelled_state_donation (notes : option string) (c : Claim.t)
    (d : FoodDonation.t) (db : Db.t) :
  Db.get_donation db (Claim.donation_id c) = Some d ->
  Db.get_donation (update_cancelled_state notes c db) (Claim.donation_id c)
  = Some (FoodDonation.mk (FoodDonation.id d) (FoodDonation.donor_id d)
            (FoodDonation.category_id d) (FoodDonation.title d)
            (FoodDonation.description d) (FoodDonation.quantity d)
            (FoodDonation.unit d) (FoodDonation.expiry_date d)
            (FoodDonation.pickup_address d) (FoodDonation.pickup_city d)
            (FoodDonation.pickup_instructions d) DonationStatus.available
            (FoodDonation.is_perishable d) (FoodDonation.dietary_info d)
            (FoodDonation.created_at d)).
Proof.
  intros Hd. unfold update_cancelled_state.
  rewrite (cancel_claim_method_donation _ _ d); [reflexivity | exact Hd].
Qed.

Lemma cancel_claim_result (session : option Z) (u : User.t) (id : Z) (c : Claim.t)
    (reason : option string) (db : Db.t) :
  Db.unique_ok db = true ->
  ngo_session db session u ->
  Db.claim_of_ngo db id (User.id u) = Some c ->
  Ngo.cancel_claim session id reason db
  = if Claim.can_be_cancelled c
    then (cancel_claim_method
            (Some (match reason with Some r => r | None => "Cancelled by NGO"%string end))
            c db,
          flash "Claim has been cancelled successfully." "info"
            (redirect (url_for "ngo.my_claims" None)))
    else (db, flash "This claim cannot be cancelled at its current status." "error"
                (redirect (url_for "ngo.view_claim" (Some id)))).
Proof.
  intros Hok Hu Hc. unfold Ngo.cancel_claim.
  rewrite (ngo_route db session u _ Hu). rewrite Hc.
  destruct (Claim.can_be_cancelled c); cbn [negb]; [|reflexivity].
  cbv zeta. unfold Db.try_commit.
  rewrite (unique_ok_rewrites db _ (cancel_claim_method_rewrites _ c db)), Hok.
  reflexivity.
Qed.

Lemma can_be_cancelled_iff (c : Claim.t) :
  Claim.can_be_cancelled c = true
  <-> Claim.status c = ClaimStatus.claimed \/ Claim.status c = ClaimStatus.scheduled.
Proof.
  unfold Claim.can_be_cancelled. destruct (Claim.status c); simpl;
    split; intros H; try discriminate; auto; destruct H; discriminate.
Qed.

(** C4: in every consistent database (every state the site can be in
    is one), for a claim of the requesting NGO, update-claim with target
    status [cancelled] and a form that validates succeeds whatever the
    claim's status was, and leaves the claim [cancelled]; the
    cancel-claim action does so only when the status was [claimed] or
    [scheduled], and is otherwise rejected with an error, the database
    unchanged. *)
Theorem cancel_via_update_is_unrestricted :
  forall (env : Env) (session : option Z) (u : User.t) (id : Z) (c : Claim.t)
         (db : Db.t),
    consistent db ->
    ngo_session db session u ->
    Db.claim_of_ngo db id (User.id u) = Some c ->
    (forall (req : Request) (notes : option string),
        UpdateClaimForm.validate_on_submit req
          (UpdateClaimForm.process c
             (UpdateClaimForm.mk (Some "cancelled") notes)) = true ->
        exists db' c',
          Ngo.update_claim env session id req
            (UpdateClaimForm.mk (Some "cancelled") notes) db
          = (db', flash "Claim status updated successfully!" "success"
                    (redirect (url_for "ngo.view_claim" (Some id))))
          /\ Db.claim_of_ngo db' id (User.id u) = Some c'
          /\ Claim.status c' = ClaimStatus.cancelled)
    /\ (forall reason : option string,
          (Claim.status c = ClaimStatus.claimed
           \/ Claim.status c = ClaimStatus.scheduled ->
           exists db' c',
             Ngo.cancel_claim session id reason db
             = (db', flash "Claim has been cancelled successfully." "info"
                       (redirect (url_for "ngo.my_claims" None)))
             /\ Db.claim_of_ngo db' id (User.id u) = Some c'
             /\ Claim.status c' = ClaimStatus.cancelled)
          /\ (~ (Claim.status c = ClaimStatus.claimed
                 \/ Claim.status c = ClaimStatus.scheduled) ->
              Ngo.cancel_claim session id reason db
              = (db, flash "This claim cannot be cancelled at its current status."
                       "error" (redirect (url_for "ngo.view_claim" (Some id)))))).
Proof.
  intros env session u id c db Hcons Hu Hc.
  pose proof (cons_unique _ Hcons) as Hok.
  pose proof (claim_of_ngo_id _ _ _ _ Hc) as (_ & Ei & _).
  split.
  - intros req notes Hv. eexists. eexists.
    split;
      [exact (update_claim_cancelled_result env session u id c req
                (UpdateClaimForm.mk (Some "cancelled") notes) db
                Hok Hu Hc eq_refl Hv)|].
    rewrite <- Ei at 1. rewrite <- Ei in Hc.
    split; [apply update_cancelled_state_claim; exact Hc | reflexivity].
  - intros reason.
    rewrite (cancel_claim_result session u id c reason db Hok Hu Hc).
    split.
    + intros Hs. apply can_be_cancelled_iff in Hs. rewrite Hs.
      eexists. eexists. split; [reflexivity|].
      rewrite <- Ei at 1. rewrite <- Ei in Hc.
      split; [apply cancel_claim_method_claim; exact Hc|].
      simpl. destruct (Py.truthy _); reflexivity.
    + intros Hs. destruct (Claim.can_be_cancelled c) eqn:E; [|reflexivity].
      apply can_be_cancelled_iff in E. contradiction.
Qed.

Lemma cancel_via_update_is_unrestricted_witness :
  (exists db' c',
      Ngo.update_claim (Scenario.env 100) (Some 2) 1 Scenario.post
        (UpdateClaimForm.mk (Some "cancelled") (Some "van broke down"))
        Scenario.picked_up_db
      = (db', flash "Claim status updated successfully!" "success"
                (redirect (url_for "ngo.view_claim" (Some 1))))
      /\ Db.claim_of_ngo db' 1 2 = Some c'
      /\ Claim.status c' = ClaimStatus.cancelled)
  /\ Ngo.cancel_claim (Some 2) 1 None Scenario.picked_up_db
     = (Scenario.picked_up_db,
        flash "This claim cannot be cancelled at its current status." "error"
          (redirect (url_for "ngo.view_claim" (Some 1)))).
Proof.
  assert (Hr : consistent Scenario.picked_up_db).
  { apply reachable_consistent.
    exists Scenario.categories, Scenario.picked_up_trace. split; reflexivity. }
  assert (Hu : ngo_session Scenario.picked_up_db (Some 2) Scenario.ngo).
  { repeat split; vm_compute; reflexivity. }
  assert (Hc : Db.claim_of_ngo Scenario.picked_up_db 1 (User.id Scenario.ngo)
               = Some (Scenario.bread_claim ClaimStatus.picked_up None)).
  { vm_compute. reflexivity. }
  pose proof (cancel_via_update_is_unrestricted (Scenario.env 100) (Some 2)
                Scenario.ngo 1 _ Scenario.picked_up_db Hr Hu Hc) as [H1 H2].
  split.
  - apply H1. vm_compute. reflexivity.
  - apply (proj2 (H2 None)). intros [H|H]; discriminate H.
Defined.

(** C5, as stated, fails for empty notes: cancelling the NGO's claim on
    the bread (notes unset) through update-claim with empty notes leaves
    the claim's notes unset; they do not start with "Cancelled: ". *)
Lemma cancel_with_empty_notes_adds_no_prefix :
  exists db' c',
    Ngo.update_claim (Scenario.env 100) (Some 2) 1 Scenario.post
      (UpdateClaimForm.mk (Some "cancelled") (Some "")) Scenario.claimed_db
    = (db', flash "Claim status updated successfully!" "success"
              (redirect (url_for "ngo.view_claim" (Some 1))))
    /\ Db.claim_of_ngo db' 1 2 = Some c'
    /\ Claim.status c' = ClaimStatus.cancelled
    /\ Claim.notes c' = None
    /\ Claim.notes c' <> Some ("Cancelled: " ++ "")%string.
Proof.
  eexists. eexists.
  split; [vm_compute; reflexivity|].
  split; [vm_compute; reflexivity|].
  split; [reflexivity|].
  split; [reflexivity|].
  simpl. intros H. discriminate H.
Qed.

(** C5, amended: in every consistent database (every state the site
    can be in is one), a cancellation through update-claim with target
    status [cancelled] leaves the claim [cancelled] and the parent
    donation [available].  When the request carries notes that are not
    empty, the claim's notes become "Cancelled: " followed by these
    notes; when it carries empty notes, the claim's notes stay as they
    were; when it carries no notes, the form holds the notes of the
    claim ([UpdateClaimForm(obj=claim)]): stored notes that are not
    empty become "Cancelled: " followed by the stored notes, and
    otherwise the notes stay as they were. *)
Theorem update_claim_cancelled_effect :
  forall (env : Env) (session : option Z) (u : User.t) (id : Z) (c : Claim.t)
         (req : Request) (notes : option string) (db : Db.t),
    consistent db ->
    ngo_session db session u ->
    Db.claim_of_ngo db id (User.id u) = Some c ->
    UpdateClaimForm.validate_on_submit req
      (UpdateClaimForm.process c (UpdateClaimForm.mk (Some "cancelled") notes))
    = true ->
    exists db' d,
      Ngo.update_claim env session id req
        (UpdateClaimForm.mk (Some "cancelled") notes) db
      = (db', flash "Claim status updated successfully!" "success"
                (redirect (url_for "ngo.view_claim" (Some id))))
      /\ Db.claim_of_ngo db' id (User.id u)
         = Some (Claim.mk (Claim.id c) (Claim.donation_id c) (Claim.ngo_id c)
                   ClaimStatus.cancelled (Claim.claimed_at c)
                   (Claim.pickup_scheduled_at c) (Claim.completed_at c)
                   (match notes with
                    | Some text =>
                        if Py.truthy text
                        then Some ("Cancelled: " ++ text)%string
                        else Claim.notes c
                    | None =>
                        match Claim.notes c with
                        | Some old =>
                            if Py.truthy old
                            then Some ("Cancelled: " ++ old)%string
                            else Claim.notes c
                        | None => Claim.notes c
                        end
                    end))
      /\ Db.get_donation db (Claim.donation_id c) = Some d
      /\ Db.get_donation db' (Claim.donation_id c)
         = Some (FoodDonation.mk (FoodDonation.id d) (FoodDonation.donor_id d)
                   (FoodDonation.category_id d) (FoodDonation.title d)
                   (FoodDonation.description d) (FoodDonation.quantity d)
                   (FoodDonation.unit d) (FoodDonation.expiry_date d)
                   (FoodDonation.pickup_address d) (FoodDonation.pickup_city d)
                   (FoodDonation.pickup_instructions d) DonationStatus.available
                   (FoodDonation.is_perishable d) (FoodDonation.dietary_info d)
                   (FoodDonation.created_at d)).
Proof.
  intros env session u id c req notes db Hcons Hu Hc Hv.
  pose proof (claim_of_ngo_id _ _ _ _ Hc) as (Hin & Ei & _).
  destruct (consistent_donation_of_claim _ _ Hcons Hin) as [d Hd].
  eexists. exists d.
  split;
    [exact (update_claim_cancelled_result env session u id c req
                (UpdateClaimForm.mk (Some "cancelled") notes) db
              (cons_unique _ Hcons) Hu Hc eq_refl Hv)|].
  split.
  - rewrite <- Ei at 1. rewrite <- Ei in Hc.
    rewrite (update_cancelled_state_claim _ _ c db Hc).
    destruct notes as [text|]; [reflexivity|].
    cbn [UpdateClaimForm.process UpdateClaimForm.notes].
    destruct (Claim.notes c) as [old|]; reflexivity.
  - split; [exact Hd | now apply update_cancelled_state_donation].
Qed.

Lemma update_claim_cancelled_effect_witness :
  exists db',
    Ngo.update_claim (Scenario.env 100) (Some 2) 1 Scenario.post
      (UpdateClaimForm.mk (Some "cancelled") (Some " van broke down "))
      Scenario.picked_up_db
    = (db', flash "Claim status updated successfully!" "success"
              (redirect (url_for "ngo.view_claim" (Some 1))))
    /\ Db.claim_of_ngo db' 1 2
       = Some (Scenario.bread_claim ClaimStatus.cancelled
                 (Some "Cancelled:  van broke down "))
    /\ Db.get_donation Scenario.picked_up_db 1
       = Some (Scenario.bread DonationStatus.claimed)
    /\ Db.get_donation db' 1 = Some (Scenario.bread DonationStatus.available).
Proof.
  assert (Hr : consistent Scenario.picked_up_db).
  { apply reachable_consistent.
    exists Scenario.categories, Scenario.picked_up_trace. split; reflexivity. }
  assert (Hu : ngo_session Scenario.picked_up_db (Some 2) Scenario.ngo).
  { repeat split; vm_compute; reflexivity. }
  assert (Hc : Db.claim_of_ngo Scenario.picked_up_db 1 (User.id Scenario.ngo)
               = Some (Scenario.bread_claim ClaimStatus.picked_up None)).
  { vm_compute. reflexivity. }
  assert (Hv : UpdateClaimForm.validate_on_submit Scenario.post
                 (UpdateClaimForm.process
                    (Scenario.bread_claim ClaimStatus.picked_up None)
                    (UpdateClaimForm.mk (Some "cancelled")
                       (Some " van broke down ")))
               = true).
  { vm_compute. reflexivity. }
  destruct (update_claim_cancelled_effect (Scenario.env 100) (Some 2)
              Scenario.ngo 1 _ Scenario.post _ Scenario.picked_up_db Hr Hu Hc Hv)
    as (db' & d & Hrun & Hclaim & Hbefore & Hafter).
  assert (Hd : Db.get_donation Scenario.picked_up_db 1
               = Some (Scenario.bread DonationStatus.claimed)).
  { vm_compute. reflexivity. }
  change (Claim.donation_id (Scenario.bread_claim ClaimStatus.picked_up None))
    with 1 in Hbefore, Hafter.
  rewrite Hd in Hbefore. injection Hbefore as <-.
  exists db'.
  split; [exact Hrun|].
  split; [exact Hclaim|].
  split; [exact Hd | exact Hafter].
Defined.

(** C6: in every consistent database (every state the site can be in
    is one), for a claim of the requesting NGO, complete-pickup on a claim
    that is already [completed] tells the caller so and writes nothing;
    on a claim in any other status it sets the claim's status to
    [completed], stamps [completed_at] with the current time, and sets
    the parent donation's status to [completed]. *)
Theorem complete_pickup_effect :
  forall (env : Env) (session : option Z) (u : User.t) (id : Z) (c : Claim.t)
         (db : Db.t),
    consistent db ->
    ngo_session db session u ->
    Db.claim_of_ngo db id (User.id u) = Some c ->
    (Claim.status c = ClaimStatus.completed ->
     Ngo.complete_pickup env session id db
     = (db, flash "This claim is already marked as completed." "info"
              (redirect (url_for "ngo.my_claims" None))))
    /\ (Claim.status c <> ClaimStatus.completed ->
        exists db' d,
          Ngo.complete_pickup env session id db
          = (db', flash ("Successfully marked pickup of " ++ dquote
                         ++ FoodDonation.title d ++ dquote
                         ++ " as completed!")%string "success"
                    (redirect (url_for "ngo.my_claims" None)))
          /\ Db.claim_of_ngo db' id (User.id u)
             = Some (Claim.mk (Claim.id c) (Claim.donation_id c) (Claim.ngo_id c)
                       ClaimStatus.completed (Claim.claimed_at c)
                       (Claim.pickup_scheduled_at c) (Some (utcnow env))
                       (Claim.notes c))
          /\ Db.get_donation db (Claim.donation_id c) = Some d
          /\ Db.get_donation db' (Claim.donation_id c)
             = Some (FoodDonation.mk (FoodDonation.id d) (FoodDonation.donor_id d)
                       (FoodDonation.category_id d) (FoodDonation.title d)
                       (FoodDonation.description d) (FoodDonation.quantity d)
                       (FoodDonation.unit d) (FoodDonation.expiry_date d)
                       (FoodDonation.pickup_address d) (FoodDonation.pickup_city d)
                       (FoodDonation.pickup_instructions d) DonationStatus.completed
                       (FoodDonation.is_perishable d) (FoodDonation.dietary_info d)
                       (FoodDonation.created_at d))).
Proof.
  intros env session u id c db Hcons Hu Hc.
  pose proof (claim_of_ngo_id _ _ _ _ Hc) as (Hin & Ei & _).
  unfold Ngo.complete_pickup. rewrite (ngo_route db session u _ Hu). rewrite Hc.
  split.
  - intros Hs. rewrite Hs. reflexivity.
  - intros Hs.
    destruct (claim_status_eqb_spec (Claim.status c) ClaimStatus.completed)
      as [E|_]; [contradiction|].
    destruct (consistent_donation_of_claim _ _ Hcons Hin) as [d Hd].
    exists (mark_as_completed (utcnow env) c db), d.
    cbv zeta. unfold Db.try_commit.
    rewrite (unique_ok_rewrites db _
               (rewrites_weaken _ _ (mark_as_completed_rewrites (utcnow env) c db))).
    rewrite (cons_unique _ Hcons).
    unfold Db.donation_of_claim.
    rewrite (mark_as_completed_donation (utcnow env) c d db Hd).
    split; [reflexivity|].
    split.
    + rewrite <- Ei at 1. rewrite <- Ei in Hc.
      apply (mark_as_completed_claim (utcnow env) (User.id u) c c db Hc).
    + split; [exact Hd | reflexivity].
Qed.

Lemma complete_pickup_effect_witness :
  (exists db',
      Ngo.complete_pickup (Scenario.env 101) (Some 2) 1 Scenario.picked_up_db
      = (db', flash ("Successfully marked pickup of " ++ dquote
                     ++ "Surplus Bread" ++ dquote
                     ++ " as completed!")%string "success"
                (redirect (url_for "ngo.my_claims" None)))
      /\ Db.claim_of_ngo db' 1 2
         = Some (Claim.mk 1 1 2 ClaimStatus.completed (Some 8640000) None
                   (Some 8726400) None)
      /\ Db.get_donation Scenario.picked_up_db 1
         = Some (Scenario.bread DonationStatus.claimed)
      /\ Db.get_donation db' 1 = Some (Scenario.bread DonationStatus.completed))
  /\ Ngo.complete_pickup (Scenario.env 102) (Some 2) 1
       (run [(Scenario.env 101, CompletePickup (Some 2) 1)] Scenario.picked_up_db)
     = (run [(Scenario.env 101, CompletePickup (Some 2) 1)] Scenario.picked_up_db,
        flash "This claim is already marked as completed." "info"
          (redirect (url_for "ngo.my_claims" None))).
Proof.
  split.
  - assert (Hr : consistent Scenario.picked_up_db).
    { apply reachable_consistent.
      exists Scenario.categories, Scenario.picked_up_trace. split; reflexivity. }
    assert (Hu : ngo_session Scenario.picked_up_db (Some 2) Scenario.ngo).
    { repeat split; vm_compute; reflexivity. }
    assert (Hc : Db.claim_of_ngo Scenario.picked_up_db 1 (User.id Scenario.ngo)
                 = Some (Scenario.bread_claim ClaimStatus.picked_up None)).
    { vm_compute. reflexivity. }
    assert (Hne : Claim.status (Scenario.bread_claim ClaimStatus.picked_up None)
                  <> ClaimStatus.completed).
    { intros H. discriminate H. }
    destruct (proj2 (complete_pickup_effect (Scenario.env 101) (Some 2)
                       Scenario.ngo 1 _ Scenario.picked_up_db Hr Hu Hc) Hne)
      as (db' & d & Hrun & Hclaim & Hbefore & Hafter).
    assert (Hd : Db.get_donation Scenario.picked_up_db 1
                 = Some (Scenario.bread DonationStatus.claimed)).
    { vm_compute. reflexivity. }
    change (Claim.donation_id (Scenario.bread_claim ClaimStatus.picked_up None))
      with 1 in Hbefore, Hafter.
    rewrite Hd in Hbefore. injection Hbefore as <-.
    exists db'.
    split; [exact Hrun|].
    split; [exact Hclaim|].
    split; [exact Hd | exact Hafter].
  - set (db1 := run [(Scenario.env 101, CompletePickup (Some 2) 1)]
                  Scenario.picked_up_db).
    assert (Hr : consistent db1).
    { apply reachable_consistent.
      exists Scenario.categories,
        (Scenario.picked_up_trace
         ++ [(Scenario.env 101, CompletePickup (Some 2) 1)])%list.
      split; [reflexivity|]. subst db1. rewrite run_app. reflexivity. }
    assert (Hu : ngo_session db1 (Some 2) Scenario.ngo).
    { repeat split; vm_compute; reflexivity. }
    assert (Hc : Db.claim_of_ngo db1 1 (User.id Scenario.ngo)
                 = Some (Claim.mk 1 1 2 ClaimStatus.completed (Some 8640000) None
                           (Some 8726400) None)).
    { vm_compute. reflexivity. }
    apply (proj1 (complete_pickup_effect (Scenario.env 102) (Some 2) Scenario.ngo 1 _
                    db1 Hr Hu Hc)).
    reflexivity.
Defined.

(** ** The lazy expiry sweep *)

(** When the first row that passes [p] also passes [q], it is the first
    row that passes both. *)
Lemma find_conj {A : Type} (p q : A -> bool) (l : list A) (x : A) :
  find p l = Some x -> q x = true ->
  find (fun y => (p y && q y)%bool) l = Some x.
Proof.
  induction l as [|y r IH]; simpl; [discriminate|].
  destruct (p y) eqn:Ep; simpl.
  - intros E Hq. injection E as ->. now rewrite Hq.
  - exact IH.
Qed.

Lemma expire_id (today : Z) (d : FoodDonation.t) :
  FoodDonation.id (expire today d) = FoodDonation.id d.
Proof.
  unfold expire, FoodDonation.update_status_if_expired.
  destruct (_ && _)%bool; reflexivity.
Qed.

Lemma expire_donor_id (today : Z) (d : FoodDonation.t) :
  FoodDonation.donor_id (expire today d) = FoodDonation.donor_id d.
Proof.
  unfold expire, FoodDonation.update_status_if_expired.
  destruct (_ && _)%bool; reflexivity.
Qed.

(** A second check finds nothing to do. *)
Lemma update_status_if_expired_again (today : Z) (d : FoodDonation.t) :
  FoodDonation.update_status_if_expired today (expire today d)
  = (expire today d, false).
Proof.
  unfold expire, FoodDonation.update_status_if_expired.
  destruct (FoodDonation.is_expired today d) eqn:E1; simpl.
  - destruct (DonationStatus.eqb (FoodDonation.status d) DonationStatus.available)
      eqn:E2; simpl.
    + unfold FoodDonation.is_expired in *. simpl. rewrite E1. reflexivity.
    + now rewrite E1, E2.
  - now rewrite E1.
Qed.

Lemma expire_expired (today : Z) (d : FoodDonation.t) :
  FoodDonation.status d = DonationStatus.available ->
  FoodDonation.expiry_date d < today ->
  FoodDonation.update_status_if_expired today d
  = (FoodDonation.set_status DonationStatus.expired d, true).
Proof.
  intros Hs He. unfold FoodDonation.update_status_if_expired, FoodDonation.is_expired.
  rewrite Hs. apply Z.ltb_lt in He. now rewrite He.
Qed.

Lemma expire_untouched (today : Z) (d : FoodDonation.t) :
  today <= FoodDonation.expiry_date d
  \/ FoodDonation.status d <> DonationStatus.available ->
  FoodDonation.update_status_if_expired today d = (d, false).
Proof.
  intros H. unfold FoodDonation.update_status_if_expired, FoodDonation.is_expired.
  destruct H as [H|H].
  - assert (E : (FoodDonation.expiry_date d <? today) = false) by (apply Z.ltb_ge; lia).
    now rewrite E.
  - destruct (donation_status_eqb_spec (FoodDonation.status d)
                DonationStatus.available) as [E|_]; [contradiction|].
    now rewrite andb_false_r.
Qed.

Lemma sweep_row_id (today donor : Z) (d : FoodDonation.t) :
  FoodDonation.id (sweep_row today donor d) = FoodDonation.id d.
Proof. unfold sweep_row. destruct (Donor.swept donor d); [apply expire_id | reflexivity]. Qed.

Lemma sweep_row_again (today donor : Z) (d : FoodDonation.t) :
  sweep_row today donor (sweep_row today donor d) = sweep_row today donor d.
Proof.
  unfold sweep_row. destruct (Donor.swept donor d) eqn:E.
  - destruct (Donor.swept donor (expire today d)); [|reflexivity].
    unfold expire at 1. now rewrite update_status_if_expired_again.
  - now rewrite E.
Qed.

Lemma sweep_nothing_expired (today donor : Z) (ds : list FoodDonation.t) :
  (Donor.expired_count today donor ds >? 0) = false ->
  Donor.sweep today donor ds = ds.
Proof.
  unfold Donor.expired_count, Donor.sweep. intros H.
  assert (F : filter (fun d => (Donor.swept donor d
                                && snd (FoodDonation.update_status_if_expired today d))%bool)
                ds = []).
  { destruct (filter _ ds) as [|x r]; [reflexivity|].
    exfalso. rewrite Z.gtb_ltb in H. apply Z.ltb_ge in H.
    cbn [List.length] in H. lia. }
  clear H. induction ds as [|d r IH]; cbn [map filter] in *; [reflexivity|].
  destruct (Donor.swept donor d) eqn:Es; cbn [andb] in F.
  - unfold FoodDonation.update_status_if_expired in *.
    destruct (_ && _)%bool; cbn [fst snd] in *; [discriminate F|].
    now rewrite IH.
  - now rewrite IH.
Qed.

Lemma with_food_donations_same (db : Db.t) :
  Db.with_food_donations (Db.food_donations db) db = db.
Proof. now destruct db. Qed.

(** The database after [dashboard], for the donor of the session. *)
Lemma dashboard_db (env : Env) (session : option Z) (u : User.t) (db : Db.t) :
  donor_session db session u ->
  fst (Donor.dashboard env session db)
  = Db.with_food_donations
      (map (sweep_row (today env) (User.id u)) (Db.food_donations db)) db.
Proof.
  intros Hu. unfold Donor.dashboard. rewrite (donor_route db session u _ Hu).
  cbv zeta. cbn [fst].
  change (map (sweep_row (today env) (User.id u)) (Db.food_donations db))
    with (Donor.sweep (today env) (User.id u) (Db.food_donations db)).
  destruct (_ >? 0) eqn:E; [reflexivity|].
  rewrite (sweep_nothing_expired _ _ _ E). now rewrite with_food_donations_same.
Qed.

(** The database after [view_donation], for the donor of the session. *)
Lemma view_donation_db (env : Env) (session : option Z) (u : User.t) (i : Z)
    (db : Db.t) :
  donor_session db session u ->
  fst (Donor.view_donation env session i db)
  = match Db.donation_of_donor db i (User.id u) with
    | Some d =>
        if snd (FoodDonation.update_status_if_expired (today env) d)
        then Db.update_donation (FoodDonation.id d) (fun _ => expire (today env) d) db
        else db
    | None => db
    end.
Proof.
  intros Hu. unfold Donor.view_donation. rewrite (donor_route db session u _ Hu).
  destruct (Db.donation_of_donor db i (User.id u)) as [d|]; [|reflexivity].
  unfold expire.
  destruct (FoodDonation.update_status_if_expired (today env) d) as [d' changed].
  cbn [fst snd]. destruct changed; reflexivity.
Qed.

Lemma get_donation_update_donation_gen (db : Db.t) (i j : Z)
    (g : FoodDonation.t -> FoodDonation.t) :
  (forall y, FoodDonation.id y = i -> FoodDonation.id (g y) = i) ->
  Db.get_donation (Db.update_donation i g db) j
  = option_map (fun y => if FoodDonation.id y =? i then g y else y)
      (Db.get_donation db j).
Proof.
  intros Hg. unfold Db.get_donation, Db.update_donation. simpl.
  apply find_map_keeping. intros y.
  destruct (FoodDonation.id y =? i) eqn:E; [|reflexivity].
  apply Z.eqb_eq in E. now rewrite (Hg y E), E.
Qed.

Lemma donation_of_donor_In (db : Db.t) (i donor : Z) (d : FoodDonation.t) :
  Db.donation_of_donor db i donor = Some d ->
  In d (Db.food_donations db)
  /\ FoodDonation.id d = i /\ FoodDonation.donor_id d = donor.
Proof.
  intros H. apply find_some in H. destruct H as [Hin E].
  apply andb_true_iff in E. destruct E as [E1 E2].
  apply Z.eqb_eq in E1, E2. auto.
Qed.

Lemma not_changed_expire (today : Z) (d : FoodDonation.t) :
  snd (FoodDonation.update_status_if_expired today d) = false -> expire today d = d.
Proof.
  unfold expire, FoodDonation.update_status_if_expired.
  destruct (_ && _)%bool; simpl; [discriminate | reflexivity].
Qed.

Lemma dashboard_lookup (env : Env) (session : option Z) (u : User.t) (db : Db.t)
    (x : FoodDonation.t) :
  donor_session db session u ->
  Db.get_donation db (FoodDonation.id x) = Some x ->
  Db.get_donation (fst (Donor.dashboard env session db)) (FoodDonation.id x)
  = Some (sweep_row (today env) (User.id u) x).
Proof.
  intros Hu Hx. rewrite (dashboard_db env session u db Hu).
  unfold Db.get_donation in *. simpl.
  rewrite find_map_keeping; [now rewrite Hx|].
  intros y. now rewrite sweep_row_id.
Qed.

Lemma view_donation_lookup (env : Env) (session : option Z) (u : User.t) (i : Z)
    (db : Db.t) (x : FoodDonation.t) :
  consistent db ->
  donor_session db session u ->
  Db.get_donation db (FoodDonation.id x) = Some x ->
  Db.get_donation (fst (Donor.view_donation env session i db)) (FoodDonation.id x)
  = Some (if ((FoodDonation.id x =? i)
              && (FoodDonation.donor_id x =? User.id u))%bool
          then expire (today env) x else x).
Proof.
  intros Hc Hu Hx. rewrite (view_donation_db env session u i db Hu).
  pose proof (get_donation_In _ _ _ Hx) as [Hxin _].
  destruct (Db.donation_of_donor db i (User.id u)) as [d|] eqn:Hd.
  - apply donation_of_donor_In in Hd. destruct Hd as (Hdin & Ei & Eu).
    destruct (FoodDonation.id x =? i) eqn:Exi.
    + apply Z.eqb_eq in Exi.
      assert (x = d) as ->.
      { pose proof (find_by_key FoodDonation.id _ x (cons_donation_keys _ Hc) Hxin) as F1.
        pose proof (find_by_key FoodDonation.id _ d (cons_donation_keys _ Hc) Hdin) as F2.
        rewrite Exi, <- Ei in F1. congruence. }
      rewrite Eu, Z.eqb_refl. cbn [andb].
      destruct (snd (FoodDonation.update_status_if_expired (today env) d)) eqn:Ech.
      * rewrite get_donation_update_donation_gen; [|intros; apply expire_id].
        rewrite Hx. simpl. now rewrite Z.eqb_refl.
      * now rewrite (not_changed_expire _ _ Ech).
    + cbn [andb].
      destruct (snd (FoodDonation.update_status_if_expired (today env) d));
        [|exact Hx].
      rewrite get_donation_update_donation_gen; [|intros; apply expire_id].
      rewrite Hx. simpl. now rewrite Ei, Exi.
  - rewrite Hx. f_equal.
    unfold Db.donation_of_donor in Hd.
    pose proof (find_none _ _ Hd x Hxin) as F. simpl in F. now rewrite F.
Qed.

Lemma load_step (env : Env) (session : option Z) (i : Z) (page : Page) (db : Db.t) :
  load env session i page db
  = step env (match page with
              | DashboardPage => DonorDashboard session
              | DetailPage => DonorViewDonation session i
              end) db.
Proof. destruct page; reflexivity. Qed.

Lemma load_session (env : Env) (session : option Z) (u : User.t) (i : Z)
    (page : Page) (db : Db.t) :
  consistent db ->
  donor_session db session u ->
  donor_session (load env session i page db) session u.
Proof.
  intros Hc (H1 & H2 & H3).
  assert (E : Db.users (load env session i page db) = Db.users db).
  { destruct page; simpl.
    - apply (rw_users _ _ _ (dashboard_rewrites env session db)).
    - apply (rw_users _ _ _ (view_donation_rewrites env session i db
                               (cons_donation_keys _ Hc))). }
  repeat split; try assumption.
  unfold current_user, Db.get_user in *. now rewrite E.
Qed.

Lemma load_lookup_own (env : Env) (session : option Z) (u : User.t) (page : Page)
    (db : Db.t) (d : FoodDonation.t) :
  consistent db ->
  donor_session db session u ->
  Db.get_donation db (FoodDonation.id d) = Some d ->
  FoodDonation.donor_id d = User.id u ->
  Db.get_donation (load env session (FoodDonation.id d) page db) (FoodDonation.id d)
  = Some (expire (today env) d).
Proof.
  intros Hc Hu Hd Ho. destruct page; simpl.
  - rewrite (dashboard_lookup env session u db d Hu Hd). f_equal.
    unfold sweep_row, Donor.swept. rewrite Ho, Z.eqb_refl. cbn [andb].
    destruct (donation_status_eqb_spec (FoodDonation.status d)
                DonationStatus.available) as [E|E]; [reflexivity|].
    unfold expire. rewrite expire_untouched; [reflexivity | now right].
  - rewrite (view_donation_lookup env session u _ db d Hc Hu Hd).
    now rewrite Ho, !Z.eqb_refl.
Qed.

Lemma load_lookup_untouched (env : Env) (session : option Z) (u : User.t) (i : Z)
    (page : Page) (db : Db.t) (x : FoodDonation.t) :
  consistent db ->
  donor_session db session u ->
  Db.get_donation db (FoodDonation.id x) = Some x ->
  today env <= FoodDonation.expiry_date x
  \/ FoodDonation.status x <> DonationStatus.available ->
  Db.get_donation (load env session i page db) (FoodDonation.id x) = Some x.
Proof.
  intros Hc Hu Hx Hst.
  assert (E : expire (today env) x = x).
  { unfold expire. now rewrite expire_untouched. }
  destruct page; simpl.
  - rewrite (dashboard_lookup env session u db x Hu Hx). f_equal.
    unfold sweep_row. now destruct (Donor.swept (User.id u) x).
  - rewrite (view_donation_lookup env session u i db x Hc Hu Hx). f_equal.
    now destruct (_ && _)%bool.
Qed.

Lemma load_twice (env : Env) (session : option Z) (u : User.t) (i : Z)
    (page : Page) (db : Db.t) :
  consistent db ->
  donor_session db session u ->
  load env session i page (load env session i page db)
  = load env session i page db.
Proof.
  intros Hc Hu.
  pose proof (load_session env session u i page db Hc Hu) as Hu1.
  destruct page; simpl in *.
  - rewrite (dashboard_db env session u _ Hu1).
    rewrite (dashboard_db env session u db Hu). simpl.
    rewrite map_map.
    unfold Db.with_food_donations. simpl. f_equal.
    apply map_ext. intros d. apply sweep_row_again.
  - rewrite (view_donation_db env session u i _ Hu1).
    rewrite (view_donation_db env session u i db Hu) in *.
    destruct (Db.donation_of_donor db i (User.id u)) as [d|] eqn:Hd;
      [|now rewrite Hd].
    destruct (snd (FoodDonation.update_status_if_expired (today env) d)) eqn:Ech;
      [|now rewrite Hd, Ech].
    pose proof (donation_of_donor_In _ _ _ _ Hd) as (Hdin & Ei & Eu).
    set (db1 := Db.update_donation _ _ db) in *.
    assert (L : Db.donation_of_donor db1 i (User.id u) = Some (expire (today env) d)).
    { unfold Db.donation_of_donor.
      apply (find_conj (fun y => FoodDonation.id y =? i)
               (fun y => FoodDonation.donor_id y =? User.id u)).
      - change (Db.get_donation db1 i = Some (expire (today env) d)).
        subst db1. rewrite <- Ei.
        rewrite get_donation_update_donation_gen; [|intros; apply expire_id].
        unfold Db.get_donation.
        rewrite (find_by_key FoodDonation.id _ d (cons_donation_keys _ Hc) Hdin).
        simpl. now rewrite Z.eqb_refl.
      - rewrite expire_donor_id, Eu. apply Z.eqb_refl. }
    rewrite L. now rewrite update_status_if_expired_again.
Qed.

(** C3: in every consistent database (every state the site can be in
    is one), for a donation of the donor with status [available] whose
    expiry date is before today, loading the donor's dashboard or the
    donation's detail view leaves it [expired] in the database.  A
    second load of either page does not change the donation further,
    and the same page loaded twice gives the database of one load.  A
    donation whose expiry date is today or later, or whose status is not
    [available], is left as it is by these loads. *)
Theorem expiry_check_on_load :
  forall (env : Env) (session : option Z) (u : User.t) (db : Db.t)
         (d : FoodDonation.t),
    consistent db ->
    donor_session db session u ->
    Db.get_donation db (FoodDonation.id d) = Some d ->
    FoodDonation.donor_id d = User.id u ->
    (FoodDonation.status d = DonationStatus.available ->
     FoodDonation.expiry_date d < today env ->
     forall page,
       Db.get_donation (load env session (FoodDonation.id d) page db)
         (FoodDonation.id d)
       = Some (FoodDonation.mk (FoodDonation.id d) (FoodDonation.donor_id d)
                 (FoodDonation.category_id d) (FoodDonation.title d)
                 (FoodDonation.description d) (FoodDonation.quantity d)
                 (FoodDonation.unit d) (FoodDonation.expiry_date d)
                 (FoodDonation.pickup_address d) (FoodDonation.pickup_city d)
                 (FoodDonation.pickup_instructions d) DonationStatus.expired
                 (FoodDonation.is_perishable d) (FoodDonation.dietary_info d)
                 (FoodDonation.created_at d)))
    /\ (forall page page',
          Db.get_donation
            (load env session (FoodDonation.id d) page'
               (load env session (FoodDonation.id d) page db))
            (FoodDonation.id d)
          = Db.get_donation (load env session (FoodDonation.id d) page db)
              (FoodDonation.id d))
    /\ (forall page,
          load env session (FoodDonation.id d) page
            (load env session (FoodDonation.id d) page db)
          = load env session (FoodDonation.id d) page db)
    /\ (forall (x : FoodDonation.t) page,
          Db.get_donation db (FoodDonation.id x) = Some x ->
          today env <= FoodDonation.expiry_date x
          \/ FoodDonation.status x <> DonationStatus.available ->
          Db.get_donation (load env session (FoodDonation.id d) page db)
            (FoodDonation.id x)
          = Some x).
Proof.
  intros env session u db d Hc Hu Hd Ho.
  split; [|split; [|split]].
  - intros Hs He page.
    rewrite (load_lookup_own env session u page db d Hc Hu Hd Ho).
    unfold expire. now rewrite expire_expired.
  - intros page page'.
    set (db1 := load env session (FoodDonation.id d) page db).
    assert (Hc1 : consistent db1).
    { subst db1. rewrite load_step. now apply step_consistent. }
    assert (Hu1 : donor_session db1 session u) by now apply load_session.
    assert (Hd1 : Db.get_donation db1 (FoodDonation.id (expire (today env) d))
                  = Some (expire (today env) d)).
    { rewrite expire_id. now apply load_lookup_own with (u := u). }
    pose proof (load_lookup_own env session u page' db1 (expire (today env) d)
                  Hc1 Hu1 Hd1) as H2.
    rewrite expire_donor_id, expire_id in H2. specialize (H2 Ho).
    rewrite H2. rewrite expire_id in Hd1. rewrite Hd1.
    unfold expire at 1. now rewrite update_status_if_expired_again.
  - intros page. now apply load_twice with (u := u).
  - intros x page Hx Hst. now apply load_lookup_untouched with (u := u).
Qed.

Lemma expiry_check_on_load_witness :
  (forall page,
      Db.get_donation (load (Scenario.env 104) (Some 1) 1 page Scenario.listed_db) 1
      = Some (Scenario.bread DonationStatus.expired))
  /\ (forall page,
        Db.get_donation (load (Scenario.env 103) (Some 1) 1 page Scenario.listed_db) 1
        = Some (Scenario.bread DonationStatus.available)).
Proof.
  assert (Hr : consistent Scenario.listed_db).
  { apply reachable_consistent.
    exists Scenario.categories, Scenario.listed_trace. split; reflexivity. }
  assert (Hu : donor_session Scenario.listed_db (Some 1) Scenario.donor).
  { repeat split; vm_compute; reflexivity. }
  assert (Hd : Db.get_donation Scenario.listed_db
                 (FoodDonation.id (Scenario.bread DonationStatus.available))
               = Some (Scenario.bread DonationStatus.available)).
  { vm_compute. reflexivity. }
  split.
  - destruct (expiry_check_on_load (Scenario.env 104) (Some 1) Scenario.donor
                Scenario.listed_db (Scenario.bread DonationStatus.available)
                Hr Hu Hd eq_refl) as (H1 & _).
    apply H1; [reflexivity | simpl; lia].
  - destruct (expiry_check_on_load (Scenario.env 103) (Some 1) Scenario.donor
                Scenario.listed_db (Scenario.bread DonationStatus.available)
                Hr Hu Hd eq_refl) as (_ & _ & _ & H4).
    intros page.
    apply (H4 (Scenario.bread DonationStatus.available) page Hd).
    left. simpl. lia.
Defined.

(** ** Registration of an NGO *)

(** An NGO registration whose organization name or registration number
    is empty or absent fails validation with the error of that field,
    and the database is the one before the request. *)
Lemma register_rejects_empty_ngo_fields (env : Env) (session : option Z)
    (req : Request) (form : RegistrationForm.t) (db : Db.t) :
  RegistrationForm.user_type form = Some "ngo"%string ->
  Py.truthy_opt (RegistrationForm.organization_name form) = false
  \/ Py.truthy_opt (RegistrationForm.registration_number form) = false ->
  (In ("organization_name"%string, ["Organization name is required for NGOs."%string])
      (RegistrationForm.errors env db form)
   \/ In ("registration_number"%string,
          ["Registration number is required for NGOs."%string])
         (RegistrationForm.errors env db form))
  /\ Auth.db_after (Auth.register env session req form db) = db.
Proof.
  intros Hngo Hblank.
  assert (Herr :
    In ("organization_name"%string, ["Organization name is required for NGOs."%string])
       (RegistrationForm.errors env db form)
    \/ In ("registration_number"%string,
           ["Registration number is required for NGOs."%string])
          (RegistrationForm.errors env db form)).
  { unfold RegistrationForm.errors. destruct Hblank as [Hb|Hb]; [left|right].
    - do 9 (apply in_or_app; right).
      apply in_or_app; left.
      unfold RegistrationForm.validate_organization_name, RegistrationForm.is_ngo.
      rewrite Hngo, Hb. simpl.
      destruct (RegistrationForm.organization_name form) as [[|c s]|];
        try discriminate Hb; simpl; now left.
    - repeat (apply in_or_app; right).
      unfold RegistrationForm.validate_registration_number, RegistrationForm.is_ngo.
      rewrite Hngo, Hb. simpl.
      destruct (RegistrationForm.registration_number form) as [[|c s]|];
        try discriminate Hb; simpl; now left. }
  split; [exact Herr|].
  unfold Auth.register.
  destruct (is_authenticated (current_user db session)); [reflexivity|].
  unfold RegistrationForm.validate_on_submit.
  destruct (RegistrationForm.errors env db form) as [|e es].
  - destruct Herr as [[]|[]].
  - now rewrite andb_false_r.
Qed.

(** C7 at its failing input: an NGO registration whose organization name
    is three spaces passes validation, and a user row is created with
    the empty organization name; the model's own
    [User.validate_ngo_fields] calls the same fields invalid. *)
Theorem register_whitespace_organization_creates_user :
  let form :=
    RegistrationForm.mk (Some "helping") (Some "h@x.org") (Some "secret2")
      (Some "secret2") (Some "ngo") (Some "Helen Hands")
      (Some "") (Some "") (Some "") (Some "   ") (Some "REG123") in
  RegistrationForm.errors (Scenario.env 100) (bootstrap Scenario.categories) form = []
  /\ Db.users
       (Auth.db_after
          (Auth.register (Scenario.env 100) None Scenario.post form
             (bootstrap Scenario.categories)))
     = [User.mk 1 "helping" "h@x.org" "secret2" UserType.ngo "Helen Hands"
          None None None (Some "") (Some "REG123") true 8640000]
  /\ User.validate_ngo_fields (Some "   ") (Some "REG123")
     = (false, "Organization name is required for NGOs"%string).
Proof.
  cbv zeta. split; [vm_compute; reflexivity|].
  split; vm_compute; reflexivity.
Qed.

(** ** Login and the [next] parameter *)

(** The login of a user with valid credentials and an active account. *)
Lemma login_success (env : Env) (session : option Z) (next : option string)
    (req : Request) (form : LoginForm.t) (db : Db.t) (user : User.t) :
  is_authenticated (current_user db session) = false ->
  LoginForm.validate_on_submit env req form = true ->
  find (fun u => String.eqb (User.email u)
                   (Py.lower (RegistrationForm.data (LoginForm.email form))))
       (Db.users db) = Some user ->
  check_password_hash env (User.password_hash user)
    (RegistrationForm.data (LoginForm.password form)) = true ->
  User.is_active user = true ->
  Auth.login env session next req form db
  = Auth.mkResult db (Some (User.id user))
      (flash ("Welcome back, " ++ User.get_display_name user ++ "!")%string "success"
         (redirect
            (match next with
             | Some next_page =>
                 if Py.truthy next_page then external next_page
                 else url_for "main.dashboard" None
             | None => url_for "main.dashboard" None
             end))).
Proof.
  intros Ha Hv Hf Hp Hact. unfold Auth.login.
  rewrite Ha, Hv, Hf, Hp, Hact. cbn [negb].
  destruct next as [n|]; [|reflexivity].
  destruct (Py.truthy n); reflexivity.
Qed.

(** C8, as stated, fails: the donor of the worked scenario logs in with
    [next] set to an address on another host and is redirected there;
    so no test that rejects this address stands between [next] and the
    redirect. *)
Lemma login_follows_foreign_next :
  Auth.answer
    (Auth.login (Scenario.env 100) None (Some "http://evil.example/") Scenario.post
       (LoginForm.mk (Some "g@x.com") (Some "secret1") false) Scenario.listed_db)
  = flash "Welcome back, Green Restaurant!" "success"
      (redirect (external "http://evil.example/"))
  /\ ~ (exists safe : string -> bool,
          safe "http://evil.example/" = false
          /\ forall target : string,
               Auth.answer
                 (Auth.login (Scenario.env 100) None (Some target) Scenario.post
                    (LoginForm.mk (Some "g@x.com") (Some "secret1") false)
                    Scenario.listed_db)
               = flash "Welcome back, Green Restaurant!" "success"
                   (redirect (external target)) ->
               safe target = true).
Proof.
  assert (H : Auth.answer
    (Auth.login (Scenario.env 100) None (Some "http://evil.example/") Scenario.post
       (LoginForm.mk (Some "g@x.com") (Some "secret1") false) Scenario.listed_db)
    = flash "Welcome back, Green Restaurant!" "success"
        (redirect (external "http://evil.example/"))).
  { vm_compute. reflexivity. }
  split; [exact H|].
  intros (safe & Hunsafe & Hall).
  specialize (Hall _ H). congruence.
Qed.

(** C8, amended: on a successful login (valid credentials, active
    account) the user is redirected to the [next] query parameter when
    it is present and not empty, whatever it is, and to the dashboard
    when it is absent or empty. *)
Theorem login_redirects_to_next :
  forall (env : Env) (session : option Z) (next : option string)
         (req : Request) (form : LoginForm.t) (db : Db.t) (user : User.t),
    is_authenticated (current_user db session) = false ->
    LoginForm.validate_on_submit env req form = true ->
    find (fun u => String.eqb (User.email u)
                     (Py.lower (RegistrationForm.data (LoginForm.email form))))
         (Db.users db) = Some user ->
    check_password_hash env (User.password_hash user)
      (RegistrationForm.data (LoginForm.password form)) = true ->
    User.is_active user = true ->
    Auth.session_after (Auth.login env session next req form db) = Some (User.id user)
    /\ response (Auth.answer (Auth.login env session next req form db))
       = redirect
           (match next with
            | Some next_page =>
                match next_page with
                | EmptyString => url_for "main.dashboard" None
                | _ => external next_page
                end
            | None => url_for "main.dashboard" None
            end).
Proof.
  intros env session next req form db user Ha Hv Hf Hp Hact.
  rewrite (login_success env session next req form db user Ha Hv Hf Hp Hact).
  split; [reflexivity|]. simpl.
  destruct next as [[|c s]|]; reflexivity.
Qed.

Lemma login_redirects_to_next_witness :
  Auth.session_after
    (Auth.login (Scenario.env 100) None (Some "/donor/donations") Scenario.post
       (LoginForm.mk (Some "G@x.com") (Some "secret1") false) Scenario.listed_db)
  = Some 1
  /\ response
       (Auth.answer
          (Auth.login (Scenario.env 100) None (Some "/donor/donations") Scenario.post
             (LoginForm.mk (Some "G@x.com") (Some "secret1") false)
             Scenario.listed_db))
     = redirect (external "/donor/donations").
Proof.
  apply (login_redirects_to_next (Scenario.env 100) None (Some "/donor/donations")
           Scenario.post (LoginForm.mk (Some "G@x.com") (Some "secret1") false)
           Scenario.listed_db Scenario.donor);
    vm_compute; reflexivity.
Defined.

(** ** The browse listing *)

(** [contains] is the substring relation. *)
Lemma startswith_iff (prefix s : string) :
  BrowseSpec.startswith prefix s = true <-> exists rest, s = (prefix ++ rest)%string.
Proof.
  revert s. induction prefix as [|c p IH]; intros s; simpl.
  - split; [intros _; now exists s | reflexivity].
  - destruct s as [|d s]; [split; [discriminate | intros [r E]; discriminate E]|].
    rewrite andb_true_iff, Ascii.eqb_eq, IH. split.
    + intros [-> [r ->]]. now exists r.
    + intros [r E]. injection E as -> ->. split; [reflexivity | now exists r].
Qed.

Lemma contains_iff (needle text : string) :
  BrowseSpec.contains needle text = true
  <-> exists before after, text = (before ++ needle ++ after)%string.
Proof.
  unfold BrowseSpec.contains. induction text as [|d t IH]; simpl.
  - rewrite orb_false_r, startswith_iff. split.
    + intros [r E]. now exists EmptyString, r.
    + intros [[|b bs] [r E]]; [now exists r | discriminate E].
  - rewrite orb_true_iff, startswith_iff, IH. split.
    + intros [[r E] | [b [r E]]].
      * now exists EmptyString, r.
      * exists (String d b), r. simpl. now rewrite E.
    + intros [[|b bs] [r E]].
      * left. now exists r.
      * right. simpl in E. injection E as -> ->. now exists bs, r.
Qed.














Lemma insert_perm (le : FoodDonation.t -> FoodDonation.t -> bool)
    (x : FoodDonation.t) (l : list FoodDonation.t) :
  Permutation (Query.insert le x l) (x :: l).
Proof.
  induction l as [|y r IH]; simpl; [apply Permutation_refl|].
  destruct (le x y); [apply Permutation_refl|].
  eapply perm_trans; [apply perm_skip, IH | apply perm_swap].
Qed.

Lemma sort_perm (le : FoodDonation.t -> FoodDonation.t -> bool)
    (l : list FoodDonation.t) :
  Permutation (Query.sort le l) l.
Proof.
  unfold Query.sort. induction l as [|x r IH]; simpl; [constructor|].
  eapply perm_trans; [apply insert_perm | now apply perm_skip].
Qed.








(** The listing of the witness is not empty: the search "BREAD" and the
    city "field" find the bread. *)
Example browse_finds_bread :
  Main.browse_donations (Scenario.env 100)
    (Main.mkBrowseArgs "BREAD" 1 "field" "" 0) Scenario.listed_db
  = [Scenario.bread DonationStatus.available].
Proof. vm_compute. reflexivity. Qed.

(** * Further properties *)

(** ** More on lists and lookups *)

Lemma find_app_some {A : Type} (p : A -> bool) (l r : list A) (x : A) :
  find p l = Some x -> find p (l ++ r) = Some x.
Proof.
  induction l as [|y l IH]; simpl; [discriminate|].
  destruct (p y); [trivial | exact IH].
Qed.

Lemma find_app_none {A : Type} (p : A -> bool) (l r : list A) :
  find p l = None -> find p (l ++ r) = find p r.
Proof.
  induction l as [|y l IH]; simpl; [reflexivity|].
  destruct (p y); [discriminate | exact IH].
Qed.

Lemma find_filter_keeping {A : Type} (p q : A -> bool) (l : list A) :
  (forall x, p x = true -> q x = true) ->
  find p (filter q l) = find p l.
Proof.
  intros Hpq. induction l as [|y l IH]; simpl; [reflexivity|].
  destruct (q y) eqn:Eq; simpl.
  - destruct (p y); [reflexivity | exact IH].
  - destruct (p y) eqn:Ep; [|exact IH].
    apply Hpq in Ep. congruence.
Qed.

Lemma find_filter_none {A : Type} (p q : A -> bool) (l : list A) :
  (forall x, p x = true -> q x = false) ->
  find p (filter q l) = None.
Proof.
  intros Hpq. induction l as [|y l IH]; simpl; [reflexivity|].
  destruct (q y) eqn:Eq; simpl; [|exact IH].
  destruct (p y) eqn:Ep; [|exact IH].
  apply Hpq in Ep. congruence.
Qed.

Lemma In_firstn {A : Type} (n : nat) (l : list A) (x : A) :
  In x (firstn n l) -> In x l.
Proof.
  intros H. rewrite <- (firstn_skipn n l). apply in_or_app. now left.
Qed.

Lemma In_skipn {A : Type} (n : nat) (l : list A) (x : A) :
  In x (skipn n l) -> In x l.
Proof.
  intros H. rewrite <- (firstn_skipn n l). apply in_or_app. now right.
Qed.

Lemma existsb_str_In (x : string) (l : list string) :
  existsb (String.eqb x) l = true <-> In x l.
Proof.
  rewrite existsb_exists. split.
  - intros [y [Hy He]]. apply String.eqb_eq in He. now subst.
  - intros H. exists x. split; [assumption | apply String.eqb_refl].
Qed.

Lemma distinct_str_NoDup (l : list string) : Db.distinct_str l = true <-> NoDup l.
Proof.
  induction l as [|x r IH]; simpl.
  - split; [constructor | reflexivity].
  - rewrite andb_true_iff, negb_true_iff, IH. split.
    + intros [Hx Hr]. constructor; [|assumption].
      intros Hin. apply existsb_str_In in Hin. congruence.
    + intros H. inversion H as [|? ? Hx Hr]; subst. split; [|assumption].
      destruct (existsb (String.eqb x) r) eqn:E; [|reflexivity].
      apply existsb_str_In in E. contradiction.
Qed.

Lemma unique_ok_parts (db : Db.t) :
  Db.unique_ok db = true <->
  NoDup (map User.username (Db.users db))
  /\ NoDup (map User.email (Db.users db))
  /\ NoDup (map Category.name (Db.categories db))
  /\ NoDup (map Claim.donation_id (Db.claims db)).
Proof.
  unfold Db.unique_ok.
  rewrite !andb_true_iff, !distinct_str_NoDup, distinctZ_NoDup. tauto.
Qed.

(** ** What holds of the rows in every state *)

Ltac tables :=
  cbn [Db.users Db.categories Db.food_donations Db.claims
       Db.update_donation Db.update_claim Db.with_food_donations
       Db.with_claims Db.with_users Db.add_user Db.add_donation Db.add_claim
       Db.delete_donation update_user] in *.

Lemma claim_by_id (db : Db.t) (c c0 : Claim.t) :
  consistent db -> In c (Db.claims db) -> In c0 (Db.claims db) ->
  Claim.id c = Claim.id c0 -> c = c0.
Proof. intros Hc. apply (same_row_by_key Claim.id), Hc. Qed.

Lemma claim_by_donation (db : Db.t) (c c0 : Claim.t) :
  consistent db -> In c (Db.claims db) -> In c0 (Db.claims db) ->
  Claim.donation_id c = Claim.donation_id c0 -> c = c0.
Proof.
  intros Hc. apply (same_row_by_key Claim.donation_id).
  now apply consistent_claim_donation_distinct.
Qed.

Lemma donation_by_id (db : Db.t) (d d0 : FoodDonation.t) :
  consistent db -> In d (Db.food_donations db) -> In d0 (Db.food_donations db) ->
  FoodDonation.id d = FoodDonation.id d0 -> d = d0.
Proof. intros Hc. apply (same_row_by_key FoodDonation.id), Hc. Qed.

Lemma not_held_available (d : FoodDonation.t) :
  FoodDonation.status d = DonationStatus.available -> ~ held d.
Proof. intros E [H | H]; congruence. Qed.

Lemma checked_set_status (db db' : Db.t) (s : DonationStatus.t) (d : FoodDonation.t) :
  Db.categories db' = Db.categories db ->
  checked db d -> checked db' (FoodDonation.set_status s d).
Proof. intros E H. unfold checked in *. rewrite E. exact H. Qed.

Lemma checked_same_categories (db db' : Db.t) (d : FoodDonation.t) :
  Db.categories db' = Db.categories db -> checked db d -> checked db' d.
Proof. intros E H. unfold checked in *. rewrite E. exact H. Qed.

(** A request that assigns attributes of one claim and the status of
    its donation. *)
Lemma sound_rewrite_pair (db : Db.t) (c0 : Claim.t) (d0 : FoodDonation.t)
    (F : Claim.t -> Claim.t) (G : FoodDonation.t -> FoodDonation.t) :
  sound db ->
  In c0 (Db.claims db) -> In d0 (Db.food_donations db) ->
  FoodDonation.id d0 = Claim.donation_id c0 ->
  (forall x, Claim.id (F x) = Claim.id x
             /\ Claim.donation_id (F x) = Claim.donation_id x
             /\ Claim.ngo_id (F x) = Claim.ngo_id x
             /\ Claim.claimed_at (F x) = Claim.claimed_at x
             /\ Claim.pickup_scheduled_at (F x) = Claim.pickup_scheduled_at x) ->
  (forall y, G y = FoodDonation.set_status (FoodDonation.status (G y)) y) ->
  (Claim.status (F c0) = ClaimStatus.completed ->
   Claim.completed_at (F c0) <> None
   /\ FoodDonation.status (G d0) = DonationStatus.completed) ->
  (held (G d0) -> Claim.status (F c0) <> ClaimStatus.cancelled) ->
  consistent (Db.update_donation (FoodDonation.id d0) G
                (Db.update_claim (Claim.id c0) F db)) ->
  sound (Db.update_donation (FoodDonation.id d0) G
           (Db.update_claim (Claim.id c0) F db)).
Proof.
  intros [Hc Huk Hdon Hngo Htm Hcomp Hheld Hchk] Hin0 Hdin0 Ek HF HG HA HB Hc'.
  constructor.
  - exact Hc'.
  - exact Huk.
  - intros d' Hd'. tables. apply in_map_iff in Hd'. destruct Hd' as (d & <- & Hd).
    destruct (Hdon d Hd) as (u & Hu & Eu & Hud). exists u.
    split; [exact Hu | split; [|exact Hud]].
    destruct (FoodDonation.id d =? FoodDonation.id d0); [|exact Eu].
    rewrite HG. exact Eu.
  - intros c' Hc'in. tables. apply in_map_iff in Hc'in.
    destruct Hc'in as (c & <- & Hcin).
    destruct (Hngo c Hcin) as (u & Hu & Eu & Hun). exists u.
    split; [exact Hu | split; [|exact Hun]].
    destruct (Claim.id c =? Claim.id c0); [|exact Eu].
    destruct (HF c) as (_ & _ & E & _). now rewrite E.
  - intros c' Hc'in. tables. apply in_map_iff in Hc'in.
    destruct Hc'in as (c & <- & Hcin).
    destruct (Claim.id c =? Claim.id c0); [|now apply Htm].
    destruct (HF c) as (_ & _ & _ & E1 & E2). rewrite E1, E2. now apply Htm.
  - intros c' Hc'in Hst. tables. apply in_map_iff in Hc'in.
    destruct Hc'in as (c & <- & Hcin).
    destruct (Claim.id c =? Claim.id c0) eqn:E.
    + apply Z.eqb_eq in E.
      assert (c = c0) by now apply (claim_by_id db). subst c.
      destruct (HA Hst) as [H1 H2]. split; [exact H1|].
      exists (G d0). split; [|split; [|exact H2]].
      * apply in_map_iff. exists d0. now rewrite Z.eqb_refl.
      * rewrite HG. destruct (HF c0) as (_ & E2 & _). rewrite E2. exact Ek.
    + destruct (Hcomp c Hcin Hst) as [H1 (d & Hd & Ed & Sd)].
      split; [exact H1|]. exists d. split; [|split; assumption].
      apply in_map_iff. exists d. split; [|exact Hd].
      destruct (FoodDonation.id d =? FoodDonation.id d0) eqn:E2; [|reflexivity].
      exfalso. apply Z.eqb_eq in E2.
      assert (c = c0) by (apply (claim_by_donation db); congruence). subst c.
      rewrite Z.eqb_refl in E. discriminate.
  - intros d' Hd' Hh. tables. apply in_map_iff in Hd'. destruct Hd' as (d & <- & Hd).
    destruct (FoodDonation.id d =? FoodDonation.id d0) eqn:E.
    + apply Z.eqb_eq in E.
      assert (d = d0) by now apply (donation_by_id db). subst d.
      exists (F c0). split; [|split; [|now apply HB]].
      * apply in_map_iff. exists c0. now rewrite Z.eqb_refl.
      * rewrite HG. destruct (HF c0) as (_ & E2 & _). rewrite E2. now symmetry.
    + destruct (Hheld d Hd Hh) as (c & Hcin & Ec & Sc).
      exists c. split; [|split; assumption].
      apply in_map_iff. exists c. split; [|exact Hcin].
      destruct (Claim.id c =? Claim.id c0) eqn:E2; [|reflexivity].
      exfalso. apply Z.eqb_eq in E2.
      assert (c = c0) by now apply (claim_by_id db). subst c.
      apply Z.eqb_neq in E. congruence.
  - intros d' Hd'. tables. apply in_map_iff in Hd'. destruct Hd' as (d & <- & Hd).
    destruct (FoodDonation.id d =? FoodDonation.id d0).
    + rewrite HG. apply (checked_set_status db); [reflexivity | now apply Hchk].
    + apply (checked_same_categories db); [reflexivity | now apply Hchk].
Qed.

(** A request that assigns attributes of donations, and when it changes
    a status changes it from [available] to one that is not held. *)
Lemma sound_map_donations (db : Db.t) (h : FoodDonation.t -> FoodDonation.t) :
  sound db ->
  (forall d, In d (Db.food_donations db) ->
     FoodDonation.id (h d) = FoodDonation.id d
     /\ FoodDonation.donor_id (h d) = FoodDonation.donor_id d
     /\ checked db (h d)
     /\ (FoodDonation.status (h d) = FoodDonation.status d
         \/ (FoodDonation.status d = DonationStatus.available /\ ~ held (h d)))) ->
  consistent (Db.with_food_donations (map h (Db.food_donations db)) db) ->
  sound (Db.with_food_donations (map h (Db.food_donations db)) db).
Proof.
  intros [Hc Huk Hdon Hngo Htm Hcomp Hheld Hchk] Hh Hc'.
  constructor; try assumption.
  - intros d' Hd'. tables. apply in_map_iff in Hd'. destruct Hd' as (d & <- & Hd).
    destruct (Hdon d Hd) as (u & Hu & Eu & Hud). exists u.
    destruct (Hh d Hd) as (_ & E & _). rewrite E. auto.
  - intros c Hcin Hst. tables.
    destruct (Hcomp c Hcin Hst) as [H1 (d & Hd & Ed & Sd)].
    split; [exact H1|]. exists (h d).
    destruct (Hh d Hd) as (E1 & _ & _ & [E2 | [E2 _]]); [|congruence].
    split; [now apply in_map | split; congruence].
  - intros d' Hd' Hhd. tables. apply in_map_iff in Hd'. destruct Hd' as (d & <- & Hd).
    destruct (Hh d Hd) as (E1 & _ & _ & [E2 | [_ E2]]); [|contradiction].
    assert (Hhd0 : held d) by (unfold held in *; now rewrite <- E2).
    destruct (Hheld d Hd Hhd0) as (c & Hcin & Ec & Sc).
    exists c. split; [exact Hcin | split; [congruence | exact Sc]].
  - intros d' Hd'. tables. apply in_map_iff in Hd'. destruct Hd' as (d & <- & Hd).
    destruct (Hh d Hd) as (_ & _ & H & _).
    apply (checked_same_categories db); [reflexivity | exact H].
Qed.

Lemma sound_add_user (db : Db.t) (u : User.t) :
  sound db ->
  User.id u = Db.next_id (map User.id (Db.users db)) ->
  consistent (Db.add_user u db) ->
  sound (Db.add_user u db).
Proof.
  intros [Hc Huk Hdon Hngo Htm Hcomp Hheld Hchk] Hid Hc'.
  constructor; try assumption.
  - tables. rewrite map_app. simpl. apply NoDup_app_cons_last; [exact Huk|].
    rewrite Hid. apply next_id_not_in.
  - intros d Hd. destruct (Hdon d Hd) as (v & Hv & E). exists v.
    split; [tables; apply in_or_app; now left | exact E].
  - intros c Hcin. destruct (Hngo c Hcin) as (v & Hv & E). exists v.
    split; [tables; apply in_or_app; now left | exact E].
Qed.

Lemma sound_add_donation (db : Db.t) (d : FoodDonation.t) (u : User.t) :
  sound db ->
  In u (Db.users db) -> User.id u = FoodDonation.donor_id d ->
  User.is_donor u = true ->
  FoodDonation.status d = DonationStatus.available ->
  checked db d ->
  consistent (Db.add_donation d db) ->
  sound (Db.add_donation d db).
Proof.
  intros [Hc Huk Hdon Hngo Htm Hcomp Hheld Hchk] Hu Eu Hud Hst Hck Hc'.
  constructor; try assumption.
  - intros x Hx. tables. apply in_app_or in Hx. destruct Hx as [Hx | [<- | []]].
    + now apply Hdon.
    + exists u. auto.
  - intros c Hcin Hs. destruct (Hcomp c Hcin Hs) as [H1 (x & Hx & E)].
    split; [exact H1|]. exists x. split; [tables; apply in_or_app; now left | exact E].
  - intros x Hx Hh. tables. apply in_app_or in Hx. destruct Hx as [Hx | [<- | []]].
    + now apply Hheld.
    + now apply not_held_available in Hst.
  - intros x Hx. tables. apply in_app_or in Hx. destruct Hx as [Hx | [<- | []]].
    + apply (checked_same_categories db); [reflexivity | now apply Hchk].
    + apply (checked_same_categories db); [reflexivity | exact Hck].
Qed.

Lemma sound_claim (db : Db.t) (d : FoodDonation.t) (c : Claim.t) (u : User.t) :
  sound db ->
  In d (Db.food_donations db) ->
  FoodDonation.status d = DonationStatus.available ->
  In u (Db.users db) -> User.id u = Claim.ngo_id c -> User.is_ngo u = true ->
  Claim.donation_id c = FoodDonation.id d ->
  Claim.status c = ClaimStatus.claimed ->
  Claim.claimed_at c <> None -> Claim.pickup_scheduled_at c = None ->
  consistent (Db.add_claim c
                (Db.update_donation (FoodDonation.id d)
                   (FoodDonation.set_status DonationStatus.claimed) db)) ->
  sound (Db.add_claim c
           (Db.update_donation (FoodDonation.id d)
              (FoodDonation.set_status DonationStatus.claimed) db)).
Proof.
  intros [Hc Huk Hdon Hngo Htm Hcomp Hheld Hchk] Hd Hst Hu Eu Hun Ed Hcs Hca Hps Hc'.
  constructor; try assumption.
  - intros x' Hx'. tables. apply in_map_iff in Hx'. destruct Hx' as (x & <- & Hx).
    destruct (Hdon x Hx) as (v & Hv & E & Hvd). exists v.
    split; [exact Hv | split; [|exact Hvd]].
    now destruct (FoodDonation.id x =? FoodDonation.id d).
  - intros x Hx. tables. apply in_app_or in Hx. destruct Hx as [Hx | [<- | []]].
    + now apply Hngo.
    + exists u. auto.
  - intros x Hx. tables. apply in_app_or in Hx. destruct Hx as [Hx | [<- | []]].
    + now apply Htm.
    + auto.
  - intros x Hx Hs. tables. apply in_app_or in Hx. destruct Hx as [Hx | [<- | []]].
    + destruct (Hcomp x Hx Hs) as [H1 (y & Hy & Ey & Sy)].
      split; [exact H1|]. exists y. split; [|split; assumption].
      apply in_map_iff. exists y. split; [|exact Hy].
      destruct (FoodDonation.id y =? FoodDonation.id d) eqn:E; [|reflexivity].
      exfalso. apply Z.eqb_eq in E.
      assert (y = d) by now apply (donation_by_id db). subst y. congruence.
    + congruence.
  - intros y' Hy' Hh. tables. apply in_map_iff in Hy'. destruct Hy' as (y & <- & Hy).
    destruct (FoodDonation.id y =? FoodDonation.id d) eqn:E.
    + apply Z.eqb_eq in E. exists c.
      split; [apply in_or_app; right; now left|].
      split; [simpl; congruence | congruence].
    + destruct (Hheld y Hy Hh) as (x & Hx & Ex & Sx). exists x.
      split; [apply in_or_app; now left | auto].
  - intros y' Hy'. tables. apply in_map_iff in Hy'. destruct Hy' as (y & <- & Hy).
    destruct (FoodDonation.id y =? FoodDonation.id d).
    + apply (checked_set_status db); [reflexivity | now apply Hchk].
    + apply (checked_same_categories db); [reflexivity | now apply Hchk].
Qed.

Lemma sound_delete_donation (db : Db.t) (i : Z) :
  sound db -> sound (Db.delete_donation i db).
Proof.
  intros [Hc Huk Hdon Hngo Htm Hcomp Hheld Hchk].
  constructor; try assumption.
  - now apply consistent_delete_donation.
  - intros d Hd. tables. apply filter_In in Hd. now apply Hdon.
  - intros c Hcin. tables. apply filter_In in Hcin. now apply Hngo.
  - intros c Hcin. tables. apply filter_In in Hcin. now apply Htm.
  - intros c Hcin Hs. tables. apply filter_In in Hcin. destruct Hcin as [Hcin Hn].
    destruct (Hcomp c Hcin Hs) as [H1 (d & Hd & Ed & Sd)].
    split; [exact H1|]. exists d. split; [|split; assumption].
    apply filter_In. split; [exact Hd | now rewrite Ed].
  - intros d Hd Hh. tables. apply filter_In in Hd. destruct Hd as [Hd Hn].
    destruct (Hheld d Hd Hh) as (c & Hcin & Ec & Sc).
    exists c. split; [|split; assumption].
    apply filter_In. split; [exact Hcin | now rewrite Ec].
  - intros d Hd. tables. apply filter_In in Hd. destruct Hd as [Hd _].
    apply (checked_same_categories db); [reflexivity | now apply Hchk].
Qed.

Lemma sound_update_user (db : Db.t) (i : Z) (f : User.t -> User.t) :
  sound db ->
  (forall u, User.id (f u) = User.id u
             /\ User.username (f u) = User.username u
             /\ User.email (f u) = User.email u
             /\ User.user_type (f u) = User.user_type u) ->
  sound (update_user i f db).
Proof.
  intros [Hc Huk Hdon Hngo Htm Hcomp Hheld Hchk] Hf.
  set (g := fun u => if User.id u =? i then f u else u).
  assert (Hg : forall u, User.id (g u) = User.id u
                         /\ User.username (g u) = User.username u
                         /\ User.email (g u) = User.email u
                         /\ User.user_type (g u) = User.user_type u).
  { intros u. unfold g. destruct (User.id u =? i); [apply Hf | auto]. }
  constructor; try assumption.
  - destruct Hc as [Hu Hd Hcl Hfk]. constructor; try assumption.
    unfold Db.unique_ok in *. tables. fold g. rewrite !map_map.
    rewrite (map_ext (fun x => User.username (g x)) User.username),
            (map_ext (fun x => User.email (g x)) User.email); [exact Hu | |];
      intros u; apply Hg.
  - tables. fold g. rewrite map_map.
    rewrite (map_ext (fun x => User.id (g x)) User.id); [exact Huk|].
    intros u; apply Hg.
  - intros d Hd. destruct (Hdon d Hd) as (u & Hu & Eu & Hud). exists (g u).
    tables. fold g. split; [now apply in_map|].
    destruct (Hg u) as (E1 & _ & _ & E4). split; [congruence|].
    unfold User.is_donor in *. now rewrite E4.
  - intros c Hcin. destruct (Hngo c Hcin) as (u & Hu & Eu & Hun). exists (g u).
    tables. fold g. split; [now apply in_map|].
    destruct (Hg u) as (E1 & _ & _ & E4). split; [congruence|].
    unfold User.is_ngo in *. now rewrite E4.
Qed.

(** *** What a validated donation form says of the row *)

Lemma field_errors_nil (name : string) (vs : list Validators.Verdict) :
  Validators.field_errors name vs = [] -> Validators.run_chain vs = [].
Proof.
  unfold Validators.field_errors.
  destruct (Validators.run_chain vs); [reflexivity | discriminate].
Qed.

Lemma DataRequired_passes (m : string) (o : option string)
    (rest : list Validators.Verdict) :
  Validators.run_chain (Validators.DataRequired m o :: rest) = [] ->
  exists s, o = Some s /\ Py.strip s <> EmptyString.
Proof.
  unfold Validators.DataRequired. destruct o as [s|]; [|discriminate].
  destruct (Py.truthy s && Py.truthy (Py.strip s))%bool eqn:E; [|discriminate].
  intros _. exists s. split; [reflexivity|].
  apply andb_true_iff in E. destruct E as [_ E]. intros H. rewrite H in E.
  discriminate.
Qed.

Lemma quantity_passes (m1 m2 : string) (o : option Z) :
  Validators.run_chain
    [Validators.DataRequiredZ m1 o; Validators.NumberRange 1 10000 m2 o] = [] ->
  exists q, o = Some q /\ 1 <= q <= 10000.
Proof.
  unfold Validators.DataRequiredZ, Validators.NumberRange.
  destruct o as [q|]; [|discriminate].
  destruct (q =? 0); [discriminate|].
  destruct ((1 <=? q) && (q <=? 10000))%bool eqn:E; [|discriminate].
  intros _. exists q. split; [reflexivity|].
  apply andb_true_iff in E. destruct E as [E1 E2].
  apply Z.leb_le in E1, E2. lia.
Qed.

Lemma unit_passes (m : string) (o : option string) :
  Validators.run_chain
    [Validators.valid_choice FoodDonationForm.unit_choices o;
     Validators.DataRequired m o] = [] ->
  exists s, o = Some s /\ In s FoodDonationForm.unit_choices.
Proof.
  unfold Validators.valid_choice. destruct o as [s|]; [|discriminate].
  destruct (Py.str_in s FoodDonationForm.unit_choices) eqn:E; [|discriminate].
  intros _. exists s. split; [reflexivity | now apply existsb_str_In].
Qed.

Lemma category_passes (m : string) (db : Db.t) (o : option Z) :
  Validators.run_chain
    [Validators.valid_choiceZ (FoodDonationForm.category_choices db) o;
     Validators.DataRequiredZ m o] = [] ->
  exists n, o = Some n /\ In n (map Category.id (Db.categories db)).
Proof.
  unfold Validators.valid_choiceZ, Validators.DataRequiredZ.
  destruct o as [n|]; [|discriminate].
  destruct (existsb (Z.eqb n) (FoodDonationForm.category_choices db)) eqn:E;
    [|discriminate].
  destruct (n =? 0) eqn:E0; [discriminate|].
  intros _. exists n. split; [reflexivity|].
  apply existsb_Zeqb_In in E. unfold FoodDonationForm.category_choices in E.
  destruct (Db.categories db) as [|c cs]; [|exact E].
  destruct E as [E | []]. subst n. discriminate.
Qed.

Lemma validated_form (today : Z) (db : Db.t) (r : Request)
    (f : FoodDonationForm.t) :
  FoodDonationForm.validate_on_submit today db r f = true ->
  (exists t, FoodDonationForm.title f = Some t /\ Py.strip t <> EmptyString)
  /\ (exists n, FoodDonationForm.category_id f = Some n
                /\ In n (map Category.id (Db.categories db)))
  /\ (exists q, FoodDonationForm.quantity f = Some q /\ 1 <= q <= 10000)
  /\ (exists s, FoodDonationForm.unit f = Some s
                /\ In s FoodDonationForm.unit_choices)
  /\ (exists a, FoodDonationForm.pickup_address f = Some a
                /\ Py.strip a <> EmptyString)
  /\ (exists c, FoodDonationForm.pickup_city f = Some c
                /\ Py.strip c <> EmptyString).
Proof.
  unfold FoodDonationForm.validate_on_submit. intros H.
  apply andb_true_iff in H. destruct H as [_ H].
  destruct (FoodDonationForm.errors today db f) eqn:E; [clear H | discriminate].
  unfold FoodDonationForm.errors in E.
  repeat match type of E with
         | (_ ++ _)%list = [] =>
             apply app_eq_nil in E;
             let X := fresh "F" in destruct E as [X E];
             apply field_errors_nil in X
         end.
  repeat split.
  - eapply DataRequired_passes; eassumption.
  - eapply category_passes; eassumption.
  - eapply quantity_passes; eassumption.
  - eapply unit_passes; eassumption.
  - eapply DataRequired_passes; eassumption.
  - eapply DataRequired_passes; eassumption.
Qed.

Lemma new_donation_checked (env : Env) (u : User.t) (r : Request)
    (f : FoodDonationForm.t) (db : Db.t) :
  FoodDonationForm.validate_on_submit (today env) db r f = true ->
  checked db (Donor.new_donation env u f db).
Proof.
  intros H. apply validated_form in H.
  destruct H as ((t & Et & Ht) & (n & En & Hn) & (q & Eq & Hq) & (s & Es & Hs)
                 & (a & Ea & Ha) & (c & Ec & Hc)).
  unfold checked, Donor.new_donation. cbn [FoodDonation.quantity FoodDonation.unit
    FoodDonation.category_id FoodDonation.title FoodDonation.pickup_address
    FoodDonation.pickup_city].
  rewrite Et, En, Eq, Es, Ea, Ec. unfold stripped. auto 10.
Qed.

Lemma edited_checked (today : Z) (r : Request) (f : FoodDonationForm.t)
    (d : FoodDonation.t) (db : Db.t) :
  FoodDonationForm.validate_on_submit today db r f = true ->
  checked db (Donor.edited f d).
Proof.
  intros H. apply validated_form in H.
  destruct H as ((t & Et & Ht) & (n & En & Hn) & (q & Eq & Hq) & (s & Es & Hs)
                 & (a & Ea & Ha) & (c & Ec & Hc)).
  unfold checked, Donor.edited. cbn [FoodDonation.quantity FoodDonation.unit
    FoodDonation.category_id FoodDonation.title FoodDonation.pickup_address
    FoodDonation.pickup_city].
  rewrite Et, En, Eq, Es, Ea, Ec. unfold stripped. auto 10.
Qed.

(** *** Every request keeps the rows sound *)

Lemma current_user_In (db : Db.t) (session : option Z) (u : User.t) :
  current_user db session = Some u ->
  In u (Db.users db) /\ session = Some (User.id u).
Proof.
  unfold current_user, Db.get_user. destruct session as [i|]; [|discriminate].
  intros H. apply find_some in H. destruct H as [Hin E].
  apply Z.eqb_eq in E. now subst i.
Qed.

Lemma update_claim_twice (db : Db.t) (j : Z) (f g : Claim.t -> Claim.t) :
  (forall x, Claim.id (g x) = Claim.id x) ->
  Db.update_claim j f (Db.update_claim j g db)
  = Db.update_claim j (fun x => f (g x)) db.
Proof.
  intros Hg. unfold Db.update_claim, Db.with_claims. simpl. f_equal.
  rewrite map_map. apply map_ext. intros x.
  destruct (Claim.id x =? j) eqn:E; [now rewrite Hg, E | now rewrite E].
Qed.

Lemma update_donation_same (db : Db.t) (k : Z) :
  Db.update_donation k (fun y => y) db = db.
Proof.
  unfold Db.update_donation, Db.with_food_donations. destruct db as [us cs ds cl].
  simpl. f_equal. rewrite <- (map_id ds) at 2. apply map_ext.
  intros y. now destruct (FoodDonation.id y =? k).
Qed.

Lemma mark_as_completed_pair (now : Z) (c : Claim.t) (d : FoodDonation.t)
    (db : Db.t) :
  Db.get_donation db (Claim.donation_id c) = Some d ->
  mark_as_completed now c db
  = Db.update_donation (FoodDonation.id d)
      (FoodDonation.set_status DonationStatus.completed)
      (Db.update_claim (Claim.id c)
         (fun x => Claim.set_completed_at (Some now)
                     (Claim.set_status ClaimStatus.completed x)) db).
Proof.
  intros H. unfold mark_as_completed, Db.donation_of_claim.
  unfold Db.get_donation in *.
  cbn [Db.food_donations Db.update_claim Db.with_claims].
  now rewrite H.
Qed.

Lemma cancel_claim_method_pair (reason : option string) (c : Claim.t)
    (d : FoodDonation.t) (db : Db.t) :
  Db.get_donation db (Claim.donation_id c) = Some d ->
  cancel_claim_method reason c db
  = Db.update_donation (FoodDonation.id d)
      (FoodDonation.set_status DonationStatus.available)
      (Db.update_claim (Claim.id c)
         (fun x =>
            if Py.truthy_opt reason
            then Claim.set_notes
                   (Some ("Cancelled: " ++ RegistrationForm.data reason)%string)
                   (Claim.set_status ClaimStatus.cancelled x)
            else Claim.set_status ClaimStatus.cancelled x) db).
Proof.
  intros H. unfold cancel_claim_method, Db.donation_of_claim.
  unfold Db.get_donation in *.
  destruct reason as [r|]; [destruct (Py.truthy r) eqn:Er|];
    cbn [Py.truthy_opt RegistrationForm.data]; try rewrite Er;
    try rewrite update_claim_twice by reflexivity;
    cbn [Db.food_donations Db.update_claim Db.with_claims];
    now rewrite H.
Qed.

Lemma of_string_completed (t : string) :
  ClaimStatus.of_string t = Some ClaimStatus.completed ->
  String.eqb t "completed" = true.
Proof.
  unfold ClaimStatus.of_string.
  repeat match goal with
         | |- context [String.eqb t ?s] => destruct (String.eqb t s)
         end; congruence.
Qed.

Lemma of_string_cancelled (t : string) :
  ClaimStatus.of_string t = Some ClaimStatus.cancelled ->
  String.eqb t "cancelled" = true.
Proof.
  unfold ClaimStatus.of_string.
  repeat match goal with
         | |- context [String.eqb t ?s] => destruct (String.eqb t s)
         end; congruence.
Qed.

Lemma claim_keeps_stamp (now : Z) (x : Claim.t) :
  let y := Claim.set_completed_at (Some now)
             (Claim.set_status ClaimStatus.completed x) in
  Claim.id y = Claim.id x
  /\ Claim.donation_id y = Claim.donation_id x
  /\ Claim.ngo_id y = Claim.ngo_id x
  /\ Claim.claimed_at y = Claim.claimed_at x
  /\ Claim.pickup_scheduled_at y = Claim.pickup_scheduled_at x.
Proof. simpl. auto. Qed.

Lemma complete_pickup_sound (env : Env) (s : option Z) (i : Z) (db : Db.t) :
  sound db -> sound (fst (Ngo.complete_pickup env s i db)).
Proof.
  intros Hs. pose proof (sound_consistent _ Hs) as Hc.
  pose proof (step_consistent env (CompletePickup s i) db Hc) as Hc'.
  cbn [step] in Hc'. revert Hc'.
  unfold Ngo.complete_pickup. ngo_guard u Hu; [trivial|].
  destruct (Db.claim_of_ngo db i (User.id u)) as [c0|] eqn:Hc0; [|trivial].
  destruct (ClaimStatus.eqb (Claim.status c0) ClaimStatus.completed); [trivial|].
  cbv zeta. commit_cases Hok; [|trivial].
  apply claim_of_ngo_id in Hc0. destruct Hc0 as (Hin0 & _ & _).
  destruct (consistent_donation_of_claim db c0 Hc Hin0) as (d0 & Hd0).
  pose proof (get_donation_In _ _ _ Hd0) as [Hdin0 Ek].
  destruct (Db.donation_of_claim _ c0); cbn [fst];
    rewrite (mark_as_completed_pair _ c0 d0 db Hd0); intros Hc';
    (apply sound_rewrite_pair;
     [ assumption | assumption | assumption | assumption
     | intros x; apply claim_keeps_stamp
     | reflexivity
     | intros _; split; [discriminate | reflexivity]
     | intros _; discriminate
     | assumption ]).
Qed.

Lemma cancel_claim_sound (s : option Z) (i : Z) (reason : option string)
    (db : Db.t) :
  sound db -> sound (fst (Ngo.cancel_claim s i reason db)).
Proof.
  intros Hs. pose proof (sound_consistent _ Hs) as Hc.
  pose proof (consistent_rewrites _ _ Hc (cancel_claim_rewrites s i reason db))
    as Hc'.
  revert Hc'.
  unfold Ngo.cancel_claim. ngo_guard u Hu; [trivial|].
  destruct (Db.claim_of_ngo db i (User.id u)) as [c0|] eqn:Hc0; [|trivial].
  destruct (negb (Claim.can_be_cancelled c0)); [trivial|].
  cbv zeta. commit_cases Hok; [|trivial].
  apply claim_of_ngo_id in Hc0. destruct Hc0 as (Hin0 & _ & _).
  destruct (consistent_donation_of_claim db c0 Hc Hin0) as (d0 & Hd0).
  pose proof (get_donation_In _ _ _ Hd0) as [Hdin0 Ek].
  rewrite (cancel_claim_method_pair _ c0 d0 db Hd0). intros Hc'.
  apply sound_rewrite_pair; try assumption.
  - intros x. destruct (Py.truthy_opt _); simpl; auto.
  - reflexivity.
  - intros H. exfalso. destruct (Py.truthy_opt _); discriminate.
  - intros [H | H]; discriminate.
Qed.

Lemma update_claim_sound (env : Env) (s : option Z) (i : Z) (r : Request)
    (f : UpdateClaimForm.t) (db : Db.t) :
  sound db -> sound (fst (Ngo.update_claim env s i r f db)).
Proof.
  intros Hs. pose proof (sound_consistent _ Hs) as Hc.
  pose proof (step_consistent env (UpdateClaim s i r f) db Hc) as Hc'.
  cbn [step] in Hc'. revert Hc'.
  unfold Ngo.update_claim. ngo_guard u Hu; [trivial|].
  destruct (Db.claim_of_ngo db i (User.id u)) as [c0|] eqn:Hc0; [|trivial].
  cbv zeta. generalize (UpdateClaimForm.process c0 f). intros form.
  destruct (UpdateClaimForm.validate_on_submit r form); [|trivial].
  destruct (UpdateClaimForm.status form) as [target|]; [|trivial].
  destruct (ClaimStatus.of_string target) as [st|] eqn:Est; [|trivial].
  cbv zeta. commit_cases Hok; [|trivial].
  apply claim_of_ngo_id in Hc0. destruct Hc0 as (Hin0 & _ & _).
  destruct (consistent_donation_of_claim db c0 Hc Hin0) as (d0 & Hd0).
  pose proof (get_donation_In _ _ _ Hd0) as [Hdin0 Ek].
  rewrite update_claim_twice by reflexivity.
  set (notes := if Py.truthy_opt (UpdateClaimForm.notes form)
                then Some (stripped (UpdateClaimForm.notes form))
                else Claim.notes c0).
  set (db2 := Db.update_claim (Claim.id c0) _ db).
  assert (Hd2 : Db.get_donation db2 (Claim.donation_id c0) = Some d0) by exact Hd0.
  destruct (String.eqb target "completed"
            && negb (ClaimStatus.eqb (Claim.status c0) ClaimStatus.completed))%bool
    eqn:Ecomp.
  - rewrite (mark_as_completed_pair _ c0 d0 db2 Hd2). subst db2.
    rewrite update_claim_twice by reflexivity. intros Hc'.
    apply sound_rewrite_pair; try assumption.
    + intros x. simpl. auto.
    + reflexivity.
    + intros _. split; [discriminate | reflexivity].
    + intros _. discriminate.
  - destruct (String.eqb target "cancelled") eqn:Ecan.
    + rewrite (cancel_claim_method_pair _ c0 d0 db2 Hd2). subst db2.
      rewrite update_claim_twice by reflexivity. intros Hc'.
      apply sound_rewrite_pair; try assumption.
      * intros x. destruct (Py.truthy_opt _); simpl; auto.
      * reflexivity.
      * intros H. exfalso. destruct (Py.truthy_opt _); discriminate.
      * intros [H | H]; discriminate.
    + rewrite <- (update_donation_same db2 (FoodDonation.id d0)). subst db2.
      intros Hc'. apply sound_rewrite_pair; try assumption.
      * intros x. simpl. auto.
      * intros y. now destruct y.
      * cbn [Claim.status Claim.set_notes Claim.set_status Claim.completed_at].
        intros E. subst st. apply of_string_completed in Est.
        rewrite Est in Ecomp. cbn [andb] in Ecomp.
        apply negb_false_iff in Ecomp.
        destruct (claim_status_eqb_spec (Claim.status c0) ClaimStatus.completed)
          as [Eold|]; [|discriminate].
        destruct (sound_completed _ Hs c0 Hin0 Eold) as [H1 (d & Hd & Ed & Sd)].
        split; [exact H1|].
        assert (d = d0) by (apply (donation_by_id db); congruence). now subst d.
      * cbn [Claim.status Claim.set_notes Claim.set_status].
        intros _ E. subst st. apply of_string_cancelled in Est. congruence.
Qed.

Lemma claim_donation_sound (env : Env) (s : option Z) (i : Z) (r : Request)
    (f : ClaimForm.t) (db : Db.t) :
  sound db -> sound (fst (Ngo.claim_donation env s i r f db)).
Proof.
  intros Hs. pose proof (sound_consistent _ Hs) as Hc.
  pose proof (step_consistent env (ClaimDonation s i r f) db Hc) as Hc'.
  cbn [step] in Hc'. revert Hc'.
  unfold Ngo.claim_donation. ngo_guard u Hu; [trivial|].
  destruct (Db.get_donation db i) as [d|] eqn:Hd; [|trivial].
  destruct (FoodDonation.can_be_claimed (today env) d) eqn:Hcan; cbn [negb];
    [|trivial].
  destruct (Db.claim_of_donation db (FoodDonation.id d)); [trivial|].
  destruct (ClaimForm.validate_on_submit r f); [|trivial].
  cbv zeta. commit_cases Hok; [|trivial].
  intros Hc'. destruct Hu as (Hcu & _ & Hngo).
  apply current_user_In in Hcu. destruct Hcu as [Huin _].
  apply get_donation_In in Hd. destruct Hd as [Hdin _].
  apply (sound_claim db d _ u); try assumption; try reflexivity.
  - unfold FoodDonation.can_be_claimed in Hcan.
    apply andb_true_iff in Hcan. destruct Hcan as [Hcan _].
    now destruct (donation_status_eqb_spec (FoodDonation.status d)
                    DonationStatus.available).
  - discriminate.
Qed.

Lemma add_donation_sound (env : Env) (s : option Z) (r : Request)
    (f : FoodDonationForm.t) (db : Db.t) :
  sound db -> sound (fst (Donor.add_donation env s r f db)).
Proof.
  intros Hs. pose proof (sound_consistent _ Hs) as Hc.
  pose proof (step_consistent env (AddDonation s r f) db Hc) as Hc'.
  cbn [step] in Hc'. revert Hc'.
  unfold Donor.add_donation. donor_guard u Hu; [trivial|].
  destruct (FoodDonationForm.validate_on_submit _ db r f) eqn:Hv; [|trivial].
  cbv zeta. commit_cases Hok; [|trivial].
  intros Hc'. destruct Hu as (Hcu & _ & Hdonor).
  apply current_user_In in Hcu. destruct Hcu as [Huin _].
  apply (sound_add_donation db _ u); try assumption; try reflexivity.
  now apply new_donation_checked with (r := r).
Qed.

Lemma edit_donation_sound (env : Env) (s : option Z) (i : Z) (r : Request)
    (f : FoodDonationForm.t) (db : Db.t) :
  sound db -> sound (fst (Donor.edit_donation env s i r f db)).
Proof.
  intros Hs. pose proof (sound_consistent _ Hs) as Hc.
  pose proof (step_consistent env (EditDonation s i r f) db Hc) as Hc'.
  cbn [step] in Hc'. revert Hc'.
  unfold Donor.edit_donation. donor_guard u Hu; [trivial|].
  destruct (Db.donation_of_donor db i (User.id u)) as [d|] eqn:Hd; [|trivial].
  destruct (negb (FoodDonation.can_be_edited d)); [trivial|].
  destruct (FoodDonationForm.validate_on_submit _ db r f) eqn:Hv; [|trivial].
  cbv zeta. commit_cases Hok; [|trivial].
  unfold Db.update_donation. intros Hc'.
  apply sound_map_donations; [assumption | | assumption].
  intros y Hy. destruct (FoodDonation.id y =? FoodDonation.id d).
  - split; [reflexivity | split; [reflexivity | split; [|now left]]].
    now apply edited_checked with (today := today env) (r := r).
  - split; [reflexivity | split; [reflexivity | split; [|now left]]].
    apply (sound_checked _ Hs), Hy.
Qed.

Lemma expire_cases (today : Z) (y : FoodDonation.t) :
  expire today y = y
  \/ (FoodDonation.status y = DonationStatus.available
      /\ expire today y = FoodDonation.set_status DonationStatus.expired y).
Proof.
  unfold expire, FoodDonation.update_status_if_expired.
  destruct (FoodDonation.is_expired today y); [|now left].
  destruct (donation_status_eqb_spec (FoodDonation.status y)
              DonationStatus.available) as [E|]; [right | left]; auto.
Qed.

Lemma expire_keeps (db : Db.t) (today : Z) (y : FoodDonation.t) :
  checked db y ->
  FoodDonation.id (expire today y) = FoodDonation.id y
  /\ FoodDonation.donor_id (expire today y) = FoodDonation.donor_id y
  /\ checked db (expire today y)
  /\ (FoodDonation.status (expire today y) = FoodDonation.status y
      \/ (FoodDonation.status y = DonationStatus.available
          /\ ~ held (expire today y))).
Proof.
  intros Hck. destruct (expire_cases today y) as [E | [Ea E]]; rewrite E.
  - auto.
  - split; [reflexivity | split; [reflexivity | split; [|right]]].
    + now apply (checked_set_status db).
    + split; [exact Ea | intros [H | H]; discriminate].
Qed.

Lemma dashboard_sound (env : Env) (s : option Z) (db : Db.t) :
  sound db -> sound (fst (Donor.dashboard env s db)).
Proof.
  intros Hs. pose proof (sound_consistent _ Hs) as Hc.
  pose proof (step_consistent env (DonorDashboard s) db Hc) as Hc'.
  cbn [step] in Hc'. revert Hc'.
  assert (Hcases : fst (Donor.dashboard env s db) = db
                   \/ exists u, donor_session db s u).
  { unfold Donor.dashboard. donor_guard u Hu; [now left | right; now exists u]. }
  destruct Hcases as [E | (u & Hu)]; [now rewrite E|].
  rewrite (dashboard_db env s u db Hu).
  intros Hc'. apply sound_map_donations; [assumption | | assumption].
  intros y Hy. unfold sweep_row. destruct (Donor.swept (User.id u) y).
  - apply expire_keeps, (sound_checked _ Hs), Hy.
  - split; [reflexivity | split; [reflexivity | split; [|now left]]].
    apply (sound_checked _ Hs), Hy.
Qed.

Lemma view_donation_sound (env : Env) (s : option Z) (i : Z) (db : Db.t) :
  sound db -> sound (fst (Donor.view_donation env s i db)).
Proof.
  intros Hs. pose proof (sound_consistent _ Hs) as Hc.
  pose proof (step_consistent env (DonorViewDonation s i) db Hc) as Hc'.
  cbn [step] in Hc'. revert Hc'.
  assert (Hcases : fst (Donor.view_donation env s i db) = db
                   \/ exists u, donor_session db s u).
  { unfold Donor.view_donation. donor_guard u Hu; [now left | right; now exists u]. }
  destruct Hcases as [E | (u & Hu)]; [now rewrite E|].
  rewrite (view_donation_db env s u i db Hu).
  destruct (Db.donation_of_donor db i (User.id u)) as [d|] eqn:Hd; [|trivial].
  destruct (snd (FoodDonation.update_status_if_expired (today env) d)); [|trivial].
  apply donation_of_donor_In in Hd. destruct Hd as (Hdin & _ & _).
  unfold Db.update_donation.
  intros Hc'. apply sound_map_donations; [assumption | | assumption].
  intros y Hy. destruct (FoodDonation.id y =? FoodDonation.id d) eqn:E.
  - apply Z.eqb_eq in E.
    assert (y = d) by now apply (donation_by_id db). subst y.
    apply expire_keeps, (sound_checked _ Hs), Hy.
  - split; [reflexivity | split; [reflexivity | split; [|now left]]].
    apply (sound_checked _ Hs), Hy.
Qed.

Lemma delete_donation_sound (s : option Z) (i : Z) (db : Db.t) :
  sound db -> sound (fst (Donor.delete_donation s i db)).
Proof.
  intros Hs.
  destruct (delete_donation_cases s i db) as [E | (d & _ & _ & E)]; rewrite E;
    [assumption | now apply sound_delete_donation].
Qed.

Lemma register_sound (env : Env) (s : option Z) (r : Request)
    (f : RegistrationForm.t) (db : Db.t) :
  sound db -> sound (Auth.db_after (Auth.register env s r f db)).
Proof.
  intros Hs. pose proof (sound_consistent _ Hs) as Hc.
  pose proof (step_consistent env (Register s r f) db Hc) as Hc'.
  cbn [step] in Hc'. revert Hc'.
  unfold Auth.register.
  destruct (is_authenticated (current_user db s)); [trivial|].
  destruct (RegistrationForm.validate_on_submit env db r f); [|trivial].
  cbv zeta.
  destruct (try_commit_cases db (Db.add_user (Auth.new_user env f db) db))
    as [[H Hok] | H]; rewrite H; cbn [Auth.db_after]; [|trivial].
  intros Hc'. now apply sound_add_user.
Qed.

Lemma step_sound (env : Env) (a : Action) (db : Db.t) :
  sound db -> sound (step env a db).
Proof.
  intros Hs. destruct a; cbn [step].
  - now apply register_sound.
  - now apply add_donation_sound.
  - now apply edit_donation_sound.
  - now apply delete_donation_sound.
  - now apply dashboard_sound.
  - now apply view_donation_sound.
  - now apply claim_donation_sound.
  - now apply update_claim_sound.
  - now apply cancel_claim_sound.
  - now apply complete_pickup_sound.
Qed.

Lemma serve_sound (env : Env) (v : Visit) (db : Db.t) :
  sound db -> sound (serve env v db).
Proof.
  intros Hs. destruct v as [a | s r f | s r f | s]; cbn [serve].
  - now apply step_sound.
  - unfold Account.edit_profile, Account.login_required.
    destruct (current_user db s) as [u|]; [|exact Hs].
    destruct (User.is_authenticated u); [|exact Hs].
    destruct (ProfileForm.validate_on_submit u r f); [|exact Hs].
    unfold Db.try_commit. destruct (Db.unique_ok _); [|exact Hs].
    apply sound_update_user; [exact Hs|]. intros x. simpl. auto.
  - unfold Account.change_password, Account.login_required.
    destruct (current_user db s) as [u|]; [|exact Hs].
    destruct (User.is_authenticated u); [|exact Hs].
    destruct (ChangePasswordForm.validate_on_submit env u r f); [|exact Hs].
    unfold Db.try_commit. destruct (Db.unique_ok _); [|exact Hs].
    apply sound_update_user; [exact Hs|]. intros x. simpl. auto.
  - unfold Account.deactivate_account, Account.login_required.
    destruct (current_user db s) as [u|]; [|exact Hs].
    destruct (User.is_authenticated u); [|exact Hs].
    unfold Db.try_commit. destruct (Db.unique_ok _); [|exact Hs].
    apply sound_update_user; [exact Hs|]. intros x. simpl. auto.
Qed.

Lemma serve_all_sound (trace : list (Env * Visit)) (db : Db.t) :
  sound db -> sound (serve_all trace db).
Proof.
  revert db. induction trace as [|[env v] tr IH]; simpl; intros db H; [assumption|].
  apply IH. now apply serve_sound.
Qed.

Lemma bootstrap_sound (categories : list Category.t) :
  Db.distinct_str (map Category.name categories) = true ->
  sound (bootstrap categories).
Proof.
  intros H. constructor; simpl; try (intros ? []).
  - now apply bootstrap_consistent.
  - constructor.
Qed.

Lemma served_sound (db : Db.t) : served db -> sound db.
Proof.
  intros (cats & tr & Hd & ->). apply serve_all_sound. now apply bootstrap_sound.
Qed.

Lemma served_consistent (db : Db.t) : served db -> consistent db.
Proof. intros H. apply sound_consistent. now apply served_sound. Qed.

Lemma serve_all_core (trace : list (Env * Action)) (db : Db.t) :
  serve_all (map (fun ea => (fst ea, Core (snd ea))) trace) db = run trace db.
Proof.
  revert db. induction trace as [|[env a] tr IH]; intros db; [reflexivity|].
  simpl. apply IH.
Qed.

Lemma reachable_served (db : Db.t) : reachable db -> served db.
Proof.
  intros (cats & tr & Hd & ->).
  exists cats, (map (fun ea => (fst ea, Core (snd ea))) tr).
  split; [exact Hd | symmetry; apply serve_all_core].
Qed.

Lemma served_serve (env : Env) (v : Visit) (db : Db.t) :
  served db -> served (serve env v db).
Proof.
  intros (cats & tr & Hd & ->). exists cats, (tr ++ [(env, v)])%list.
  split; [exact Hd|]. unfold serve_all. now rewrite fold_left_app.
Qed.

(** ** Donations with a claim *)

Lemma Forall2_weaken_In {A : Type} (R S : A -> A -> Prop) (l l' : list A) :
  Forall2 R l l' -> (forall x y, In x l -> R x y -> S x y) -> Forall2 S l l'.
Proof.
  induction 1 as [|x y l l' Hxy _ IH]; intros Hw; constructor.
  - apply Hw; [now left | exact Hxy].
  - apply IH. intros a b Ha. apply Hw. now right.
Qed.

Lemma rewrites_except_keeps_held (j : Z) (db db' : Db.t) :
  rewrites (keeps_held_except j) db db' ->
  (forall d, In d (Db.food_donations db) -> FoodDonation.id d = j -> ~ held d) ->
  rewrites keeps_held db db'.
Proof.
  intros [Hu Hcat Hcl Hd] Hn. constructor; try assumption.
  apply (Forall2_weaken_In (keeps_held_except j)); [exact Hd|].
  intros x y Hx [E K]. split; [exact E|]. intros Hh. apply K; [|exact Hh].
  intros Ej. exact (Hn x Hx Ej Hh).
Qed.

(** The donation of a cancelled claim is neither claimed nor completed. *)
Lemma cancelled_claim_not_held (db : Db.t) (c : Claim.t) (d : FoodDonation.t) :
  sound db -> In c (Db.claims db) -> Claim.status c = ClaimStatus.cancelled ->
  In d (Db.food_donations db) -> FoodDonation.id d = Claim.donation_id c ->
  ~ held d.
Proof.
  intros Hs Hc Ec Hd Ed Hh.
  destruct (sound_held _ Hs d Hd Hh) as (c' & Hc' & Ed' & Hn).
  apply Hn. replace c' with c; [exact Ec|].
  apply (same_row_by_key Claim.donation_id (Db.claims db));
    [apply consistent_claim_donation_distinct, sound_consistent, Hs
    | assumption | assumption | congruence].
Qed.

(** The form of [update_claim] has status [cancelled] when the request
    asks for it, or when the request carries no status and the claim is
    cancelled already. *)
Lemma process_status_cancelled (s : option Z) (i : Z) (r : Request)
    (c : Claim.t) (f : UpdateClaimForm.t) :
  UpdateClaimForm.status (UpdateClaimForm.process c f) = Some "cancelled" ->
  is_cancellation (UpdateClaim s i r f) = true
  \/ Claim.status c = ClaimStatus.cancelled.
Proof.
  unfold UpdateClaimForm.process. cbn [UpdateClaimForm.status is_cancellation].
  destruct (UpdateClaimForm.status f) as [t|].
  - intros E. injection E as ->. now left.
  - destruct (Claim.status c); intros E; try discriminate E. now right.
Qed.

Lemma step_held_unless (env : Env) (a : Action) (T : Z -> Prop) (db : Db.t) :
  sound db -> held_unless T db ->
  held_unless (fun i => T i \/ cancels i a = true) (step env a db).
Proof.
  intros Hs Hh. pose proof (sound_consistent _ Hs) as Hc.
  assert (Hw : forall db', held_unless T db' ->
                 held_unless (fun i => T i \/ cancels i a = true) db').
  { intros db'. apply held_unless_weaken. auto. }
  destruct a as [s r f | s r f | s i r f | s i | s | s i
                 | s i r f | s i r f | s i reason | s i]; cbn [step].
  - apply Hw.
    destruct (register_cases env s r f db) as [E | (u & _ & E)]; rewrite E;
      [assumption | exact Hh].
  - apply Hw.
    destruct (add_donation_cases env s r f db) as [E | (d & Hid & _ & E)];
      rewrite E; [assumption | now apply held_unless_add_donation].
  - apply Hw. eapply held_unless_rewrites; [exact Hh | apply edit_donation_rewrites].
  - apply Hw.
    destruct (delete_donation_cases s i db) as [E | (d & _ & _ & E)]; rewrite E;
      [assumption | now apply held_unless_delete_donation].
  - apply Hw. eapply held_unless_rewrites; [exact Hh | apply dashboard_rewrites].
  - apply Hw.
    eapply held_unless_rewrites; [exact Hh | apply view_donation_rewrites, Hc].
  - apply Hw.
    destruct (claim_donation_cases env s i r f db)
      as [E | (u & d & c & _ & _ & _ & Hnone & _ & Hdid & _ & _ & _ & E)];
      rewrite E; [assumption | now apply held_unless_claim].
  - destruct (update_claim_held_cases env s i r f db)
      as [Hrw | (c & Hin & Ei & Est & Hrw)].
    + apply Hw. eapply held_unless_rewrites; [exact Hh | exact Hrw].
    + destruct (process_status_cancelled s i r c f Est) as [Hcan | Hst].
      * eapply held_unless_weaken;
          [|exact (held_unless_cancel T db _ c Hc Hh Hin Hrw)].
        intros j [H | ->]; [now left | right].
        unfold cancels. now rewrite Hcan, Ei, Z.eqb_refl.
      * apply Hw. eapply held_unless_rewrites; [exact Hh|].
        apply (rewrites_except_keeps_held (Claim.donation_id c)); [exact Hrw|].
        intros d Hd Ed. now apply (cancelled_claim_not_held db c d).
  - destruct (cancel_claim_cases s i reason db)
      as [E | (c & Hin & Ei & Hrw)]; [rewrite E; now apply Hw|].
    eapply held_unless_weaken;
      [|exact (held_unless_cancel T db _ c Hc Hh Hin Hrw)].
    intros j [H | ->]; [now left | right].
    simpl. now rewrite Ei, Z.eqb_refl.
  - apply Hw. eapply held_unless_rewrites; [exact Hh | apply complete_pickup_rewrites].
Qed.

Lemma run_held_unless (trace : list (Env * Action)) (T : Z -> Prop) (db : Db.t) :
  sound db -> held_unless T db ->
  held_unless
    (fun i => T i \/ existsb (fun ea => cancels i (snd ea)) trace = true)
    (run trace db).
Proof.
  revert T db. induction trace as [|[env a] tr IH]; simpl; intros T db Hc Hh.
  - eapply held_unless_weaken; [|exact Hh]. auto.
  - eapply held_unless_weaken;
      [|apply (IH (fun i => T i \/ cancels i a = true));
        [now apply step_sound | now apply step_held_unless]].
    intros i [[H|H]|H]; [now left | right | right].
    + now rewrite H.
    + rewrite H. apply orb_true_r.
Qed.

(** C1, as stated, fails: in the worked scenario the NGO claims the
    bread and cancels; the state is reachable, the donation still has
    its claim row, and its status is [available], which is neither
    [claimed] nor [completed]. *)
Lemma claimed_or_completed_fails_after_cancel :
  reachable Scenario.cancelled_db
  /\ exists d c,
       In d (Db.food_donations Scenario.cancelled_db)
       /\ Db.claim_of_donation Scenario.cancelled_db (FoodDonation.id d) = Some c
       /\ FoodDonation.status d = DonationStatus.available
       /\ ~ held d.
Proof.
  split.
  - exists Scenario.categories, Scenario.cancelled_trace. split; reflexivity.
  - exists (Scenario.bread DonationStatus.available).
    exists (Scenario.bread_claim ClaimStatus.cancelled
              (Some "Cancelled: Cancelled by NGO")).
    split; [vm_compute; left; reflexivity|].
    split; [vm_compute; reflexivity|].
    split; [reflexivity|].
    intros [H|H]; discriminate H.
Qed.

(** C1, amended: in every state reached from bootstrap through the
    requests of the application, a donation with an associated claim has
    status [claimed] or [completed], provided none of the requests was a
    cancellation addressed to that claim (cancel-claim, or update-claim
    with target status [cancelled], on the claim's id). *)
Theorem claimed_or_completed_unless_cancelled :
  forall (categories : list Category.t) (trace : list (Env * Action)),
    Db.distinct_str (map Category.name categories) = true ->
    forall d c,
      In d (Db.food_donations (run trace (bootstrap categories))) ->
      Db.claim_of_donation (run trace (bootstrap categories)) (FoodDonation.id d)
        = Some c ->
      existsb (fun ea => cancels (Claim.id c) (snd ea)) trace = false ->
      FoodDonation.status d = DonationStatus.claimed
      \/ FoodDonation.status d = DonationStatus.completed.
Proof.
  intros cats tr Hcats d c Hd Hcl Hnc.
  apply claim_of_donation_In in Hcl. destruct Hcl as [Hc E].
  assert (H : held_unless
                (fun i => False \/ existsb (fun ea => cancels i (snd ea)) tr = true)
                (run tr (bootstrap cats))).
  { apply run_held_unless; [now apply bootstrap_sound|]. intros ? ? []. }
  destruct (H c d Hc Hd E) as [Hheld | [[] | Hcan]]; [exact Hheld|].
  congruence.
Qed.

Lemma claimed_or_completed_unless_cancelled_witness :
  exists d c,
    In d (Db.food_donations Scenario.picked_up_db)
    /\ Db.claim_of_donation Scenario.picked_up_db (FoodDonation.id d) = Some c
    /\ (FoodDonation.status d = DonationStatus.claimed
        \/ FoodDonation.status d = DonationStatus.completed).
Proof.
  exists (Scenario.bread DonationStatus.claimed).
  exists (Scenario.bread_claim ClaimStatus.picked_up None).
  assert (Hd : In (Scenario.bread DonationStatus.claimed)
                  (Db.food_donations (run Scenario.picked_up_trace
                                        (bootstrap Scenario.categories)))).
  { vm_compute. left. reflexivity. }
  assert (Hc : Db.claim_of_donation
                 (run Scenario.picked_up_trace (bootstrap Scenario.categories))
                 (FoodDonation.id (Scenario.bread DonationStatus.claimed))
               = Some (Scenario.bread_claim ClaimStatus.picked_up None)).
  { vm_compute. reflexivity. }
  split; [exact Hd|].
  split; [exact Hc|].
  exact (claimed_or_completed_unless_cancelled Scenario.categories
           Scenario.picked_up_trace eq_refl _ _ Hd Hc eq_refl).
Defined.

(** ** A successful claim *)

Lemma claim_of_donation_none (db : Db.t) (i : Z) :
  Db.claim_of_donation db i = None ->
  ~ In i (map Claim.donation_id (Db.claims db)).
Proof.
  intros H Hin. apply in_map_iff in Hin. destruct Hin as (c & E & Hc).
  pose proof (find_none _ _ H c Hc) as F. simpl in F.
  rewrite E, Z.eqb_refl in F. discriminate.
Qed.

(** X1: in every state the site can be in, an NGO that claims a donation
    which can be claimed and has no claim row, with a form that
    validates, gets the claim: a new claim row of status [claimed] for
    this NGO and this donation, stamped with the current time, the
    donation [claimed], and a redirect to the new claim. *)
Theorem claim_donation_succeeds :
  forall (env : Env) (session : option Z) (u : User.t) (id : Z) (req : Request)
         (form : ClaimForm.t) (db : Db.t) (d : FoodDonation.t),
    served db ->
    ngo_session db session u ->
    Db.get_donation db id = Some d ->
    FoodDonation.can_be_claimed (today env) d = true ->
    Db.claim_of_donation db id = None ->
    ClaimForm.validate_on_submit req form = true ->
    let claim :=
      Claim.mk (Db.next_id (map Claim.id (Db.claims db))) id (User.id u)
        ClaimStatus.claimed (Some (utcnow env)) None None
        (strip_or_none (ClaimForm.notes form)) in
    exists db',
      Ngo.claim_donation env session id req form db
      = (db', flash ("Successfully claimed " ++ dquote ++ FoodDonation.title d
                     ++ dquote ++ "! Please coordinate pickup with the donor.")%string
                "success" (redirect (url_for "ngo.view_claim" (Some (Claim.id claim)))))
      /\ Db.claim_of_donation db' id = Some claim
      /\ get_claim db (Claim.id claim) = None
      /\ get_claim db' (Claim.id claim) = Some claim
      /\ Db.get_donation db' id
         = Some (FoodDonation.set_status DonationStatus.claimed d).
Proof.
  intros env session u id req form db d Hr Hu Hd Hcan Hnone Hv claim.
  pose proof (served_consistent _ Hr) as Hc.
  pose proof (get_donation_In _ _ _ Hd) as [Hdin Eid].
  set (db1 := Db.update_donation id (FoodDonation.set_status DonationStatus.claimed) db).
  assert (Hok : Db.unique_ok (Db.add_claim claim db1) = true).
  { apply unique_ok_parts. pose proof (cons_unique _ Hc) as Hu0.
    apply unique_ok_parts in Hu0. destruct Hu0 as (H1 & H2 & H3 & H4).
    simpl. repeat split; try assumption.
    rewrite map_app. simpl. apply NoDup_app_cons_last; [assumption|].
    now apply claim_of_donation_none. }
  exists (Db.add_claim claim db1).
  split.
  - unfold Ngo.claim_donation. rewrite (ngo_route db session u _ Hu).
    rewrite Hd, Hcan. cbn [negb]. rewrite Eid, Hnone, Hv. cbv zeta.
    fold claim. fold db1. unfold Db.try_commit. rewrite Hok. reflexivity.
  - assert (Hfresh : get_claim db (Claim.id claim) = None).
    { unfold get_claim. destruct (find _ (Db.claims db)) as [c0|] eqn:F; [|reflexivity].
      exfalso. apply find_some in F. destruct F as [Hin E]. apply Z.eqb_eq in E.
      apply (next_id_not_in (map Claim.id (Db.claims db))).
      change (Db.next_id (map Claim.id (Db.claims db))) with (Claim.id claim).
      rewrite <- E. now apply in_map. }
    split; [|split; [exact Hfresh|split]].
    + unfold Db.claim_of_donation in *. simpl.
      rewrite find_app_none; [|exact Hnone]. simpl. now rewrite Z.eqb_refl.
    + unfold get_claim in *. simpl.
      rewrite find_app_none; [|exact Hfresh]. simpl. now rewrite Z.eqb_refl.
    + change (Db.get_donation (Db.add_claim claim db1) id)
        with (Db.get_donation db1 id).
      subst db1. apply get_donation_update_donation; [reflexivity | exact Hd].
Qed.

Lemma claim_donation_succeeds_witness :
  exists db',
    Ngo.claim_donation (Scenario.env 100) (Some 2) 1 Scenario.post
      (ClaimForm.mk (Some " after six ")) Scenario.listed_db
    = (db', flash ("Successfully claimed " ++ dquote ++ "Surplus Bread"
                   ++ dquote ++ "! Please coordinate pickup with the donor.")%string
              "success" (redirect (url_for "ngo.view_claim" (Some 1))))
    /\ Db.claim_of_donation db' 1
       = Some (Scenario.bread_claim ClaimStatus.claimed (Some "after six"))
    /\ get_claim Scenario.listed_db 1 = None
    /\ get_claim db' 1
       = Some (Scenario.bread_claim ClaimStatus.claimed (Some "after six"))
    /\ Db.get_donation db' 1 = Some (Scenario.bread DonationStatus.claimed).
Proof.
  assert (Hr : served Scenario.listed_db).
  { apply reachable_served.
    exists Scenario.categories, Scenario.listed_trace. split; reflexivity. }
  assert (Hu : ngo_session Scenario.listed_db (Some 2) Scenario.ngo).
  { repeat split; vm_compute; reflexivity. }
  assert (Hd : Db.get_donation Scenario.listed_db 1
               = Some (Scenario.bread DonationStatus.available)).
  { vm_compute. reflexivity. }
  assert (Hn : Db.claim_of_donation Scenario.listed_db 1 = None).
  { vm_compute. reflexivity. }
  exact (claim_donation_succeeds (Scenario.env 100) (Some 2) Scenario.ngo 1
           Scenario.post (ClaimForm.mk (Some " after six ")) Scenario.listed_db
           (Scenario.bread DonationStatus.available) Hr Hu Hd eq_refl Hn eq_refl).
Defined.

(** ** What the browse page never shows *)

Lemma browse_criteria_sound (today : Z) (a : Main.BrowseArgs) (d : FoodDonation.t) :
  Query.criteria (Main.browse_query today a) d = true ->
  FoodDonation.status d = DonationStatus.available
  /\ today <= FoodDonation.expiry_date d.
Proof.
  unfold Main.browse_query, get_available_donations.
  destruct (Py.truthy (Main.city a)) eqn:E1;
    destruct (Main.category_id a >? 0) eqn:E2;
    destruct (Py.truthy (Main.search a)) eqn:E3;
    destruct (Py.truthy (Main.dietary_info a)) eqn:E4;
    try rewrite E1; try rewrite E3;
    try destruct (Main.category_id a =? 0);
    cbn [Query.criteria Query.filter Query.order_by Query.query];
    intros H;
    repeat (apply andb_true_iff in H; destruct H as [H ?]);
    repeat match goal with
           | X : (_ && _)%bool = true |- _ =>
               apply andb_true_iff in X; destruct X
           end;
    (split;
     [ match goal with
       | X : DonationStatus.eqb _ _ = true |- _ =>
           now destruct (donation_status_eqb_spec (FoodDonation.status d)
                           DonationStatus.available)
       end
     | match goal with
       | X : (today <=? _) = true |- _ => now apply Z.leb_le
       end ]).
Qed.

(** X2: whatever the search text, category, city, dietary filter and
    page number, every donation on the public browse page is a row of
    the table with status [available] and expiry date today or later. *)
Theorem browse_shows_only_available :
  forall (env : Env) (a : Main.BrowseArgs) (db : Db.t) (d : FoodDonation.t),
    In d (Main.browse_donations env a db) ->
    In d (Db.food_donations db)
    /\ FoodDonation.status d = DonationStatus.available
    /\ today env <= FoodDonation.expiry_date d.
Proof.
  intros env a db d Hin.
  unfold Main.browse_donations, Query.paginate in Hin.
  apply In_firstn, In_skipn in Hin.
  unfold Query.all in Hin.
  assert (Hf : In d (filter (Query.criteria (Main.browse_query (today env) a))
                       (Db.food_donations db))).
  { destruct (Query.ordering (Main.browse_query (today env) a)) as [le|];
      [|exact Hin].
    eapply Permutation_in; [apply sort_perm | exact Hin]. }
  apply filter_In in Hf. destruct Hf as [Hrow Hcrit].
  split; [exact Hrow | now apply browse_criteria_sound with (a := a)].
Qed.

Lemma browse_shows_only_available_witness :
  In (Town.bagels DonationStatus.available) (Db.food_donations Town.db)
  /\ FoodDonation.status (Town.bagels DonationStatus.available)
     = DonationStatus.available
  /\ 100 <= FoodDonation.expiry_date (Town.bagels DonationStatus.available).
Proof.
  apply (browse_shows_only_available (Scenario.env 100)
           (Main.mkBrowseArgs "bagel" 0 "spring" "vegan" 1) Town.db).
  vm_compute. left. reflexivity.
Defined.

(** ** Requests do not reach into other accounts *)

Lemma other_owner_other_key (db : Db.t) (x d : FoodDonation.t) :
  consistent db ->
  In x (Db.food_donations db) -> In d (Db.food_donations db) ->
  FoodDonation.donor_id x <> FoodDonation.donor_id d ->
  (FoodDonation.id x =? FoodDonation.id d) = false.
Proof.
  intros Hc Hx Hd Hne. apply Z.eqb_neq. intros E. apply Hne. f_equal.
  apply (same_row_by_key FoodDonation.id (Db.food_donations db));
    [apply Hc | assumption | assumption | exact E].
Qed.

(** X3: in every state the site can be in, no request of the donor
    controller (add, edit, delete, dashboard, detail view) changes a
    donation of a donor other than the one of the session. *)
Theorem donor_requests_leave_other_donors_donations :
  forall (env : Env) (a : Action) (db : Db.t) (x : FoodDonation.t),
    served db ->
    donor_request a = true ->
    Db.get_donation db (FoodDonation.id x) = Some x ->
    (forall u, current_user db (session_of a) = Some u ->
               FoodDonation.donor_id x <> User.id u) ->
    Db.get_donation (step env a db) (FoodDonation.id x) = Some x.
Proof.
  intros env a db x Hr Ha Hx Hother.
  pose proof (served_consistent _ Hr) as Hc.
  pose proof (get_donation_In _ _ _ Hx) as [Hxin _].
  destruct a as [s r f | s r f | s i r f | s i | s | s i
                 | s i r f | s i r f | s i reason | s i];
    try discriminate Ha; cbn [step session_of] in *.
  - destruct (add_donation_cases env s r f db) as [E | (d & _ & _ & E)];
      rewrite E; [assumption|].
    unfold Db.get_donation in *. simpl. now apply find_app_some.
  - unfold Donor.edit_donation. donor_guard u Hu; [assumption|].
    destruct (Db.donation_of_donor db i (User.id u)) as [d|] eqn:Hd; [|assumption].
    destruct (negb (FoodDonation.can_be_edited d)); [assumption|].
    destruct (FoodDonationForm.validate_on_submit _ db r f); [|assumption].
    cbv zeta. commit_cases Hok; [|assumption].
    apply donation_of_donor_In in Hd. destruct Hd as (Hdin & _ & Eu).
    rewrite get_donation_update_donation_gen; [|intros y Hy; exact Hy].
    rewrite Hx. simpl.
    rewrite (other_owner_other_key db x d Hc Hxin Hdin); [reflexivity|].
    rewrite Eu. apply Hother. apply Hu.
  - unfold Donor.delete_donation. donor_guard u Hu; [assumption|].
    destruct (Db.donation_of_donor db i (User.id u)) as [d|] eqn:Hd; [|assumption].
    destruct (negb (FoodDonation.can_be_edited d)); [assumption|].
    cbv zeta. commit_cases Hok; [|assumption].
    apply donation_of_donor_In in Hd. destruct Hd as (Hdin & _ & Eu).
    unfold Db.get_donation in *. simpl.
    rewrite find_filter_keeping; [assumption|].
    intros y Hy. apply Z.eqb_eq in Hy. rewrite Hy. apply negb_true_iff.
    apply (other_owner_other_key db x d Hc Hxin Hdin).
    rewrite Eu. apply Hother. apply Hu.
  - unfold Donor.dashboard at 1. unfold login_required, donor_required.
    destruct (current_user db s) as [u|] eqn:Ecu; [|assumption].
    destruct (User.is_authenticated u) eqn:Ea; [|assumption].
    destruct (User.is_donor u) eqn:Ed; cbn [negb orb]; [|assumption].
    assert (Hu : donor_session db s u) by (repeat split; assumption).
    pose proof (dashboard_lookup env s u db x Hu Hx) as L.
    unfold Donor.dashboard, login_required, donor_required in L.
    rewrite Ecu, Ea, Ed in L. cbn [negb orb] in L. rewrite L. f_equal.
    unfold sweep_row, Donor.swept.
    assert (Ene : (FoodDonation.donor_id x =? User.id u) = false).
    { apply Z.eqb_neq. now apply Hother. }
    now rewrite Ene.
  - unfold Donor.view_donation at 1. unfold login_required, donor_required.
    destruct (current_user db s) as [u|] eqn:Ecu; [|assumption].
    destruct (User.is_authenticated u) eqn:Ea; [|assumption].
    destruct (User.is_donor u) eqn:Ed; cbn [negb orb]; [|assumption].
    assert (Hu : donor_session db s u) by (repeat split; assumption).
    pose proof (view_donation_lookup env s u i db x Hc Hu Hx) as L.
    unfold Donor.view_donation, login_required, donor_required in L.
    rewrite Ecu, Ea, Ed in L. cbn [negb orb] in L. rewrite L. f_equal.
    assert (Ene : (FoodDonation.donor_id x =? User.id u) = false).
    { apply Z.eqb_neq. now apply Hother. }
    now rewrite Ene, andb_false_r.
Qed.

Lemma served_town : served Town.db.
Proof.
  apply reachable_served. exists Scenario.categories, Town.trace.
  split; reflexivity.
Qed.

Lemma donor_requests_leave_other_donors_donations_witness :
  Db.get_donation
    (step (Scenario.env 104) (DonorDashboard (Some 1)) Town.db) 2
  = Some (Town.bagels DonationStatus.available).
Proof.
  apply (donor_requests_leave_other_donors_donations (Scenario.env 104)
           (DonorDashboard (Some 1)) Town.db (Town.bagels DonationStatus.available)
           served_town eq_refl).
  - vm_compute. reflexivity.
  - intros u Hu. vm_compute in Hu. injection Hu as <-. vm_compute. discriminate.
Defined.

Lemma get_claim_In (db : Db.t) (i : Z) (c : Claim.t) :
  get_claim db i = Some c -> In c (Db.claims db) /\ Claim.id c = i.
Proof.
  intros H. apply find_some in H. destruct H as [Hin E].
  apply Z.eqb_eq in E. auto.
Qed.

Lemma get_claim_update_claim (db : Db.t) (j k : Z) (f : Claim.t -> Claim.t) :
  (forall y, Claim.id (f y) = Claim.id y) ->
  get_claim (Db.update_claim j f db) k
  = option_map (fun y => if Claim.id y =? j then f y else y) (get_claim db k).
Proof.
  intros Hf. unfold get_claim, Db.update_claim. simpl.
  apply find_map_keeping. intros y.
  destruct (Claim.id y =? j); [now rewrite Hf | reflexivity].
Qed.

Lemma get_claim_keep_update (db : Db.t) (j : Z) (f : Claim.t -> Claim.t)
    (c : Claim.t) :
  (forall y, Claim.id (f y) = Claim.id y) ->
  Claim.id c <> j ->
  get_claim db (Claim.id c) = Some c ->
  get_claim (Db.update_claim j f db) (Claim.id c) = Some c.
Proof.
  intros Hf Hne Hc. rewrite get_claim_update_claim; [|exact Hf].
  rewrite Hc. simpl. apply Z.eqb_neq in Hne. now rewrite Hne.
Qed.

Lemma get_claim_keep_mark (now : Z) (c0 c : Claim.t) (db : Db.t) :
  Claim.id c <> Claim.id c0 ->
  get_claim db (Claim.id c) = Some c ->
  get_claim (mark_as_completed now c0 db) (Claim.id c) = Some c.
Proof.
  intros Hne Hc. unfold mark_as_completed.
  set (db1 := Db.update_claim _ _ db).
  assert (H1 : get_claim db1 (Claim.id c) = Some c).
  { apply get_claim_keep_update; [reflexivity | assumption | assumption]. }
  destruct (Db.donation_of_claim db1 c0); exact H1.
Qed.

Lemma get_claim_keep_cancel (reason : option string) (c0 c : Claim.t) (db : Db.t) :
  Claim.id c <> Claim.id c0 ->
  get_claim db (Claim.id c) = Some c ->
  get_claim (cancel_claim_method reason c0 db) (Claim.id c) = Some c.
Proof.
  intros Hne Hc. unfold cancel_claim_method.
  set (db1 := Db.update_claim _ _ db).
  assert (H1 : get_claim db1 (Claim.id c) = Some c).
  { apply get_claim_keep_update; [reflexivity | assumption | assumption]. }
  set (db2 := match reason with Some r => _ | None => _ end).
  assert (H2 : get_claim db2 (Claim.id c) = Some c).
  { subst db2. destruct reason as [r|]; [|exact H1].
    destruct (Py.truthy r); [|exact H1].
    apply get_claim_keep_update; [reflexivity | assumption | assumption]. }
  destruct (Db.donation_of_claim db2 c0); exact H2.
Qed.

Lemma other_ngo_other_key (db : Db.t) (c c0 : Claim.t) :
  consistent db ->
  In c (Db.claims db) -> In c0 (Db.claims db) ->
  Claim.ngo_id c <> Claim.ngo_id c0 ->
  Claim.id c <> Claim.id c0.
Proof.
  intros Hc Hin Hin0 Hne E. apply Hne. f_equal.
  apply (same_row_by_key Claim.id (Db.claims db));
    [apply Hc | assumption | assumption | exact E].
Qed.

(** X4: in every state the site can be in, no request of the NGO
    controller (claim, update-claim, cancel-claim, complete-pickup)
    changes a claim of an NGO other than the one of the session. *)
Theorem ngo_requests_leave_other_ngos_claims :
  forall (env : Env) (a : Action) (db : Db.t) (c : Claim.t),
    served db ->
    ngo_request a = true ->
    get_claim db (Claim.id c) = Some c ->
    (forall u, current_user db (session_of a) = Some u ->
               Claim.ngo_id c <> User.id u) ->
    get_claim (step env a db) (Claim.id c) = Some c.
Proof.
  intros env a db c Hr Ha Hc Hother.
  pose proof (served_consistent _ Hr) as Hcons.
  pose proof (get_claim_In _ _ _ Hc) as [Hcin _].
  assert (Hkey : forall u c0, ngo_session db (session_of a) u ->
                   Db.claim_of_ngo db (Claim.id c0) (User.id u) = Some c0 ->
                   Claim.id c <> Claim.id c0).
  { intros u c0 Hu Hc0. apply claim_of_ngo_id in Hc0.
    destruct Hc0 as (Hin0 & _ & En).
    apply (other_ngo_other_key db c c0 Hcons Hcin Hin0).
    rewrite En. apply Hother. apply Hu. }
  destruct a as [s r f | s r f | s i r f | s i | s | s i
                 | s i r f | s i r f | s i reason | s i];
    try discriminate Ha; cbn [step session_of] in *.
  - destruct (claim_donation_cases env s i r f db)
      as [E | (u & d & c1 & _ & _ & _ & _ & _ & _ & _ & _ & _ & E)];
      rewrite E; [assumption|].
    unfold get_claim in *. simpl. now apply find_app_some.
  - unfold Ngo.update_claim. ngo_guard u Hu; [assumption|].
    destruct (Db.claim_of_ngo db i (User.id u)) as [c0|] eqn:Hc0; [|assumption].
    cbv zeta. generalize (UpdateClaimForm.process c0 f). intros form.
    destruct (UpdateClaimForm.validate_on_submit r form); [|assumption].
    destruct (UpdateClaimForm.status form) as [target|]; [|assumption].
    destruct (ClaimStatus.of_string target) as [st|]; [|assumption].
    cbv zeta. commit_cases Hok; [|assumption].
    pose proof (claim_of_ngo_id _ _ _ _ Hc0) as (_ & Ei & _).
    rewrite <- Ei in Hc0. pose proof (Hkey u c0 Hu Hc0) as Hne.
    set (db2 := Db.update_claim _ _ (Db.update_claim _ _ db)).
    assert (H2 : get_claim db2 (Claim.id c) = Some c).
    { subst db2. apply get_claim_keep_update; [reflexivity | assumption|].
      apply get_claim_keep_update; [reflexivity | assumption | assumption]. }
    destruct (_ && _)%bool; [now apply get_claim_keep_mark|].
    destruct (String.eqb target "cancelled"); [now apply get_claim_keep_cancel|].
    exact H2.
  - unfold Ngo.cancel_claim. ngo_guard u Hu; [assumption|].
    destruct (Db.claim_of_ngo db i (User.id u)) as [c0|] eqn:Hc0; [|assumption].
    destruct (negb (Claim.can_be_cancelled c0)); [assumption|].
    cbv zeta. commit_cases Hok; [|assumption].
    pose proof (claim_of_ngo_id _ _ _ _ Hc0) as (_ & Ei & _).
    rewrite <- Ei in Hc0. pose proof (Hkey u c0 Hu Hc0) as Hne.
    now apply get_claim_keep_cancel.
  - unfold Ngo.complete_pickup. ngo_guard u Hu; [assumption|].
    destruct (Db.claim_of_ngo db i (User.id u)) as [c0|] eqn:Hc0; [|assumption].
    destruct (ClaimStatus.eqb (Claim.status c0) ClaimStatus.completed); [assumption|].
    cbv zeta.
    pose proof (claim_of_ngo_id _ _ _ _ Hc0) as (_ & Ei & _).
    rewrite <- Ei in Hc0. pose proof (Hkey u c0 Hu Hc0) as Hne.
    commit_cases Hok; [|assumption].
    destruct (Db.donation_of_claim _ c0); now apply get_claim_keep_mark.
Qed.

Lemma ngo_requests_leave_other_ngos_claims_witness :
  get_claim
    (step (Scenario.env 101)
       (UpdateClaim (Some 4) 1 Scenario.post
          (UpdateClaimForm.mk (Some "completed") (Some "ours now")))
       Town.db) 1
  = Some (Scenario.bread_claim ClaimStatus.claimed None).
Proof.
  apply (ngo_requests_leave_other_ngos_claims (Scenario.env 101)
           (UpdateClaim (Some 4) 1 Scenario.post
              (UpdateClaimForm.mk (Some "completed") (Some "ours now")))
           Town.db (Scenario.bread_claim ClaimStatus.claimed None)
           served_town eq_refl).
  - vm_compute. reflexivity.
  - intros u Hu. vm_compute in Hu. injection Hu as <-. vm_compute. discriminate.
Defined.

(** ** Donations that are no longer available *)

Lemma not_available_other_key (db : Db.t) (x d : FoodDonation.t) :
  consistent db ->
  In x (Db.food_donations db) -> In d (Db.food_donations db) ->
  FoodDonation.status x <> DonationStatus.available ->
  FoodDonation.can_be_edited d = true ->
  (FoodDonation.id x =? FoodDonation.id d) = false.
Proof.
  intros Hc Hx Hd Hne Hed. apply Z.eqb_neq. intros E. apply Hne.
  assert (Exd : x = d).
  { apply (same_row_by_key FoodDonation.id (Db.food_donations db));
      [apply Hc | assumption | assumption | exact E]. }
  subst x. unfold FoodDonation.can_be_edited in Hed.
  now destruct (donation_status_eqb_spec (FoodDonation.status d)
                  DonationStatus.available).
Qed.

Lemma expire_not_available (today : Z) (x : FoodDonation.t) :
  FoodDonation.status x <> DonationStatus.available -> expire today x = x.
Proof.
  intros Hne. unfold expire, FoodDonation.update_status_if_expired.
  destruct (donation_status_eqb_spec (FoodDonation.status x)
              DonationStatus.available) as [E|_]; [contradiction|].
  now rewrite andb_false_r.
Qed.

(** X5: in every state the site can be in, a donation whose status is
    not [available] (claimed, completed or expired) is left
    exactly as it is by every request of the donor controller, whoever
    sends it: it cannot be edited or deleted, and the expiry check of
    the dashboard and of the detail view does not touch it. *)
Theorem donor_requests_leave_unavailable_donations :
  forall (env : Env) (a : Action) (db : Db.t) (x : FoodDonation.t),
    served db ->
    donor_request a = true ->
    Db.get_donation db (FoodDonation.id x) = Some x ->
    FoodDonation.status x <> DonationStatus.available ->
    Db.get_donation (step env a db) (FoodDonation.id x) = Some x.
Proof.
  intros env a db x Hr Ha Hx Hst.
  pose proof (served_consistent _ Hr) as Hc.
  pose proof (get_donation_In _ _ _ Hx) as [Hxin _].
  destruct a as [s r f | s r f | s i r f | s i | s | s i
                 | s i r f | s i r f | s i reason | s i];
    try discriminate Ha; cbn [step session_of] in *.
  - destruct (add_donation_cases env s r f db) as [E | (d & _ & _ & E)];
      rewrite E; [assumption|].
    unfold Db.get_donation in *. simpl. now apply find_app_some.
  - unfold Donor.edit_donation. donor_guard u Hu; [assumption|].
    destruct (Db.donation_of_donor db i (User.id u)) as [d|] eqn:Hd; [|assumption].
    destruct (FoodDonation.can_be_edited d) eqn:Hed; cbn [negb]; [|assumption].
    destruct (FoodDonationForm.validate_on_submit _ db r f); [|assumption].
    cbv zeta. commit_cases Hok; [|assumption].
    apply donation_of_donor_In in Hd. destruct Hd as (Hdin & _ & _).
    rewrite get_donation_update_donation_gen; [|intros y Hy; exact Hy].
    rewrite Hx. simpl.
    now rewrite (not_available_other_key db x d Hc Hxin Hdin Hst Hed).
  - unfold Donor.delete_donation. donor_guard u Hu; [assumption|].
    destruct (Db.donation_of_donor db i (User.id u)) as [d|] eqn:Hd; [|assumption].
    destruct (FoodDonation.can_be_edited d) eqn:Hed; cbn [negb]; [|assumption].
    cbv zeta. commit_cases Hok; [|assumption].
    apply donation_of_donor_In in Hd. destruct Hd as (Hdin & _ & _).
    unfold Db.get_donation in *. simpl.
    rewrite find_filter_keeping; [assumption|].
    intros y Hy. apply Z.eqb_eq in Hy. rewrite Hy. apply negb_true_iff.
    exact (not_available_other_key db x d Hc Hxin Hdin Hst Hed).
  - unfold Donor.dashboard at 1. unfold login_required, donor_required.
    destruct (current_user db s) as [u|] eqn:Ecu; [|assumption].
    destruct (User.is_authenticated u) eqn:Ea; [|assumption].
    destruct (User.is_donor u) eqn:Ed; cbn [negb orb]; [|assumption].
    assert (Hu : donor_session db s u) by (repeat split; assumption).
    pose proof (dashboard_lookup env s u db x Hu Hx) as L.
    unfold Donor.dashboard, login_required, donor_required in L.
    rewrite Ecu, Ea, Ed in L. cbn [negb orb] in L. rewrite L. f_equal.
    unfold sweep_row. destruct (Donor.swept (User.id u) x); [|reflexivity].
    now apply expire_not_available.
  - unfold Donor.view_donation at 1. unfold login_required, donor_required.
    destruct (current_user db s) as [u|] eqn:Ecu; [|assumption].
    destruct (User.is_authenticated u) eqn:Ea; [|assumption].
    destruct (User.is_donor u) eqn:Ed; cbn [negb orb]; [|assumption].
    assert (Hu : donor_session db s u) by (repeat split; assumption).
    pose proof (view_donation_lookup env s u i db x Hc Hu Hx) as L.
    unfold Donor.view_donation, login_required, donor_required in L.
    rewrite Ecu, Ea, Ed in L. cbn [negb orb] in L. rewrite L. f_equal.
    destruct (_ && _)%bool; [|reflexivity].
    now apply expire_not_available.
Qed.

Lemma donor_requests_leave_unavailable_donations_witness :
  Db.get_donation
    (step (Scenario.env 101) (DeleteDonation (Some 1) 1) Town.db) 1
  = Some (Scenario.bread DonationStatus.claimed).
Proof.
  apply (donor_requests_leave_unavailable_donations (Scenario.env 101)
           (DeleteDonation (Some 1) 1) Town.db
           (Scenario.bread DonationStatus.claimed) served_town eq_refl).
  - vm_compute. reflexivity.
  - vm_compute. discriminate.
Defined.

(** ** Deleting a donation *)

Lemma delete_donation_unique_ok (db : Db.t) (i : Z) :
  Db.unique_ok db = true -> Db.unique_ok (Db.delete_donation i db) = true.
Proof.
  rewrite !unique_ok_parts. simpl. intros (H1 & H2 & H3 & H4).
  repeat split; try assumption. now apply NoDup_map_filter.
Qed.

(** X6: in every state the site can be in, a donor who deletes a
    donation of their own that is still [available] always succeeds: the
    reply is the success message and the redirect to the donor's list,
    the donation row is gone together with every claim row that refers
    to it (a cancelled claim included), and all other donations, claims
    and users are as before. *)
Theorem delete_donation_succeeds :
  forall (session : option Z) (u : User.t) (id : Z) (db : Db.t)
         (d : FoodDonation.t),
    served db ->
    donor_session db session u ->
    Db.donation_of_donor db id (User.id u) = Some d ->
    FoodDonation.can_be_edited d = true ->
    exists db',
      Donor.delete_donation session id db
      = (db', flash ("Donation " ++ dquote ++ FoodDonation.title d ++ dquote
                     ++ " has been deleted successfully.")%string "success"
                (redirect (url_for "donor.my_donations" None)))
      /\ Db.get_donation db' id = None
      /\ Db.claim_of_donation db' id = None
      /\ (forall j, j <> id -> Db.get_donation db' j = Db.get_donation db j)
      /\ (forall c, In c (Db.claims db')
                    <-> In c (Db.claims db) /\ Claim.donation_id c <> id)
      /\ Db.users db' = Db.users db.
Proof.
  intros session u id db d Hr Hu Hd Hed.
  pose proof (served_consistent _ Hr) as Hc.
  pose proof (donation_of_donor_In _ _ _ _ Hd) as (_ & Ei & _).
  exists (Db.delete_donation id db).
  split; [|split; [|split; [|split; [|split]]]].
  - unfold Donor.delete_donation. rewrite (donor_route db session u _ Hu).
    rewrite Hd, Hed. cbn [negb]. cbv zeta. rewrite Ei.
    unfold Db.try_commit.
    now rewrite (delete_donation_unique_ok db id (cons_unique _ Hc)).
  - unfold Db.get_donation. simpl. apply find_filter_none.
    intros y Hy. now rewrite Hy.
  - unfold Db.claim_of_donation. simpl. apply find_filter_none.
    intros y Hy. now rewrite Hy.
  - intros j Hj. unfold Db.get_donation. simpl. apply find_filter_keeping.
    intros y Hy. apply Z.eqb_eq in Hy. apply negb_true_iff, Z.eqb_neq. congruence.
  - intros c. simpl. rewrite filter_In, negb_true_iff, Z.eqb_neq. reflexivity.
  - reflexivity.
Qed.

Lemma delete_donation_succeeds_witness :
  exists db',
    Donor.delete_donation (Some 1) 1 Scenario.cancelled_db
    = (db', flash ("Donation " ++ dquote ++ "Surplus Bread" ++ dquote
                   ++ " has been deleted successfully.")%string "success"
              (redirect (url_for "donor.my_donations" None)))
    /\ Db.get_donation db' 1 = None
    /\ Db.claim_of_donation db' 1 = None
    /\ (forall j, j <> 1 ->
          Db.get_donation db' j = Db.get_donation Scenario.cancelled_db j)
    /\ (forall c, In c (Db.claims db')
                  <-> In c (Db.claims Scenario.cancelled_db)
                      /\ Claim.donation_id c <> 1)
    /\ Db.users db' = Db.users Scenario.cancelled_db.
Proof.
  assert (Hr : served Scenario.cancelled_db).
  { apply reachable_served.
    exists Scenario.categories, Scenario.cancelled_trace. split; reflexivity. }
  assert (Hu : donor_session Scenario.cancelled_db (Some 1) Scenario.donor).
  { repeat split; vm_compute; reflexivity. }
  assert (Hd : Db.donation_of_donor Scenario.cancelled_db 1 (User.id Scenario.donor)
               = Some (Scenario.bread DonationStatus.available)).
  { vm_compute. reflexivity. }
  exact (delete_donation_succeeds (Some 1) Scenario.donor 1 Scenario.cancelled_db
           (Scenario.bread DonationStatus.available) Hr Hu Hd eq_refl).
Defined.

(** ** Invariants of the tables *)

Lemma served_delivered : served Town.delivered_db.
Proof.
  apply reachable_served. exists Scenario.categories, Town.delivered_trace.
  split; reflexivity.
Qed.

Lemma get_user_by_id (db : Db.t) (u : User.t) :
  NoDup (map User.id (Db.users db)) -> In u (Db.users db) ->
  Db.get_user db (User.id u) = Some u.
Proof. intros Hnd Hin. unfold Db.get_user. now apply (find_by_key User.id). Qed.

(** X7: in every state the site can be in, the donor of every donation
    is an account of the table with role donor, the NGO of every claim
    is an account of the table with role NGO, and the donation of every
    claim is a row of the table. *)
Theorem rows_refer_to_existing_rows :
  forall (db : Db.t),
    served db ->
    (forall d, In d (Db.food_donations db) ->
       exists u, Db.get_user db (FoodDonation.donor_id d) = Some u
                 /\ User.is_donor u = true)
    /\ (forall c, In c (Db.claims db) ->
          exists u, Db.get_user db (Claim.ngo_id c) = Some u
                    /\ User.is_ngo u = true)
    /\ (forall c, In c (Db.claims db) ->
          exists d, Db.donation_of_claim db c = Some d).
Proof.
  intros db H. apply served_sound in H.
  destruct H as [Hc Huk Hdon Hngo _ _ _ _].
  split; [|split].
  - intros d Hd. destruct (Hdon d Hd) as (u & Hu & Eu & Hud). exists u.
    split; [|exact Hud]. rewrite <- Eu. now apply get_user_by_id.
  - intros c Hcin. destruct (Hngo c Hcin) as (u & Hu & Eu & Hun). exists u.
    split; [|exact Hun]. rewrite <- Eu. now apply get_user_by_id.
  - intros c Hcin. now apply consistent_donation_of_claim.
Qed.

Lemma rows_refer_to_existing_rows_witness :
  (forall d, In d (Db.food_donations Town.db) ->
     exists u, Db.get_user Town.db (FoodDonation.donor_id d) = Some u
               /\ User.is_donor u = true)
  /\ (forall c, In c (Db.claims Town.db) ->
        exists u, Db.get_user Town.db (Claim.ngo_id c) = Some u
                  /\ User.is_ngo u = true)
  /\ (forall c, In c (Db.claims Town.db) ->
        exists d, Db.donation_of_claim Town.db c = Some d).
Proof. exact (rows_refer_to_existing_rows Town.db served_town). Defined.

(** X8: in every state the site can be in, every claim has its
    [claimed_at] time and none has a [pickup_scheduled_at] time: no
    request schedules a pickup, whatever status the claim is given. *)
Theorem claims_are_stamped_and_never_scheduled :
  forall (db : Db.t) (c : Claim.t),
    served db ->
    In c (Db.claims db) ->
    Claim.claimed_at c <> None /\ Claim.pickup_scheduled_at c = None.
Proof. intros db c H. now apply sound_times, served_sound. Qed.

Lemma claims_are_stamped_and_never_scheduled_witness :
  Claim.claimed_at Town.delivered_claim <> None
  /\ Claim.pickup_scheduled_at Town.delivered_claim = None.
Proof.
  apply (claims_are_stamped_and_never_scheduled Town.delivered_db
           Town.delivered_claim served_delivered).
  vm_compute. left. reflexivity.
Defined.

(** X9: in every state the site can be in, a claim of status
    [completed] has its [completed_at] time and its donation has status
    [completed]. *)
Theorem completed_claim_has_completed_donation :
  forall (db : Db.t) (c : Claim.t),
    served db ->
    In c (Db.claims db) ->
    Claim.status c = ClaimStatus.completed ->
    Claim.completed_at c <> None
    /\ exists d, Db.donation_of_claim db c = Some d
                 /\ FoodDonation.status d = DonationStatus.completed.
Proof.
  intros db c H Hin Hst. apply served_sound in H.
  destruct (sound_completed _ H c Hin Hst) as [H1 (d & Hd & Ed & Sd)].
  split; [exact H1|]. exists d. split; [|exact Sd].
  unfold Db.donation_of_claim, Db.get_donation. rewrite <- Ed.
  apply (find_by_key FoodDonation.id); [apply H | exact Hd].
Qed.

Lemma completed_claim_has_completed_donation_witness :
  Claim.completed_at Town.delivered_claim <> None
  /\ exists d, Db.donation_of_claim Town.delivered_db Town.delivered_claim = Some d
               /\ FoodDonation.status d = DonationStatus.completed.
Proof.
  apply (completed_claim_has_completed_donation Town.delivered_db
           Town.delivered_claim served_delivered).
  - vm_compute. left. reflexivity.
  - reflexivity.
Defined.

(** X10: in every state the site can be in, a donation of status
    [claimed] or [completed] has a claim, and that claim is not
    cancelled. *)
Theorem held_donation_has_live_claim :
  forall (db : Db.t) (d : FoodDonation.t),
    served db ->
    In d (Db.food_donations db) ->
    held d ->
    exists c, Db.claim_of_donation db (FoodDonation.id d) = Some c
              /\ Claim.status c <> ClaimStatus.cancelled.
Proof.
  intros db d H Hin Hh. apply served_sound in H.
  destruct (sound_held _ H d Hin Hh) as (c & Hcin & Ec & Sc).
  exists c. split; [|exact Sc].
  unfold Db.claim_of_donation. rewrite <- Ec.
  apply (find_by_key Claim.donation_id); [|exact Hcin].
  apply consistent_claim_donation_distinct, H.
Qed.

Lemma held_donation_has_live_claim_witness :
  exists c, Db.claim_of_donation Town.db 1 = Some c
            /\ Claim.status c <> ClaimStatus.cancelled.
Proof.
  apply (held_donation_has_live_claim Town.db
           (Scenario.bread DonationStatus.claimed) served_town).
  - vm_compute. left. reflexivity.
  - left. reflexivity.
Defined.

(** X11: in every state the site can be in, every stored donation has a
    quantity from 1 to 10000, a unit of the form's list, a category of
    the category table, and a title, pickup address and pickup city
    that are not empty. *)
Theorem stored_donations_are_checked :
  forall (db : Db.t) (d : FoodDonation.t),
    served db ->
    In d (Db.food_donations db) ->
    1 <= FoodDonation.quantity d <= 10000
    /\ In (FoodDonation.unit d) FoodDonationForm.unit_choices
    /\ (exists cat, In cat (Db.categories db)
                    /\ Category.id cat = FoodDonation.category_id d)
    /\ FoodDonation.title d <> EmptyString
    /\ FoodDonation.pickup_address d <> EmptyString
    /\ FoodDonation.pickup_city d <> EmptyString.
Proof.
  intros db d H Hin. apply served_sound in H.
  destruct (sound_checked _ H d Hin) as (H1 & H2 & H3 & H4 & H5 & H6).
  repeat split; try assumption; try apply H1.
  apply in_map_iff in H3. destruct H3 as (cat & E & Hcat). now exists cat.
Qed.

Lemma stored_donations_are_checked_witness :
  1 <= 12 <= 10000
  /\ In "pieces"%string FoodDonationForm.unit_choices
  /\ (exists cat, In cat (Db.categories Town.db) /\ Category.id cat = 1)
  /\ "Day-old Bagels"%string <> EmptyString
  /\ "45 Another Long Road"%string <> EmptyString
  /\ "Springfield Heights"%string <> EmptyString.
Proof.
  apply (stored_donations_are_checked Town.db
           (Town.bagels DonationStatus.available) served_town).
  vm_compute. right. left. reflexivity.
Defined.

(** X12: in every state the site can be in, two accounts that share
    their id, their username or their e-mail address are the same
    account. *)
Theorem accounts_are_distinct :
  forall (db : Db.t) (u v : User.t),
    served db ->
    In u (Db.users db) -> In v (Db.users db) ->
    User.id u = User.id v
    \/ User.username u = User.username v
    \/ User.email u = User.email v ->
    u = v.
Proof.
  intros db u v H Hu Hv E. apply served_sound in H.
  pose proof (cons_unique _ (sound_consistent _ H)) as Hq.
  apply unique_ok_parts in Hq. destruct Hq as (Hn & He & _ & _).
  destruct E as [E | [E | E]].
  - now apply (same_row_by_key User.id (Db.users db)); [apply H | | |].
  - revert Hn Hu Hv E. generalize (Db.users db). intros l Hn.
    induction l as [|x l IH]; simpl in *; [contradiction|].
    inversion Hn as [|? ? Hx Hl]; subst.
    intros [-> | Hu] [-> | Hv] E; auto.
    + exfalso. apply Hx. rewrite E. now apply in_map.
    + exfalso. apply Hx. rewrite <- E. now apply in_map.
  - revert He Hu Hv E. generalize (Db.users db). intros l He.
    induction l as [|x l IH]; simpl in *; [contradiction|].
    inversion He as [|? ? Hx Hl]; subst.
    intros [-> | Hu] [-> | Hv] E; auto.
    + exfalso. apply Hx. rewrite E. now apply in_map.
    + exfalso. apply Hx. rewrite <- E. now apply in_map.
Qed.

Lemma accounts_are_distinct_witness :
  Town.bakery = Town.bakery.
Proof.
  apply (accounts_are_distinct Town.db Town.bakery Town.bakery served_town).
  - vm_compute. right. right. left. reflexivity.
  - vm_compute. right. right. left. reflexivity.
  - left. reflexivity.
Defined.

(** ** Accounts *)

(** What a request can do to the account table: nothing, add the
    account that registers, or assign attributes of the session's
    account. *)
Lemma serve_users (env : Env) (v : Visit) (db : Db.t) :
  consistent db ->
  Db.users (serve env v db) = Db.users db
  \/ (exists u,
        Db.users (serve env v db) = (Db.users db ++ [u])%list
        /\ User.id u = Db.next_id (map User.id (Db.users db)))
  \/ (exists cur f,
        current_user db (visit_session v) = Some cur
        /\ User.is_active cur = true
        /\ Db.users (serve env v db)
           = map (fun x => if User.id x =? User.id cur then f x else x) (Db.users db)
        /\ (forall x, User.id (f x) = User.id x
                      /\ User.username (f x) = User.username x
                      /\ User.email (f x) = User.email x
                      /\ User.user_type (f x) = User.user_type x
                      /\ User.created_at (f x) = User.created_at x
                      /\ (User.is_active (f x) = true -> User.is_active x = true))).
Proof.
  intros Hc.
  destruct v as [a | s r f | s r f | s]; cbn [serve visit_session].
  - destruct a as [s r f | s r f | s i r f | s i | s | s i
                   | s i r f | s i r f | s i reason | s i]; cbn [step].
    + unfold Auth.register.
      destruct (is_authenticated (current_user db s)); [now left|].
      destruct (RegistrationForm.validate_on_submit env db r f); [|now left].
      cbv zeta. unfold Db.try_commit. destruct (Db.unique_ok _); [|now left].
      right. left. eexists. split; reflexivity.
    + destruct (add_donation_cases env s r f db) as [E | (d & _ & _ & E)];
        rewrite E; now left.
    + left. apply (rw_users _ _ _ (edit_donation_rewrites env s i r f db)).
    + destruct (delete_donation_cases s i db) as [E | (d & _ & _ & E)];
        rewrite E; now left.
    + left. apply (rw_users _ _ _ (dashboard_rewrites env s db)).
    + left. apply (rw_users _ _ _ (view_donation_rewrites env s i db
                                     (cons_donation_keys _ Hc))).
    + destruct (claim_donation_cases env s i r f db)
        as [E | (u & d & c & _ & _ & _ & _ & _ & _ & _ & _ & _ & E)];
        rewrite E; now left.
    + left. apply (rw_users _ _ _ (update_claim_rewrites env s i r f db)).
    + left. apply (rw_users _ _ _ (cancel_claim_rewrites s i reason db)).
    + left. apply (rw_users _ _ _ (complete_pickup_rewrites env s i db)).
  - unfold Account.edit_profile, Account.login_required.
    destruct (current_user db s) as [u|] eqn:Ecu; [|now left].
    unfold User.is_authenticated.
    destruct (User.is_active u) eqn:Ea; [|now left].
    destruct (ProfileForm.validate_on_submit u r f); [|now left].
    unfold Db.try_commit. destruct (Db.unique_ok _); [|now left].
    right. right. exists u, (Account.edited f).
    repeat split; try assumption. intros H. exact H.
  - unfold Account.change_password, Account.login_required.
    destruct (current_user db s) as [u|] eqn:Ecu; [|now left].
    unfold User.is_authenticated.
    destruct (User.is_active u) eqn:Ea; [|now left].
    destruct (ChangePasswordForm.validate_on_submit env u r f); [|now left].
    unfold Db.try_commit. destruct (Db.unique_ok _); [|now left].
    right. right. eexists u, _.
    split; [reflexivity | split; [assumption | split; [reflexivity|]]].
    intros x. repeat split. intros H. exact H.
  - unfold Account.deactivate_account, Account.login_required.
    destruct (current_user db s) as [u|] eqn:Ecu; [|now left].
    unfold User.is_authenticated.
    destruct (User.is_active u) eqn:Ea; [|now left].
    unfold Db.try_commit. destruct (Db.unique_ok _); [|now left].
    right. right. exists u, (set_is_active false).
    repeat split; try assumption. simpl. discriminate.
Qed.

Lemma get_user_In (db : Db.t) (i : Z) (u : User.t) :
  Db.get_user db i = Some u -> In u (Db.users db) /\ User.id u = i.
Proof.
  intros H. apply find_some in H. destruct H as [Hin E].
  apply Z.eqb_eq in E. auto.
Qed.

(** What a request leaves of an account. *)
Lemma serve_get_user (env : Env) (v : Visit) (db : Db.t) (i : Z) (x : User.t) :
  consistent db ->
  Db.get_user db i = Some x ->
  exists x',
    Db.get_user (serve env v db) i = Some x'
    /\ User.id x' = User.id x
    /\ User.username x' = User.username x
    /\ User.email x' = User.email x
    /\ User.user_type x' = User.user_type x
    /\ User.created_at x' = User.created_at x
    /\ (User.is_active x' = true -> User.is_active x = true).
Proof.
  intros Hs Hx. unfold Db.get_user in *.
  destruct (serve_users env v db Hs)
    as [E | [(u & E & _) | (cur & f & _ & _ & E & Hf)]]; rewrite E.
  - exists x. auto 10.
  - exists x. split; [now apply find_app_some | auto 10].
  - rewrite find_map_keeping.
    + rewrite Hx. simpl. destruct (User.id x =? User.id cur).
      * exists (f x). split; [reflexivity | apply Hf].
      * exists x. auto 10.
    + intros y. destruct (User.id y =? User.id cur); [|reflexivity].
      destruct (Hf y) as (Ei & _). now rewrite Ei.
Qed.

(** X13: no request deletes an account, or changes its id, username,
    e-mail address, role or creation time, or makes a deactivated
    account active again. *)
Theorem accounts_keep_their_identity :
  forall (env : Env) (v : Visit) (db : Db.t) (i : Z) (x : User.t),
    served db ->
    Db.get_user db i = Some x ->
    exists x',
      Db.get_user (serve env v db) i = Some x'
      /\ User.id x' = User.id x
      /\ User.username x' = User.username x
      /\ User.email x' = User.email x
      /\ User.user_type x' = User.user_type x
      /\ User.created_at x' = User.created_at x
      /\ (User.is_active x' = true -> User.is_active x = true).
Proof.
  intros env v db i x Hs Hx. apply served_consistent in Hs.
  now apply serve_get_user.
Qed.

Lemma accounts_keep_their_identity_witness :
  exists x',
    Db.get_user (serve (Scenario.env 101) (DeactivateAccount (Some 3)) Town.db) 3
    = Some x'
    /\ User.id x' = 3
    /\ User.username x' = "cornerbakery"%string
    /\ User.email x' = "c@x.com"%string
    /\ User.user_type x' = UserType.donor
    /\ User.created_at x' = 8640000
    /\ (User.is_active x' = true -> true = true).
Proof.
  apply (accounts_keep_their_identity (Scenario.env 101)
           (DeactivateAccount (Some 3)) Town.db 3 Town.bakery served_town).
  vm_compute. reflexivity.
Defined.

(** X14: every request leaves the rows of all accounts other than the
    account of its session exactly as they are. *)
Theorem requests_leave_other_accounts :
  forall (env : Env) (v : Visit) (db : Db.t) (x : User.t),
    served db ->
    Db.get_user db (User.id x) = Some x ->
    (forall u, current_user db (visit_session v) = Some u ->
               User.id x <> User.id u) ->
    Db.get_user (serve env v db) (User.id x) = Some x.
Proof.
  intros env v db x Hs Hx Hother. apply served_consistent in Hs.
  unfold Db.get_user in *.
  destruct (serve_users env v db Hs)
    as [E | [(u & E & _) | (cur & f & Hcur & _ & E & Hf)]]; rewrite E.
  - exact Hx.
  - now apply find_app_some.
  - rewrite find_map_keeping.
    + rewrite Hx. simpl.
      pose proof (Hother cur Hcur) as Hne. apply Z.eqb_neq in Hne.
      now rewrite Hne.
    + intros y. destruct (User.id y =? User.id cur); [|reflexivity].
      destruct (Hf y) as (Ei & _). now rewrite Ei.
Qed.

Lemma requests_leave_other_accounts_witness :
  Db.get_user
    (serve (Scenario.env 101)
       (EditProfile (Some 3) Scenario.post
          (ProfileForm.mk (Some "Corner Bakery Ltd") (Some "555") (Some "")
             (Some "Springfield") (Some "")))
       Town.db) 4
  = Some Town.foodbank.
Proof.
  apply (requests_leave_other_accounts (Scenario.env 101)
           (EditProfile (Some 3) Scenario.post
              (ProfileForm.mk (Some "Corner Bakery Ltd") (Some "555") (Some "")
                 (Some "Springfield") (Some "")))
           Town.db Town.foodbank served_town).
  - vm_compute. reflexivity.
  - intros u Hu. vm_compute in Hu. injection Hu as <-. vm_compute. discriminate.
Defined.

Lemma served_serve_all (trace : list (Env * Visit)) (db : Db.t) :
  served db -> served (serve_all trace db).
Proof.
  revert db. induction trace as [|[env v] tr IH]; simpl; intros db H; [assumption|].
  apply IH. now apply served_serve.
Qed.

(** X15: deactivation is permanent: once an account is not active, it
    is not active after any further sequence of requests. *)
Theorem deactivated_account_stays_deactivated :
  forall (trace : list (Env * Visit)) (db : Db.t) (i : Z) (x : User.t),
    served db ->
    Db.get_user db i = Some x ->
    User.is_active x = false ->
    exists x',
      Db.get_user (serve_all trace db) i = Some x'
      /\ User.is_active x' = false.
Proof.
  induction trace as [|[env v] tr IH]; simpl; intros db i x Hs Hx Hact.
  - now exists x.
  - destruct (serve_get_user env v db i x (served_consistent _ Hs) Hx)
      as (x' & Hx' & _ & _ & _ & _ & _ & H).
    apply (IH (serve env v db) i x'); [now apply served_serve | exact Hx' |].
    destruct (User.is_active x') eqn:E; [|reflexivity].
    rewrite <- Hact. symmetry. now apply H.
Qed.

Lemma served_lockout : served Lockout.db.
Proof. apply served_serve, served_town. Qed.

Lemma deactivated_account_stays_deactivated_witness :
  exists x',
    Db.get_user (serve_all Lockout.trace Lockout.db) 3 = Some x'
    /\ User.is_active x' = false.
Proof.
  apply (deactivated_account_stays_deactivated Lockout.trace Lockout.db 3
           Lockout.bakery served_lockout).
  - vm_compute. reflexivity.
  - reflexivity.
Defined.

(** *** Logging in *)

Lemma login_cases (env : Env) (session : option Z) (next : option string)
    (req : Request) (form : LoginForm.t) (db : Db.t) :
  Auth.db_after (Auth.login env session next req form db) = db
  /\ (Auth.session_after (Auth.login env session next req form db) = session
      \/ exists user,
           user_by_email db
             (Py.lower (RegistrationForm.data (LoginForm.email form))) = Some user
           /\ is_authenticated (current_user db session) = false
           /\ LoginForm.validate_on_submit env req form = true
           /\ check_password env user
                (RegistrationForm.data (LoginForm.password form)) = true
           /\ User.is_active user = true
           /\ Auth.session_after (Auth.login env session next req form db)
              = Some (User.id user)).
Proof.
  unfold Auth.login, user_by_email, check_password.
  destruct (is_authenticated (current_user db session)) eqn:E1;
    [split; [reflexivity | now left]|].
  destruct (LoginForm.validate_on_submit env req form) eqn:E2;
    [|split; [reflexivity | now left]].
  destruct (find _ (Db.users db)) as [user|] eqn:E3;
    [|split; [reflexivity | now left]].
  destruct (check_password_hash env _ _) eqn:E4;
    [|split; [reflexivity | now left]].
  destruct (User.is_active user) eqn:E5; cbn [negb];
    [|split; [reflexivity | now left]].
  destruct next as [n|]; [destruct (Py.truthy n)|];
    (split; [reflexivity | right; exists user; repeat split; assumption]).
Qed.

(** X16: a login never writes to the database, and it puts an account
    into the session only if the form validates and that account is the
    one with the submitted e-mail address (in lower case), is active,
    and its stored hash checks against the submitted password. *)
Theorem login_needs_credentials :
  forall (env : Env) (session : option Z) (next : option string)
         (req : Request) (form : LoginForm.t) (db : Db.t),
    Auth.db_after (Auth.login env session next req form db) = db
    /\ (Auth.session_after (Auth.login env session next req form db) <> session ->
        exists user,
          user_by_email db
            (Py.lower (RegistrationForm.data (LoginForm.email form))) = Some user
          /\ LoginForm.validate_on_submit env req form = true
          /\ check_password env user
               (RegistrationForm.data (LoginForm.password form)) = true
          /\ User.is_active user = true
          /\ Auth.session_after (Auth.login env session next req form db)
             = Some (User.id user)).
Proof.
  intros env session next req form db.
  destruct (login_cases env session next req form db)
    as [Hdb [E | (user & H1 & _ & H2 & H3 & H4 & H5)]].
  - split; [exact Hdb | intros Hne; contradiction].
  - split; [exact Hdb | intros _; exists user; auto].
Qed.

Lemma login_needs_credentials_witness :
  Auth.db_after
    (Auth.login (Scenario.env 101) None None Scenario.post
       (LoginForm.mk (Some "F@X.org") (Some "secret4") false) Town.db) = Town.db
  /\ exists user,
       user_by_email Town.db (Py.lower "F@X.org") = Some user
       /\ LoginForm.validate_on_submit (Scenario.env 101) Scenario.post
            (LoginForm.mk (Some "F@X.org") (Some "secret4") false) = true
       /\ check_password (Scenario.env 101) user "secret4" = true
       /\ User.is_active user = true
       /\ Auth.session_after
            (Auth.login (Scenario.env 101) None None Scenario.post
               (LoginForm.mk (Some "F@X.org") (Some "secret4") false) Town.db)
          = Some (User.id user).
Proof.
  destruct (login_needs_credentials (Scenario.env 101) None None Scenario.post
              (LoginForm.mk (Some "F@X.org") (Some "secret4") false) Town.db)
    as [Hdb Hs].
  split; [exact Hdb|]. apply Hs. vm_compute. discriminate.
Defined.

Lemma unauthenticated_refused (db : Db.t) (session : option Z)
    (f : User.t -> Db.t * Reply) :
  is_authenticated (current_user db session) = false ->
  fst (login_required (current_user db session) db f) = db.
Proof.
  unfold login_required, is_authenticated.
  destruct (current_user db session) as [u|]; [|reflexivity].
  now intros ->.
Qed.

Lemma unauthenticated_refused_account (db : Db.t) (session : option Z)
    (f : User.t -> Auth.Result) :
  is_authenticated (current_user db session) = false ->
  Auth.db_after (Account.login_required db session f) = db.
Proof.
  unfold Account.login_required, is_authenticated.
  destruct (current_user db session) as [u|]; [|reflexivity].
  now intros ->.
Qed.

(** X17: a deactivated account is locked out.  With the session it may
    still hold, every request behind the login leaves the database as
    it is; and no login puts it into a session, whatever the
    credentials. *)
Theorem deactivated_account_is_locked_out :
  forall (db : Db.t) (u : User.t),
    served db ->
    In u (Db.users db) ->
    User.is_active u = false ->
    (forall env v,
       visit_session v = Some (User.id u) -> needs_login v = true ->
       serve env v db = db)
    /\ (forall env session next req form,
          Auth.session_after (Auth.login env session next req form db)
          = Some (User.id u) ->
          session = Some (User.id u)).
Proof.
  intros db u Hs Hu Hact. apply served_sound in Hs.
  assert (Hcu : is_authenticated (current_user db (Some (User.id u))) = false).
  { unfold current_user. rewrite (get_user_by_id db u (sound_user_keys _ Hs) Hu).
    exact Hact. }
  split.
  - intros env v Hv Hlog.
    destruct v as [a | s r f | s r f | s]; cbn [serve visit_session] in *.
    + destruct a; cbn [session_of step needs_login] in *;
        try discriminate Hlog; subst;
        now apply unauthenticated_refused.
    + subst. now apply unauthenticated_refused_account.
    + subst. now apply unauthenticated_refused_account.
    + subst. now apply unauthenticated_refused_account.
  - intros env session next req form E.
    destruct (login_cases env session next req form db)
      as [_ [E' | (user & H1 & _ & _ & _ & H4 & H5)]]; [congruence|].
    exfalso. apply find_some in H1. destruct H1 as [Hin _].
    assert (user = u).
    { apply (same_row_by_key User.id (Db.users db));
        [apply Hs | assumption | assumption | congruence]. }
    congruence.
Qed.

Lemma deactivated_account_is_locked_out_witness :
  (forall env v,
     visit_session v = Some 3 -> needs_login v = true ->
     serve env v Lockout.db = Lockout.db)
  /\ (forall env session next req form,
        Auth.session_after (Auth.login env session next req form Lockout.db)
        = Some 3 ->
        session = Some 3).
Proof.
  apply (deactivated_account_is_locked_out Lockout.db Lockout.bakery
           served_lockout).
  - vm_compute. right. right. left. reflexivity.
  - reflexivity.
Defined.

(** *** Changing the password *)

Lemma current_password_passes (env : Env) (u : User.t) (m : string)
    (f : ChangePasswordForm.t) :
  Validators.run_chain
    [Validators.DataRequired m (ChangePasswordForm.current_password f);
     ChangePasswordForm.validate_current_password env u f] = [] ->
  check_password env u
    (RegistrationForm.data (ChangePasswordForm.current_password f)) = true.
Proof.
  unfold Validators.DataRequired, ChangePasswordForm.validate_current_password.
  destruct (ChangePasswordForm.current_password f) as [s|]; [|discriminate].
  destruct (Py.truthy s && Py.truthy (Py.strip s))%bool; [|discriminate].
  destruct (check_password env u _); [reflexivity | discriminate].
Qed.

Lemma new_password_passes (m1 m2 : string) (o : option string) :
  Validators.run_chain
    [Validators.DataRequired m1 o; Validators.Length 6 None m2 o] = [] ->
  exists p, o = Some p /\ (6 <= Py.len p)%nat.
Proof.
  unfold Validators.DataRequired, Validators.Length.
  destruct o as [p|]; [|discriminate].
  destruct (Py.truthy p && Py.truthy (Py.strip p))%bool; [|discriminate].
  destruct (Nat.leb 6 (Py.len p)) eqn:E; [|discriminate].
  intros _. exists p. split; [reflexivity | now apply Nat.leb_le].
Qed.

Lemma confirmation_passes (m1 m2 : string) (o other : option string) :
  Validators.run_chain
    [Validators.DataRequired m1 o; Validators.EqualTo m2 o other] = [] ->
  o = other.
Proof.
  unfold Validators.DataRequired, Validators.EqualTo.
  destruct o as [p|]; [|discriminate].
  destruct (Py.truthy p && Py.truthy (Py.strip p))%bool; [|discriminate].
  destruct other as [q|]; [|discriminate].
  destruct (String.eqb_spec p q); [now subst | discriminate].
Qed.

(** X18: the stored password hash of an account changes through the
    change-password page only if the session's account is active, its
    stored hash checks against the submitted current password, and the
    new password has at least six characters and equals its
    confirmation; the page then stores the hash of the new password in
    that account and nothing else. *)
Theorem change_password_needs_current_password :
  forall (env : Env) (session : option Z) (req : Request)
         (form : ChangePasswordForm.t) (db : Db.t),
    Auth.db_after (Account.change_password env session req form db) <> db ->
    exists u p,
      current_user db session = Some u
      /\ User.is_active u = true
      /\ check_password env u
           (RegistrationForm.data (ChangePasswordForm.current_password form)) = true
      /\ ChangePasswordForm.new_password form = Some p
      /\ ChangePasswordForm.confirm_password form = Some p
      /\ (6 <= Py.len p)%nat
      /\ Auth.db_after (Account.change_password env session req form db)
         = update_user (User.id u) (set_password env p) db.
Proof.
  intros env session req form db.
  unfold Account.change_password, Account.login_required, User.is_authenticated.
  destruct (current_user db session) as [u|]; [|contradiction].
  destruct (User.is_active u) eqn:Ea; [|contradiction].
  destruct (ChangePasswordForm.validate_on_submit env u req form) eqn:Ev;
    [|contradiction].
  unfold Db.try_commit. destruct (Db.unique_ok _); [|contradiction].
  intros _. unfold ChangePasswordForm.validate_on_submit in Ev.
  apply andb_true_iff in Ev. destruct Ev as [_ Ev].
  destruct (ChangePasswordForm.errors env u form) eqn:E; [clear Ev | discriminate].
  unfold ChangePasswordForm.errors in E.
  apply app_eq_nil in E. destruct E as [F1 E].
  apply app_eq_nil in E. destruct E as [F2 F3].
  apply field_errors_nil in F1, F2, F3.
  apply current_password_passes in F1.
  apply new_password_passes in F2. destruct F2 as (p & Ep & Hp).
  apply confirmation_passes in F3.
  exists u, p. rewrite F3, Ep. cbn [Auth.db_after RegistrationForm.data].
  repeat split; assumption.
Qed.

Lemma change_password_needs_current_password_witness :
  exists u p,
    current_user Town.db (Some 4) = Some u
    /\ User.is_active u = true
    /\ check_password (Scenario.env 101) u "secret4" = true
    /\ Some "secret44"%string = Some p
    /\ Some "secret44"%string = Some p
    /\ (6 <= Py.len p)%nat
    /\ Auth.db_after
         (Account.change_password (Scenario.env 101) (Some 4) Scenario.post
            (ChangePasswordForm.mk (Some "secret4") (Some "secret44")
               (Some "secret44")) Town.db)
       = update_user (User.id u) (set_password (Scenario.env 101) p) Town.db.
Proof.
  apply (change_password_needs_current_password (Scenario.env 101) (Some 4)
           Scenario.post
           (ChangePasswordForm.mk (Some "secret4") (Some "secret44")
              (Some "secret44")) Town.db).
  vm_compute. discriminate.
Defined.

(** *** Registration *)










(** X20: the uniqueness check of the registration form compares the
    username and the e-mail address in lower case but not stripped,
    while the account is stored with both stripped.  A form that
    validates, and whose stripped username or e-mail address is in use,
    is refused by the database: no account is created, nobody is logged
    in, and the visitor is shown the general error message. *)
Theorem register_duplicate_after_strip_fails :
  forall (env : Env) (session : option Z) (req : Request)
         (form : RegistrationForm.t) (db : Db.t),
    is_authenticated (current_user db session) = false ->
    RegistrationForm.validate_on_submit env db req form = true ->
    In (User.username (Auth.new_user env form db)) (map User.username (Db.users db))
    \/ In (User.email (Auth.new_user env form db)) (map User.email (Db.users db)) ->
    Auth.register env session req form db
    = Auth.mkResult db session
        (flash "An error occurred during registration. Please try again." "error"
           (render_template "auth/register.html")).
Proof.
  intros env session req form db Ha Hv Hdup.
  unfold Auth.register. rewrite Ha, Hv. cbv zeta.
  unfold Db.try_commit.
  destruct (Db.unique_ok _) eqn:Hok; [exfalso | reflexivity].
  apply unique_ok_parts in Hok. destruct Hok as (H1 & H2 & _). tables.
  rewrite map_app in H1, H2. simpl in H1, H2.
  apply NoDup_remove_2 in H1, H2. rewrite app_nil_r in H1, H2.
  destruct Hdup; contradiction.
Qed.

Lemma register_duplicate_after_strip_fails_witness :
  Auth.register (Scenario.env 101) None Scenario.post
    (RegistrationForm.mk (Some " foodbank ") (Some "other@x.org") (Some "secret5")
       (Some "secret5") (Some "donor") (Some "Someone Else")
       (Some "") (Some "") (Some "") (Some "") (Some ""))
    Town.db
  = Auth.mkResult Town.db None
      (flash "An error occurred during registration. Please try again." "error"
         (render_template "auth/register.html")).
Proof.
  apply (register_duplicate_after_strip_fails (Scenario.env 101) None Scenario.post
           (RegistrationForm.mk (Some " foodbank ") (Some "other@x.org")
              (Some "secret5") (Some "secret5") (Some "donor") (Some "Someone Else")
              (Some "") (Some "") (Some "") (Some "") (Some ""))
           Town.db).
  - reflexivity.
  - vm_compute. reflexivity.
  - left. vm_compute. right. right. right. left. reflexivity.
Defined.

(** ** Pages that only read *)

(** *** Sorted listings *)

Section Sorting.
Variable le : FoodDonation.t -> FoodDonation.t -> bool.
Variable R : FoodDonation.t -> FoodDonation.t -> Prop.
Hypothesis le_R : forall x y, le x y = true -> R x y.
Hypothesis R_total : forall x y, le x y = false -> R y x.
Hypothesis R_trans : forall x y z, R x y -> R y z -> R x z.

Lemma insert_sorted_by (x : FoodDonation.t) (l : list FoodDonation.t) :
  StronglySorted R l -> StronglySorted R (Query.insert le x l).
Proof.
  induction 1 as [|y r Hr IH Hy]; simpl.
  - constructor; constructor.
  - destruct (le x y) eqn:E.
    + apply le_R in E. constructor.
      * constructor; assumption.
      * constructor; [assumption|].
        eapply Forall_impl; [|exact Hy]. intros z Hz.
        eapply R_trans; eassumption.
    + apply R_total in E. constructor; [assumption|].
      apply Forall_forall. intros z Hz.
      apply (Permutation_in _ (insert_perm le x r)) in Hz.
      destruct Hz as [<- | Hz]; [assumption|].
      rewrite Forall_forall in Hy. now apply Hy.
Qed.

Lemma sort_sorted_by (l : list FoodDonation.t) :
  StronglySorted R (Query.sort le l).
Proof.
  unfold Query.sort. induction l as [|x r IH]; simpl; [constructor|].
  now apply insert_sorted_by.
Qed.
End Sorting.

Lemma sorted_skipn {A : Type} (R : A -> A -> Prop) (n : nat) (l : list A) :
  StronglySorted R l -> StronglySorted R (skipn n l).
Proof.
  revert l. induction n as [|n IH]; intros l H; [exact H|].
  destruct l as [|x l]; [exact H|]. simpl. apply IH. now inversion H.
Qed.

Lemma sorted_firstn {A : Type} (R : A -> A -> Prop) (n : nat) (l : list A) :
  StronglySorted R l -> StronglySorted R (firstn n l).
Proof.
  revert l. induction n as [|n IH]; intros l H; [constructor|].
  destruct l as [|x l]; [constructor|]. simpl.
  inversion H as [|? ? Hl Hx]; subst. constructor; [now apply IH|].
  apply Forall_forall. intros y Hy. apply In_firstn in Hy.
  rewrite Forall_forall in Hx. now apply Hx.
Qed.

Lemma newest_first_sorted (l : list FoodDonation.t) :
  StronglySorted
    (fun a b => FoodDonation.created_at b <= FoodDonation.created_at a)
    (Query.sort by_created_desc l).
Proof.
  apply sort_sorted_by; unfold by_created_desc.
  - intros x y H. now apply Z.leb_le.
  - intros x y H. apply Z.leb_gt in H. lia.
  - intros x y z. lia.
Qed.

(** X22: the donor's list of donations shows, for a donor session, at
    most ten donations, newest first, each a row of the table that
    belongs to the donor of the session and, when a status filter is
    given, has that status; any other session gets no listing. *)
Theorem my_donations_shows_only_own :
  forall (session : option Z) (page : Z) (status_filter : string) (db : Db.t)
         (template : string) (ds : list FoodDonation.t),
    DonorViews.my_donations session page status_filter db = rendered template ds ->
    exists u,
      donor_session db session u
      /\ (List.length ds <= 10)%nat
      /\ StronglySorted
           (fun a b => FoodDonation.created_at b <= FoodDonation.created_at a) ds
      /\ forall d, In d ds ->
           In d (Db.food_donations db)
           /\ FoodDonation.donor_id d = User.id u
           /\ (Py.truthy status_filter = true ->
               donation_status_name (FoodDonation.status d) = status_filter).
Proof.
  intros session page status_filter db template ds.
  unfold DonorViews.my_donations, login_required_view, donor_required_view,
    User.is_authenticated.
  destruct (current_user db session) as [u|] eqn:Ecu; [|discriminate].
  destruct (User.is_active u) eqn:Ea; [|discriminate].
  destruct (User.is_donor u) eqn:Ed; cbn [negb orb]; [|discriminate].
  intros H. injection H as _ <-.
  exists u. split; [repeat split; assumption|].
  unfold Query.paginate, Query.all, DonorViews.my_donations_query.
  cbn [Query.ordering Query.order_by Query.criteria].
  split; [apply firstn_le_length|]. split.
  - apply sorted_firstn, sorted_skipn, newest_first_sorted.
  - intros d Hd. apply In_firstn, In_skipn in Hd.
    apply (Permutation_in _ (sort_perm _ _)) in Hd.
    apply filter_In in Hd. destruct Hd as [Hin Hcrit].
    split; [exact Hin|].
    destruct (Py.truthy status_filter);
      cbn [Query.criteria Query.filter Query.query] in Hcrit;
      repeat (apply andb_true_iff in Hcrit; destruct Hcrit as [Hcrit ?]).
    + split; [now apply Z.eqb_eq | intros _; now apply String.eqb_eq].
    + split; [now apply Z.eqb_eq | discriminate].
Qed.

Lemma my_donations_shows_only_own_witness :
  exists u,
    donor_session Town.db (Some 3) u
    /\ (List.length [Town.bagels DonationStatus.available] <= 10)%nat
    /\ StronglySorted
         (fun a b => FoodDonation.created_at b <= FoodDonation.created_at a)
         [Town.bagels DonationStatus.available]
    /\ forall d, In d [Town.bagels DonationStatus.available] ->
         In d (Db.food_donations Town.db)
         /\ FoodDonation.donor_id d = User.id u
         /\ (Py.truthy "available" = true ->
             donation_status_name (FoodDonation.status d) = "available"%string).
Proof.
  apply (my_donations_shows_only_own (Some 3) 1 "available" Town.db
           "donor/donations.html").
  vm_compute. reflexivity.
Defined.

(** *** The homepage and the NGO dashboard *)

Lemma available_today_sound (today : Z) (d : FoodDonation.t) :
  Query.criteria (available_today today) d = true ->
  FoodDonation.status d = DonationStatus.available
  /\ today <= FoodDonation.expiry_date d.
Proof.
  unfold available_today, has_status.
  cbn [Query.criteria Query.filter Query.query]. intros H.
  apply andb_true_iff in H. destruct H as [H H2].
  apply andb_true_iff in H. destruct H as [_ H1].
  split; [|now apply Z.leb_le].
  now destruct (donation_status_eqb_spec (FoodDonation.status d)
                  DonationStatus.available).
Qed.

Lemma filter_disjoint_length {A : Type} (p q : A -> bool) (l : list A) :
  (forall x, p x = true -> q x = false) ->
  (List.length (filter p l) + List.length (filter q l) <= List.length l)%nat.
Proof.
  intros H. induction l as [|x l IH]; simpl; [lia|].
  destruct (p x) eqn:Ep; [rewrite (H x Ep) | destruct (q x)]; simpl; lia.
Qed.

Lemma filter_all {A : Type} (l : list A) : filter (fun _ => true) l = l.
Proof. induction l as [|x l IH]; simpl; congruence. Qed.

(** X23: the homepage agrees with the browse page and with the
    statistics API.  Its count of available donations is the number of
    donations that the browse page lists without filters, over all its
    pages; the available and the completed donations together are no
    more than the total; its showcase has at most six donations, newest
    first, each a row of the table that is available and not expired;
    the API reports the same three donation counts, and no more active
    claims than there are claims. *)
Theorem homepage_agrees_with_browse :
  forall (env : Env) (db : Db.t),
    let stats := fst (Site.index env db) in
    let recent := snd (Site.index env db) in
    Site.available_donations stats
    = List.length
        (Query.all
           (Main.browse_query (today env) (Main.mkBrowseArgs "" 0 "" "" 1))
           (Db.food_donations db))
    /\ (Site.available_donations stats + Site.completed_donations stats
        <= Site.total_donations stats)%nat
    /\ (List.length recent <= 6)%nat
    /\ StronglySorted
         (fun a b => FoodDonation.created_at b <= FoodDonation.created_at a) recent
    /\ (forall d, In d recent ->
          In d (Db.food_donations db)
          /\ FoodDonation.status d = DonationStatus.available
          /\ today env <= FoodDonation.expiry_date d)
    /\ Site.api_total_donations (Site.api_stats env db) = Site.total_donations stats
    /\ Site.api_available_donations (Site.api_stats env db)
       = Site.available_donations stats
    /\ Site.api_completed_donations (Site.api_stats env db)
       = Site.completed_donations stats
    /\ (Site.api_active_claims (Site.api_stats env db)
        <= List.length (Db.claims db))%nat.
Proof.
  intros env db. cbv zeta. unfold Site.index. cbn [fst snd Site.available_donations
    Site.completed_donations Site.total_donations].
  split; [|split; [|split; [|split; [|split; [|split; [|split; [|split]]]]]]];
    try reflexivity.
  - unfold count, Query.all, Main.browse_query, get_available_donations.
    cbn [Py.truthy Main.city Main.category_id Main.search Main.dietary_info
         Z.gtb Z.compare Query.ordering Query.order_by Query.criteria Query.filter].
    rewrite (Permutation_length (sort_perm _ _)). reflexivity.
  - unfold count.
    change (filter (Query.criteria Query.query) (Db.food_donations db))
      with (filter (fun _ : FoodDonation.t => true) (Db.food_donations db)).
    rewrite filter_all. apply filter_disjoint_length.
    intros d Hd. apply available_today_sound in Hd. destruct Hd as [Hd _].
    cbn [Query.criteria Query.query Query.filter]. unfold has_status.
    now rewrite Hd.
  - unfold limit. apply firstn_le_length.
  - unfold limit, Query.all. cbn [Query.ordering Query.order_by].
    apply sorted_firstn, newest_first_sorted.
  - intros d Hd. unfold limit, Query.all in Hd.
    cbn [Query.ordering Query.order_by Query.criteria] in Hd.
    apply In_firstn in Hd. apply (Permutation_in _ (sort_perm _ _)) in Hd.
    apply filter_In in Hd. destruct Hd as [Hin Hcrit].
    split; [exact Hin | now apply available_today_sound].
  - unfold Site.api_stats. cbn [Site.api_active_claims]. apply filter_length_le.
Qed.

Lemma claims_by_status (p : Claim.t -> bool) (l : list Claim.t) :
  List.length (filter p l)
  = (List.length (filter (fun c => (p c && Site.active_status c)%bool) l)
     + List.length
         (filter (fun c => (p c && ClaimStatus.eqb (Claim.status c)
                                     ClaimStatus.completed)%bool) l)
     + List.length
         (filter (fun c => (p c && ClaimStatus.eqb (Claim.status c)
                                     ClaimStatus.cancelled)%bool) l))%nat.
Proof.
  induction l as [|c l IH]; simpl; [reflexivity|].
  unfold Site.active_status at 1.
  destruct (p c); simpl; [|exact IH].
  destruct (Claim.status c); simpl; lia.
Qed.

(** X24: on the NGO dashboard, the total of the NGO's claims is the
    sum of its active claims, its completed claims and its cancelled
    claims; and the urgent donations are at most five rows of the
    table, each available, not expired and expiring within two days. *)
Theorem ngo_dashboard_counts :
  forall (env : Env) (u : User.t) (db : Db.t),
    (NgoViews.total_claims (NgoViews.claim_stats env u db)
     = NgoViews.active_claims (NgoViews.claim_stats env u db)
       + NgoViews.completed_claims (NgoViews.claim_stats env u db)
       + List.length
           (filter (fun c => (NgoViews.own u c
                              && ClaimStatus.eqb (Claim.status c)
                                   ClaimStatus.cancelled)%bool)
              (Db.claims db)))%nat
    /\ (List.length (NgoViews.urgent_donations env db) <= 5)%nat
    /\ forall d, In d (NgoViews.urgent_donations env db) ->
         In d (Db.food_donations db)
         /\ FoodDonation.status d = DonationStatus.available
         /\ today env <= FoodDonation.expiry_date d <= today env + 2.
Proof.
  intros env u db. split; [|split].
  - unfold NgoViews.claim_stats.
    cbn [NgoViews.total_claims NgoViews.active_claims NgoViews.completed_claims].
    apply claims_by_status.
  - unfold NgoViews.urgent_donations, limit. apply firstn_le_length.
  - intros d Hd. unfold NgoViews.urgent_donations, limit, Query.all in Hd.
    apply In_firstn in Hd.
    cbn [Query.ordering Query.filter available_today Query.query] in Hd.
    apply filter_In in Hd. destruct Hd as [Hin Hcrit].
    cbn [Query.criteria Query.filter] in Hcrit.
    apply andb_true_iff in Hcrit. destruct Hcrit as [Hcrit H2].
    apply available_today_sound in Hcrit. destruct Hcrit as [Hs He].
    apply Z.leb_le in H2. auto.
Qed.

(** X27: the claim page of the NGO controller renders a claim only for
    an NGO session, and only a claim of the table that has the
    requested id and belongs to the NGO of the session. *)
Theorem view_claim_shows_only_own :
  forall (session : option Z) (id : Z) (db : Db.t) (template : string)
         (shown : option Claim.t),
    NgoViews.view_claim session id db = rendered template shown ->
    exists u claim,
      shown = Some claim
      /\ ngo_session db session u
      /\ In claim (Db.claims db)
      /\ Claim.id claim = id
      /\ Claim.ngo_id claim = User.id u.
Proof.
  intros session id db template shown.
  unfold NgoViews.view_claim, login_required_view, ngo_required_view,
    User.is_authenticated.
  destruct (current_user db session) as [u|] eqn:Ecu; [|discriminate].
  destruct (User.is_active u) eqn:Ea; [|discriminate].
  destruct (User.is_ngo u) eqn:En; cbn [negb orb]; [|discriminate].
  destruct (Db.claim_of_ngo db id (User.id u)) as [claim|] eqn:Hc; [|discriminate].
  intros H. injection H as _ <-.
  apply claim_of_ngo_id in Hc. destruct Hc as (Hin & Ei & Eu).
  exists u, claim. repeat split; assumption.
Qed.

Lemma view_claim_shows_only_own_witness :
  exists u claim,
    Some (Scenario.bread_claim ClaimStatus.claimed None) = Some claim
    /\ ngo_session Town.db (Some 2) u
    /\ In claim (Db.claims Town.db)
    /\ Claim.id claim = 1
    /\ Claim.ngo_id claim = User.id u.
Proof.
  apply (view_claim_shows_only_own (Some 2) 1 Town.db "ngo/view_claim.html").
  vm_compute. reflexivity.
Defined.

(** ** The scripts *)

Section Seeding.
Variable now : Z.

Lemma add_if_missing_keeps (cats : list Category.t) (e : string * string) :
  exists added, InitDb.add_if_missing now cats e = (cats ++ added)%list.
Proof.
  unfold InitDb.add_if_missing. destruct (find _ cats).
  - exists []. now rewrite app_nil_r.
  - eexists. reflexivity.
Qed.

Lemma add_if_missing_present (cats : list Category.t) (e : string * string) :
  exists c, In c (InitDb.add_if_missing now cats e) /\ Category.name c = fst e.
Proof.
  unfold InitDb.add_if_missing. destruct (find _ cats) as [c|] eqn:F.
  - apply find_some in F. destruct F as [Hin E]. apply String.eqb_eq in E.
    now exists c.
  - eexists. split; [apply in_or_app; right; left; reflexivity | reflexivity].
Qed.

Lemma add_if_missing_same (cats : list Category.t) (e : string * string) :
  (exists c, In c cats /\ Category.name c = fst e) ->
  InitDb.add_if_missing now cats e = cats.
Proof.
  intros (c & Hin & E). unfold InitDb.add_if_missing.
  destruct (find _ cats) eqn:F; [reflexivity|].
  pose proof (find_none _ _ F c Hin) as H. cbv beta in H.
  rewrite E, String.eqb_refl in H. discriminate.
Qed.

Lemma add_if_missing_distinct (cats : list Category.t) (e : string * string) :
  NoDup (map Category.name cats) ->
  NoDup (map Category.name (InitDb.add_if_missing now cats e)).
Proof.
  intros H. unfold InitDb.add_if_missing.
  destruct (find _ cats) eqn:F; [exact H|].
  rewrite map_app. simpl. apply NoDup_app_cons_last; [exact H|].
  intros Hin. apply in_map_iff in Hin. destruct Hin as (c & E & Hc).
  pose proof (find_none _ _ F c Hc) as Hn. cbv beta in Hn.
  rewrite E, String.eqb_refl in Hn. discriminate.
Qed.

Lemma seeding_keeps (es : list (string * string)) (cats : list Category.t) :
  exists added, fold_left (InitDb.add_if_missing now) es cats = (cats ++ added)%list.
Proof.
  revert cats. induction es as [|e es IH]; intros cats; simpl.
  - exists []. now rewrite app_nil_r.
  - destruct (add_if_missing_keeps cats e) as (a1 & E1).
    destruct (IH (InitDb.add_if_missing now cats e)) as (a2 & E2).
    exists (a1 ++ a2)%list. now rewrite E2, E1, app_assoc.
Qed.

Lemma seeding_present (es : list (string * string)) (cats : list Category.t)
    (e : string * string) :
  In e es ->
  exists c, In c (fold_left (InitDb.add_if_missing now) es cats)
            /\ Category.name c = fst e.
Proof.
  revert cats. induction es as [|a es IH]; intros cats; simpl; [contradiction|].
  intros [-> | Hin]; [|now apply IH].
  destruct (add_if_missing_present cats e) as (c & Hc & E).
  destruct (seeding_keeps es (InitDb.add_if_missing now cats e)) as (added & Ea).
  exists c. split; [|exact E]. rewrite Ea. apply in_or_app. now left.
Qed.

Lemma seeding_distinct (es : list (string * string)) (cats : list Category.t) :
  NoDup (map Category.name cats) ->
  NoDup (map Category.name (fold_left (InitDb.add_if_missing now) es cats)).
Proof.
  revert cats. induction es as [|e es IH]; intros cats H; simpl; [exact H|].
  apply IH. now apply add_if_missing_distinct.
Qed.
End Seeding.

Lemma seeding_same (now : Z) (es : list (string * string))
    (cats : list Category.t) :
  (forall e, In e es -> exists c, In c cats /\ Category.name c = fst e) ->
  fold_left (InitDb.add_if_missing now) es cats = cats.
Proof.
  induction es as [|e es IH]; intros H; simpl; [reflexivity|].
  rewrite add_if_missing_same; [|apply H; now left].
  apply IH. intros x Hx. apply H. now right.
Qed.

(** X25: on a database whose unique columns hold, the initialisation
    script succeeds; it keeps every row, adds categories only after the
    ones that are there, leaves a category of each of its eight names
    and no two categories of one name; and running it again changes
    nothing. *)
Theorem init_database_seeds_once :
  forall (env env' : Env) (db : Db.t),
    Db.unique_ok db = true ->
    let db1 := fst (InitDb.init_database env db) in
    snd (InitDb.init_database env db) = true
    /\ Db.users db1 = Db.users db
    /\ Db.food_donations db1 = Db.food_donations db
    /\ Db.claims db1 = Db.claims db
    /\ (exists added, Db.categories db1 = (Db.categories db ++ added)%list)
    /\ (forall e, In e InitDb.categories ->
          exists c, In c (Db.categories db1) /\ Category.name c = fst e)
    /\ NoDup (map Category.name (Db.categories db1))
    /\ InitDb.init_database env' db1 = (db1, true).
Proof.
  intros env env' db Hok.
  pose proof Hok as Hparts. apply unique_ok_parts in Hparts.
  destruct Hparts as (H1 & H2 & H3 & H4).
  set (cats := InitDb.seeded (utcnow env) (Db.categories db)).
  assert (Hd : NoDup (map Category.name cats)) by now apply seeding_distinct.
  assert (Hok1 : Db.unique_ok
                   (Db.mk (Db.users db) cats (Db.food_donations db) (Db.claims db))
                 = true).
  { apply unique_ok_parts. simpl. auto. }
  assert (E : InitDb.init_database env db
              = (Db.mk (Db.users db) cats (Db.food_donations db) (Db.claims db),
                 true)).
  { unfold InitDb.init_database, Db.try_commit. fold cats. now rewrite Hok1. }
  cbv zeta. rewrite E. cbn [fst snd Db.users Db.categories Db.food_donations Db.claims].
  repeat split; try reflexivity.
  - apply seeding_keeps.
  - intros e He. now apply seeding_present.
  - exact Hd.
  - unfold InitDb.init_database. cbn [Db.users Db.categories Db.food_donations Db.claims].
    unfold InitDb.seeded at 1. rewrite seeding_same.
    + unfold Db.try_commit. now rewrite Hok1.
    + intros e He. now apply seeding_present.
Qed.

Lemma init_database_seeds_once_witness :
  let db1 := fst (InitDb.init_database (Scenario.env 99) Town.db) in
  snd (InitDb.init_database (Scenario.env 99) Town.db) = true
  /\ Db.users db1 = Db.users Town.db
  /\ Db.food_donations db1 = Db.food_donations Town.db
  /\ Db.claims db1 = Db.claims Town.db
  /\ (exists added, Db.categories db1 = (Db.categories Town.db ++ added)%list)
  /\ (forall e, In e InitDb.categories ->
        exists c, In c (Db.categories db1) /\ Category.name c = fst e)
  /\ NoDup (map Category.name (Db.categories db1))
  /\ InitDb.init_database (Scenario.env 200) db1 = (db1, true).
Proof.
  apply (init_database_seeds_once (Scenario.env 99) (Scenario.env 200) Town.db).
  vm_compute. reflexivity.
Defined.

Lemma find_first {A : Type} (p : A -> bool) (l : list A) (x : A) :
  find p l = Some x ->
  exists before after,
    l = (before ++ x :: after)%list /\ forall y, In y before -> p y = false.
Proof.
  induction l as [|a l IH]; simpl; [discriminate|].
  destruct (p a) eqn:E.
  - intros H. injection H as <-. exists [], l. split; [reflexivity | intros y []].
  - intros H. destruct (IH H) as (b & r & -> & Hb).
    exists (a :: b), r. split; [reflexivity|].
    intros y [<- | Hy]; [exact E | now apply Hb].
Qed.

(** X26: the port the server starts on is always one of the six listed
    ports.  When some listed port can be bound it is the first such
    port of the list; when none can, it is 5000 all the same. *)
Theorem find_free_port_takes_first_free :
  forall (can_bind : Z -> bool),
    In (Run.find_free_port can_bind) Run.ports_to_try
    /\ ((exists q, In q Run.ports_to_try /\ can_bind q = true) ->
        can_bind (Run.find_free_port can_bind) = true
        /\ exists before after,
             Run.ports_to_try
             = (before ++ Run.find_free_port can_bind :: after)%list
             /\ forall q, In q before -> can_bind q = false)
    /\ ((forall q, In q Run.ports_to_try -> can_bind q = false) ->
        Run.find_free_port can_bind = 5000).
Proof.
  intros can_bind. unfold Run.find_free_port.
  destruct (find can_bind Run.ports_to_try) as [port|] eqn:F.
  - pose proof (find_some _ _ F) as [Hin Hp].
    split; [exact Hin | split].
    + intros _. split; [exact Hp | now apply find_first].
    + intros Hnone. rewrite (Hnone port Hin) in Hp. discriminate.
  - split; [left; reflexivity | split].
    + intros (q & Hq & Hb). rewrite (find_none _ _ F q Hq) in Hb. discriminate.
    + reflexivity.
Qed.

(** ** Adding and editing a donation *)

Lemma expiry_passes (m : string) (today : Z) (o : option Z) :
  Validators.run_chain
    [Validators.DataRequiredDate m o;
     FoodDonationForm.validate_expiry_date today o] = [] ->
  exists e, o = Some e /\ today <= e <= today + 365.
Proof.
  unfold Validators.DataRequiredDate, FoodDonationForm.validate_expiry_date.
  destruct o as [e|]; [|discriminate].
  destruct (e <? today) eqn:E1; [discriminate|].
  destruct (e >? today + 365) eqn:E2; [discriminate|].
  intros _. exists e. split; [reflexivity|].
  apply Z.ltb_ge in E1. rewrite Z.gtb_ltb in E2. apply Z.ltb_ge in E2. lia.
Qed.

Lemma validated_expiry (today : Z) (db : Db.t) (r : Request)
    (f : FoodDonationForm.t) :
  FoodDonationForm.validate_on_submit today db r f = true ->
  exists e, FoodDonationForm.expiry_date f = Some e /\ today <= e <= today + 365.
Proof.
  unfold FoodDonationForm.validate_on_submit. intros H.
  apply andb_true_iff in H. destruct H as [_ H].
  destruct (FoodDonationForm.errors today db f) eqn:E; [clear H | discriminate].
  unfold FoodDonationForm.errors in E.
  repeat match type of E with
         | (_ ++ _)%list = [] =>
             apply app_eq_nil in E;
             let X := fresh "F" in destruct E as [X E];
             apply field_errors_nil in X
         end.
  eapply expiry_passes; eassumption.
Qed.

(** X28: in every state the site can be in, a donor with a form that
    validates gets the donation added: the reply is the success message
    and the redirect to the dashboard, the new row has a fresh id,
    belongs to the donor, and is found under its id; every other
    donation is as before; and the new donation can be claimed right
    away: it is available, not expired, and has no claim. *)
Theorem add_donation_succeeds :
  forall (env : Env) (session : option Z) (u : User.t) (req : Request)
         (form : FoodDonationForm.t) (db : Db.t),
    served db ->
    donor_session db session u ->
    FoodDonationForm.validate_on_submit (today env) db req form = true ->
    let donation := Donor.new_donation env u form db in
    exists db',
      Donor.add_donation env session req form db
      = (db', flash ("Food donation " ++ dquote ++ FoodDonation.title donation
                     ++ dquote ++ " has been added successfully!")%string "success"
                (redirect (url_for "donor.dashboard" None)))
      /\ Db.get_donation db (FoodDonation.id donation) = None
      /\ Db.get_donation db' (FoodDonation.id donation) = Some donation
      /\ FoodDonation.donor_id donation = User.id u
      /\ (forall j d, Db.get_donation db j = Some d ->
                      Db.get_donation db' j = Some d)
      /\ FoodDonation.can_be_claimed (today env) donation = true
      /\ Db.claim_of_donation db' (FoodDonation.id donation) = None.
Proof.
  intros env session u req form db Hs Hu Hv donation.
  apply served_consistent in Hs.
  assert (Hfresh : Db.get_donation db (FoodDonation.id donation) = None).
  { unfold Db.get_donation.
    destruct (find _ (Db.food_donations db)) as [d|] eqn:F; [|reflexivity].
    exfalso. apply find_some in F. destruct F as [Hin E]. apply Z.eqb_eq in E.
    apply (next_id_not_in (map FoodDonation.id (Db.food_donations db))).
    change (Db.next_id (map FoodDonation.id (Db.food_donations db)))
      with (FoodDonation.id donation).
    rewrite <- E. now apply in_map. }
  exists (Db.add_donation donation db).
  split; [|split; [exact Hfresh | split; [|split; [reflexivity | split; [|split]]]]].
  - unfold Donor.add_donation. rewrite (donor_route db session u _ Hu).
    rewrite Hv. cbv zeta. fold donation. unfold Db.try_commit.
    replace (Db.unique_ok (Db.add_donation donation db)) with (Db.unique_ok db)
      by reflexivity.
    now rewrite (cons_unique _ Hs).
  - unfold Db.get_donation in *. tables.
    rewrite find_app_none; [|exact Hfresh]. simpl. now rewrite Z.eqb_refl.
  - intros j d Hd. unfold Db.get_donation in *. tables. now apply find_app_some.
  - destruct (validated_expiry _ _ _ _ Hv) as (e & Ee & He).
    unfold FoodDonation.can_be_claimed, FoodDonation.is_expired, donation,
      Donor.new_donation.
    cbn [FoodDonation.status FoodDonation.expiry_date DonationStatus.eqb].
    rewrite Ee. cbn [andb]. apply negb_true_iff, Z.ltb_ge. lia.
  - unfold Db.claim_of_donation. tables.
    destruct (find _ (Db.claims db)) as [c|] eqn:F; [|reflexivity].
    exfalso. apply find_some in F. destruct F as [Hin E]. apply Z.eqb_eq in E.
    destruct (cons_claim_donation _ Hs c Hin) as (d & Hd & Ed).
    apply (next_id_not_in (map FoodDonation.id (Db.food_donations db))).
    change (Db.next_id (map FoodDonation.id (Db.food_donations db)))
      with (FoodDonation.id donation).
    rewrite <- E, <- Ed. now apply in_map.
Qed.

Lemma add_donation_succeeds_witness :
  exists db',
    Donor.add_donation (Scenario.env 100) (Some 3) Scenario.post Town.bagels_form
      (run (removelast Town.trace) (bootstrap Scenario.categories))
    = (db', flash ("Food donation " ++ dquote ++ "Day-old Bagels"
                   ++ dquote ++ " has been added successfully!")%string "success"
              (redirect (url_for "donor.dashboard" None)))
    /\ Db.get_donation
         (run (removelast Town.trace) (bootstrap Scenario.categories)) 2 = None
    /\ Db.get_donation db' 2 = Some (Town.bagels DonationStatus.available)
    /\ 3 = 3
    /\ (forall j d,
          Db.get_donation
            (run (removelast Town.trace) (bootstrap Scenario.categories)) j = Some d ->
          Db.get_donation db' j = Some d)
    /\ FoodDonation.can_be_claimed 100 (Town.bagels DonationStatus.available) = true
    /\ Db.claim_of_donation db' 2 = None.
Proof.
  assert (Hs : served (run (removelast Town.trace) (bootstrap Scenario.categories))).
  { apply reachable_served.
    exists Scenario.categories, (removelast Town.trace). split; reflexivity. }
  assert (Hu : donor_session
                 (run (removelast Town.trace) (bootstrap Scenario.categories))
                 (Some 3) Town.bakery).
  { repeat split; vm_compute; reflexivity. }
  exact (add_donation_succeeds (Scenario.env 100) (Some 3) Town.bakery Scenario.post
           Town.bagels_form _ Hs Hu eq_refl).
Defined.


